(** * frontend-hud: the diagnostics providers and their [/__hud] endpoint

    A shallow embedding of the two build-tool plugin templates,
    [templates/vite-hud-plugin.ts] and the Webpack plugin
    [webpack-hud-plugin.ts] (its source follows the Vue overlay in
    [templates/vue-hud.vue]), and the properties of their static
    diagnostics channel, their detection helpers and their live counters.

    Layout:
    - [JS]      the fragment of JavaScript the plugins rely on (values,
                truthiness, property reads, object spread, [JSON.stringify],
                completions with [try]/[catch]);
    - [Node]    the host services the plugins call ([readFileSync],
                [path.resolve], [JSON.parse], [process]) and the HTTP
                response object;
    - [Vite]    [hudPlugin] and its hooks;
    - [Webpack] [HudWebpackPlugin] and [hudDevServerMiddleware];
    - the marker tables of framework detection, the documented lockfile
      priority, sample projects and builds;
    - [VueHud], [ReactHud] the helpers and handlers of the overlay scripts;
    - the theorems: counters, endpoint, detection, static channel, then
      further properties of the plugins and of the overlay.

    Numbers.  The counters and timestamps are JavaScript numbers holding
    integers; [++], [-] and [Math.floor (_ / 1000)] are exact on integers of
    magnitude below 2^53, which covers every [Date.now ()] value and every
    counter of a run with fewer than 2^53 events, so they are modelled by
    [Z] with [Z.div] (which rounds towards minus infinity like
    [Math.floor]). *)

From Stdlib Require Import ZArith String Ascii List Bool Lia.
From stdpp Require Import base option strings list pretty gmap.
Import ListNotations.

#[local] Open Scope string_scope.
#[local] Open Scope Z_scope.
Set Warnings "-register-all".

(* ===================================================================== *)
(** ** The JavaScript fragment                                            *)
(* ===================================================================== *)

Module JS.

(** Values as [JSON.parse] produces them, plus [undefined] and [NaN].
    An object is its list of own properties in creation order.  Numerals
    are integers: the plugins only ever test a parsed number for being
    zero. *)
Inductive Value : Type :=
  | Undefined
  | Null
  | Bool (b : bool)
  | Num (n : Z)
  | NaN
  | Str (s : string)
  | Arr (items : list Value)
  | Obj (props : list (string * Value)).

Inductive Error : Type :=
  | TypeError (what : string)
  | SyntaxError (what : string)
  | SystemError (code : string).

(** The outcome of evaluating an expression or a call: a value, or a
    thrown exception. *)
Inductive Completion (A : Type) : Type :=
  | Normal (a : A)
  | Throw (e : Error).
Arguments Normal {A} a.
Arguments Throw {A} e.

Definition bind {A B} (c : Completion A) (k : A -> Completion B) : Completion B :=
  match c with
  | Normal a => k a
  | Throw e => Throw e
  end.

(** [try { body } catch { handler }] *)
Definition try_catch {A} (body : Completion A) (handler : Error -> Completion A)
  : Completion A :=
  match body with
  | Normal a => Normal a
  | Throw e => handler e
  end.

Definition returns {A} (c : Completion A) : Prop := exists a, c = Normal a.

#[global] Instance completion_bind : MBind Completion :=
  fun A B k c => bind c k.
#[global] Instance completion_ret : MRet Completion := @Normal.

(** ToBoolean *)
Definition truthy (v : Value) : bool :=
  match v with
  | Undefined | Null | NaN => false
  | Bool b => b
  | Num n => negb (n =? 0)
  | Str s => negb (String.eqb s "")
  | Arr _ | Obj _ => true
  end.

(** [a || b] on values *)
Definition or_else (a b : Value) : Value := if truthy a then a else b.

(** Own property of an object, first binding of the key. *)
Fixpoint own (props : list (string * Value)) (k : string) : option Value :=
  match props with
  | [] => None
  | (k', v) :: rest => if String.eqb k' k then Some v else own rest k
  end.

(** [obj[k] = v]: overwrite in place, or create at the end.  (An engine
    lists integer-like keys first; nothing below depends on the order of
    such keys.) *)
Fixpoint set_prop (props : list (string * Value)) (k : string) (v : Value)
  : list (string * Value) :=
  match props with
  | [] => [(k, v)]
  | (k', v') :: rest =>
      if String.eqb k' k then (k', v) :: rest else (k', v') :: set_prop rest k v
  end.

Definition chars (s : string) : list Value :=
  map (fun c => Str (String c EmptyString)) (list_ascii_of_string s).

(** The element of an array-like at key [k], when [k] is the canonical
    decimal spelling of an index in range. *)
Fixpoint at_index_from (i : nat) (items : list Value) (k : string) : option Value :=
  match items with
  | [] => None
  | v :: rest =>
      if String.eqb (pretty i) k then Some v else at_index_from (S i) rest k
  end.

(** [v.k] / [v[k]] on own properties.  Reading a property of [undefined]
    or [null] throws.  Members inherited from the built-in prototypes are
    not modelled: none of the names read below ([dependencies],
    [devDependencies] and the marker package names) is one. *)
Definition get (v : Value) (k : string) : Completion Value :=
  match v with
  | Undefined | Null => Throw (TypeError "Cannot read properties of undefined or null")
  | Obj props => Normal (default Undefined (own props k))
  | Arr items =>
      if String.eqb k "length" then Normal (Num (Z.of_nat (length items)))
      else Normal (default Undefined (at_index_from 0 items k))
  | Str s =>
      if String.eqb k "length" then Normal (Num (Z.of_nat (String.length s)))
      else Normal (default Undefined (at_index_from 0 (chars s) k))
  | Bool _ | Num _ | NaN => Normal Undefined
  end.

(** The own enumerable properties that [{ ...v }] copies. *)
Fixpoint indexed_from (i : nat) (items : list Value) : list (string * Value) :=
  match items with
  | [] => []
  | v :: rest => (pretty i, v) :: indexed_from (S i) rest
  end.

Definition enumerable (v : Value) : list (string * Value) :=
  match v with
  | Obj props => props
  | Arr items => indexed_from 0 items
  | Str s => indexed_from 0 (chars s)
  | Undefined | Null | Bool _ | Num _ | NaN => []
  end.

(** [{ ...target, ...source }], one source at a time. *)
Definition spread (target : list (string * Value)) (source : Value)
  : list (string * Value) :=
  fold_left (fun acc kv => set_prop acc (fst kv) (snd kv)) (enumerable source) target.

(** *** [JSON.stringify] *)

Definition dquote : ascii := "034"%char.
Definition backslash : ascii := "092"%char.

Definition hex_digit (n : N) : ascii :=
  ascii_of_N (if (n <? 10)%N then 48 + n else 87 + n)%N.

(** QuoteJSONString on one character: the two-character escapes, [\u00xx]
    for the other control characters, every other character as it is. *)
Definition escape_char (c : ascii) : string :=
  let n := N_of_ascii c in
  if Ascii.eqb c dquote then String backslash (String dquote EmptyString)
  else if Ascii.eqb c backslash then String backslash (String backslash EmptyString)
  else if (n =? 8)%N then String backslash "b"
  else if (n =? 9)%N then String backslash "t"
  else if (n =? 10)%N then String backslash "n"
  else if (n =? 12)%N then String backslash "f"
  else if (n =? 13)%N then String backslash "r"
  else if (n <? 32)%N then
    String backslash
      ("u00" +:+ String (hex_digit (n / 16)) (String (hex_digit (n mod 16)) EmptyString))
  else String c EmptyString.

Fixpoint escape (s : string) : string :=
  match s with
  | EmptyString => EmptyString
  | String c rest => escape_char c +:+ escape rest
  end.

Definition quote (s : string) : string :=
  String dquote (escape s +:+ String dquote EmptyString).

Fixpoint join (sep : string) (parts : list string) : string :=
  match parts with
  | [] => ""
  | [p] => p
  | p :: rest => p +:+ sep +:+ join sep rest
  end.

(** [JSON.stringify v]; [None] is the result [undefined].  An [undefined]
    member of an object is left out, an [undefined] element of an array is
    printed [null], and [NaN] is printed [null]. *)
Fixpoint stringify (v : Value) : option string :=
  match v with
  | Undefined => None
  | Null | NaN => Some "null"
  | Bool true => Some "true"
  | Bool false => Some "false"
  | Num n => Some (pretty n)
  | Str s => Some (quote s)
  | Arr items =>
      Some ("[" +:+ join "," (map (fun x => default "null" (stringify x)) items) +:+ "]")
  | Obj props =>
      let member (kv : string * Value) : option string :=
        match stringify (snd kv) with
        | Some text => Some (quote (fst kv) +:+ ":" +:+ text)
        | None => None
        end in
      Some ("{" +:+ join "," (omap member props) +:+ "}")
  end.

(** A template literal's [${ JSON.stringify (v) }] *)
Definition stringify_in_template (v : Value) : string :=
  default "undefined" (stringify v).

(** [s.replace(/[\^~]/, '')]: the first caret or tilde is removed. *)
Fixpoint strip_range_prefix (s : string) : string :=
  match s with
  | EmptyString => EmptyString
  | String c rest =>
      if Ascii.eqb c "^"%char || Ascii.eqb c "~"%char then rest
      else String c (strip_range_prefix rest)
  end.

(** [v.replace(/[\^~]/, '')] on a value: only strings have [replace]. *)
Definition replace_range_prefix (v : Value) : Completion string :=
  match v with
  | Str s => Normal (strip_range_prefix s)
  | Undefined | Null =>
      Throw (TypeError "Cannot read properties of undefined or null")
  | Bool _ | Num _ | NaN | Arr _ | Obj _ =>
      Throw (TypeError "version.replace is not a function")
  end.

Definition strs (l : list string) : Value := Arr (map Str l).

End JS.

(* ===================================================================== *)
(** ** The host: file system, [process], HTTP response                    *)
(* ===================================================================== *)

Module Node.
Import JS.

(** The parts of [process] the plugins read. *)
Record Process : Type := {
  version : string;               (* process.version *)
  versions_bun : option string;   (* process.versions.bun *)
  argv : list string;             (* process.argv *)
  env_PORT : option string;       (* process.env.PORT *)
  env_HOST : option string;       (* process.env.HOST *)
  cwd : string                    (* process.cwd () *)
}.

(** The services a plugin calls.  [readFileSync] throws on a missing or
    unreadable file, [JSON_parse] on malformed text, and [resolve]
    ([path.resolve (root, name)]) when it needs a working directory that
    is gone. *)
Record Host : Type := {
  readFileSync : string -> Completion string;
  resolve : string -> string -> Completion string;
  JSON_parse : string -> Completion Value;
  process : Process
}.

(** [readFileSync (resolve (root, name))] *)
Definition readResolved (h : Host) (root name : string) : Completion string :=
  path ← resolve h root name;
  readFileSync h path.

(** [http.IncomingMessage] *)
Record IncomingMessage : Type := {
  method : string;
  url : string
}.

(** [http.ServerResponse]: headers are kept under their lower-cased name
    together with the spelling they were set with. *)
Record ServerResponse : Type := {
  statusCode : Z;
  headers : list (string * (string * string));
  headersSent : bool;
  body : string;
  writableEnded : bool
}.

(** A response as the server hands it to the first handler. *)
Definition createResponse : ServerResponse :=
  {| statusCode := 200; headers := []; headersSent := false;
     body := ""; writableEnded := false |}.

Definition lower_char (c : ascii) : ascii :=
  let n := N_of_ascii c in
  if ((65 <=? n) && (n <=? 90))%N then ascii_of_N (n + 32) else c.

Fixpoint toLowerCase (s : string) : string :=
  match s with
  | EmptyString => EmptyString
  | String c rest => String (lower_char c) (toLowerCase rest)
  end.

Fixpoint set_header (hs : list (string * (string * string)))
    (key name value : string) : list (string * (string * string)) :=
  match hs with
  | [] => [(key, (name, value))]
  | (key', nv) :: rest =>
      if String.eqb key' key then (key', (name, value)) :: rest
      else (key', nv) :: set_header rest key name value
  end.

(** [res.setHeader (name, value)] *)
Definition setHeader (res : ServerResponse) (name value : string)
  : Completion ServerResponse :=
  if headersSent res then Throw (SystemError "ERR_HTTP_HEADERS_SENT")
  else Normal
    {| statusCode := statusCode res;
       headers := set_header (headers res) (toLowerCase name) name value;
       headersSent := false;
       body := body res;
       writableEnded := writableEnded res |}.

(** [res.getHeader (name)] *)
Fixpoint getHeader_in (hs : list (string * (string * string))) (key : string)
  : option string :=
  match hs with
  | [] => None
  | (key', (_, value)) :: rest =>
      if String.eqb key' key then Some value else getHeader_in rest key
  end.

Definition getHeader (res : ServerResponse) (name : string) : option string :=
  getHeader_in (headers res) (toLowerCase name).

(** [res.end (data)]: the head and [data] are flushed and the response is
    finished; on a finished response nothing more is written. *)
Definition end_ (res : ServerResponse) (data : string) : ServerResponse :=
  if writableEnded res then res
  else
    {| statusCode := statusCode res;
       headers := headers res;
       headersSent := true;
       body := body res +:+ data;
       writableEnded := true |}.

(** What a connect-style handler did with a request: the response object
    after it ran, and whether it called [next ()]. *)
Record Handled : Type := {
  response : ServerResponse;
  next_called : bool
}.

End Node.

(* ===================================================================== *)
(** ** [templates/vite-hud-plugin.ts]                                     *)
(* ===================================================================== *)

Module Vite.
Import JS Node.

Definition VIRTUAL_MODULE_ID : string := "virtual:hud-diagnostics".
Definition RESOLVED_VIRTUAL_MODULE_ID : string :=
  String "000"%char VIRTUAL_MODULE_ID.

(** [interface HudDiagnostics] and the constant [EMPTY_DIAGNOSTICS] *)
Module HudDiagnostics.
Record t : Type := {
  framework : string;
  frameworkVersion : string;
  viteVersion : string;
  nodeVersion : string;
  runtime : string;
  runtimeVersion : string;
  packageManager : string;
  port : Z;
  host : string;
  https : bool;
  base : string;
  mode : string;
  envPrefix : list string;
  plugins : list string;
  cliFlags : list string;
  moduleCount : Z;
  resolvedAliases : list (string * Value)
}.

(** The object as [JSON.stringify] sees it: the members in the order of
    the object literal. *)
Definition to_value (d : t) : Value :=
  Obj [ ("framework", Str (framework d));
        ("frameworkVersion", Str (frameworkVersion d));
        ("viteVersion", Str (viteVersion d));
        ("nodeVersion", Str (nodeVersion d));
        ("runtime", Str (runtime d));
        ("runtimeVersion", Str (runtimeVersion d));
        ("packageManager", Str (packageManager d));
        ("port", Num (port d));
        ("host", Str (host d));
        ("https", Bool (https d));
        ("base", Str (base d));
        ("mode", Str (mode d));
        ("envPrefix", strs (envPrefix d));
        ("plugins", strs (plugins d));
        ("cliFlags", strs (cliFlags d));
        ("moduleCount", Num (moduleCount d));
        ("resolvedAliases", Obj (resolvedAliases d)) ].
End HudDiagnostics.

Definition EMPTY_DIAGNOSTICS : HudDiagnostics.t :=
  {| HudDiagnostics.framework := "";
     HudDiagnostics.frameworkVersion := "";
     HudDiagnostics.viteVersion := "";
     HudDiagnostics.nodeVersion := "";
     HudDiagnostics.runtime := "";
     HudDiagnostics.runtimeVersion := "";
     HudDiagnostics.packageManager := "";
     HudDiagnostics.port := 0;
     HudDiagnostics.host := "";
     HudDiagnostics.https := false;
     HudDiagnostics.base := "/";
     HudDiagnostics.mode := "production";
     HudDiagnostics.envPrefix := [];
     HudDiagnostics.plugins := [];
     HudDiagnostics.cliFlags := [];
     HudDiagnostics.moduleCount := 0;
     HudDiagnostics.resolvedAliases := [] |}.

(** What [detectFramework] returns.  The version is whatever value the
    manifest holds under the marker. *)
Record FrameworkInfo : Type := {
  name : string;
  version : Value
}.

(** [deps[k]] on the merged dependency object *)
Definition dep (deps : list (string * Value)) (k : string) : Value :=
  default Undefined (own deps k).

(** [const deps = { ...pkg.dependencies, ...pkg.devDependencies }] *)
Definition merged_dependencies (pkg : Value) : Completion (list (string * Value)) :=
  dependencies ← get pkg "dependencies";
  devDependencies ← get pkg "devDependencies";
  Normal (spread (spread [] dependencies) devDependencies).

(** The chain of [if (deps[...]) return ...] *)
Definition framework_of (deps : list (string * Value)) : FrameworkInfo :=
  if truthy (dep deps "@sveltejs/kit")
  then {| name := "sveltekit"; version := dep deps "@sveltejs/kit" |}
  else if truthy (dep deps "nuxt")
  then {| name := "nuxt"; version := dep deps "nuxt" |}
  else if truthy (dep deps "next")
  then {| name := "nextjs"; version := dep deps "next" |}
  else if truthy (dep deps "vue")
  then {| name := "vue"; version := dep deps "vue" |}
  else if truthy (dep deps "react")
  then {| name := "react"; version := dep deps "react" |}
  else {| name := "vite"; version := Str "--" |}.

Definition detectFramework (h : Host) (root : string) : Completion FrameworkInfo :=
  try_catch
    (text ← readResolved h root "package.json";
     pkg ← JSON_parse h text;
     deps ← merged_dependencies pkg;
     Normal (framework_of deps))
    (fun _ => Normal {| name := "vite"; version := Str "--" |}).

Definition files : list string :=
  ["bun.lockb"; "yarn.lock"; "pnpm-lock.yaml"; "package-lock.json"].
Definition managers : list string := ["bun"; "yarn"; "pnpm"; "npm"].

(** The [for] loop from index [i] with [remaining] iterations to go; the
    inner [try] returns [managers[i]] when the read succeeds and continues
    with the next index when it throws.  Both arrays have four entries, so
    [i] is always in range. *)
Fixpoint lockfile_loop (h : Host) (root : string) (remaining i : nat)
  : Completion string :=
  match remaining with
  | O => Normal "npm"
  | S remaining' =>
      try_catch
        (_ ← readResolved h root (nth i files "");
         Normal (nth i managers ""))
        (fun _ => lockfile_loop h root remaining' (S i))
  end.

Definition detectPackageManager (h : Host) (root : string) : Completion string :=
  try_catch
    (lockfile_loop h root (length files) 0)
    (fun _ => Normal "npm").

Definition detectRuntime (p : Process) : string * string :=
  match versions_bun p with
  | Some v => if truthy (Str v) then ("bun", v) else ("node", Node.version p)
  | None => ("node", Node.version p)
  end.

(** The fields of Vite's [ResolvedConfig] that [configResolved] reads. *)
Module Config.
Inductive HostOption : Type :=
  | HostName (s : string)      (* server.host: 'example.test' *)
  | HostFlag (b : bool)        (* server.host: true *)
  | HostUnset.

Inductive PrefixOption : Type :=
  | PrefixList (l : list string)
  | PrefixOne (s : string)
  | PrefixUnset.

Inductive Find : Type :=
  | FindString (s : string)
  | FindRegExp (source : string).

Record Alias : Type := { find : Find; replacement : string }.

Record t : Type := {
  command : string;
  root : string;
  env_VITE_VERSION : option string;   (* config.env?.VITE_VERSION *)
  server_port : option Z;
  server_host : HostOption;
  server_https : bool;                (* config.server.https is set *)
  base : string;
  mode : string;
  envPrefix : PrefixOption;
  plugins : list string;              (* the [name] of each plugin *)
  resolve_alias : list Alias
}.
End Config.

Definition string_or (o : option string) (fallback : string) : string :=
  match o with
  | Some s => if truthy (Str s) then s else fallback
  | None => fallback
  end.

(** [Object.fromEntries] over the aliases whose [find] is a string *)
Definition aliases (l : list Config.Alias) : list (string * Value) :=
  fold_left
    (fun acc a =>
       match Config.find a with
       | Config.FindString s => set_prop acc s (Str (Config.replacement a))
       | Config.FindRegExp _ => acc
       end)
    l [].

(** The closure variables of one [hudPlugin ()] instance. *)
Record Plugin : Type := {
  config : option Config.t;
  diagnostics : option HudDiagnostics.t;
  moduleCount : Z;
  openConnections : Z;
  errorCount : Z;
  startTime : Z;
  isServe : bool
}.

(** [hudPlugin ()], called when [Date.now ()] is [now]. *)
Definition hudPlugin (now : Z) : Plugin :=
  {| config := None; diagnostics := None;
     moduleCount := 0; openConnections := 0; errorCount := 0;
     startTime := now; isServe := false |}.

(** The object literal assigned to [diagnostics]; taking the version's
    [replace] throws when the manifest holds a non-string there. *)
Definition collect (h : Host) (c : Config.t) : Completion HudDiagnostics.t :=
  fw ← detectFramework h (Config.root c);
  let rt := detectRuntime (process h) in
  stripped ← replace_range_prefix (version fw);
  pm ← detectPackageManager h (Config.root c);
  Normal
    {| HudDiagnostics.framework := name fw;
       HudDiagnostics.frameworkVersion := stripped;
       HudDiagnostics.viteVersion := string_or (Config.env_VITE_VERSION c) "--";
       HudDiagnostics.nodeVersion := Node.version (process h);
       HudDiagnostics.runtime := fst rt;
       HudDiagnostics.runtimeVersion := snd rt;
       HudDiagnostics.packageManager := pm;
       HudDiagnostics.port := match Config.server_port c with
               | Some p => if truthy (Num p) then p else 5173
               | None => 5173
               end;
       HudDiagnostics.host := match Config.server_host c with
               | Config.HostName s => s
               | Config.HostFlag true => "0.0.0.0"
               | Config.HostFlag false | Config.HostUnset => "localhost"
               end;
       HudDiagnostics.https := Config.server_https c;
       HudDiagnostics.base := Config.base c;
       HudDiagnostics.mode := Config.mode c;
       HudDiagnostics.envPrefix := match Config.envPrefix c with
                    | Config.PrefixList l => l
                    | Config.PrefixOne s => [string_or (Some s) "VITE_"]
                    | Config.PrefixUnset => ["VITE_"]
                    end;
       HudDiagnostics.plugins := Config.plugins c;
       HudDiagnostics.cliFlags := drop 2 (argv (process h));
       HudDiagnostics.moduleCount := 0;
       HudDiagnostics.resolvedAliases := aliases (Config.resolve_alias c) |}.

(** [configResolved (resolvedConfig)]: the plugin afterwards, and how the
    hook completed.  [isServe] and [config] are assigned before anything
    can throw. *)
Definition configResolved (h : Host) (p : Plugin) (c : Config.t)
  : Plugin * Completion unit :=
  let p1 :=
    {| config := Some c; diagnostics := diagnostics p;
       moduleCount := moduleCount p;
       openConnections := openConnections p; errorCount := errorCount p;
       startTime := startTime p;
       isServe := String.eqb (Config.command c) "serve" |} in
  match collect h c with
  | Normal d =>
      ({| config := config p1; diagnostics := Some d;
          moduleCount := moduleCount p1;
          openConnections := openConnections p1; errorCount := errorCount p1;
          startTime := startTime p1; isServe := isServe p1 |}, Normal tt)
  | Throw e => (p1, Throw e)
  end.

(** [resolveId (id)]; [None] is [undefined]. *)
Definition resolveId (id : string) : option string :=
  if String.eqb id VIRTUAL_MODULE_ID then Some RESOLVED_VIRTUAL_MODULE_ID else None.

(** [load (id)]: the source text of the virtual module, [None] for any
    other id. *)
Definition load (p : Plugin) (id : string) : option string :=
  if String.eqb id RESOLVED_VIRTUAL_MODULE_ID then
    let data :=
      if isServe p
      then match diagnostics p with Some d => HudDiagnostics.to_value d | None => Undefined end
      else HudDiagnostics.to_value EMPTY_DIAGNOSTICS in
    Some ("export default " +:+ stringify_in_template data +:+ ";")
  else None.

(** *** [configureServer]: the handlers it registers

    One event is one run of a registered callback, or a socket closing,
    for which nothing is registered.  [clearInterval] only stops further
    ticks from being delivered; it touches none of the plugin's
    variables. *)
Inductive Event : Type :=
  | IntervalTick (size : nat)
      (* updateModuleCount, with server.moduleGraph.idToModuleMap.size *)
  | HttpServerClose              (* () => clearInterval (interval) *)
  | WsConnection                 (* server.ws.on ('connection', ...) *)
  | WsError                      (* server.ws.on ('error', ...) *)
  | WsClose.                     (* a socket closes: no listener is registered *)

Definition on (p : Plugin) (e : Event) : Plugin :=
  match e with
  | IntervalTick size =>
      {| config := config p; diagnostics := diagnostics p;
         moduleCount := Z.of_nat size;
         openConnections := openConnections p; errorCount := errorCount p;
         startTime := startTime p; isServe := isServe p |}
  | HttpServerClose | WsClose => p
  | WsConnection =>
      {| config := config p; diagnostics := diagnostics p;
         moduleCount := moduleCount p;
         openConnections := openConnections p + 1; errorCount := errorCount p;
         startTime := startTime p; isServe := isServe p |}
  | WsError =>
      {| config := config p; diagnostics := diagnostics p;
         moduleCount := moduleCount p;
         openConnections := openConnections p; errorCount := errorCount p + 1;
         startTime := startTime p; isServe := isServe p |}
  end.

Definition run (p : Plugin) (events : list Event) : Plugin :=
  fold_left on events p.

(** The object literal handed to [JSON.stringify] at time [now]. *)
Definition metrics (p : Plugin) (now : Z) : Value :=
  Obj [ ("moduleCount", Num (moduleCount p));
        ("openConnections", Num (openConnections p));
        ("errorCount", Num (errorCount p));
        ("uptime", Num ((now - startTime p) / 1000)) ].

(** The handler given to [server.middlewares.use], run while
    [Date.now ()] is [now]. *)
Definition middleware (p : Plugin) (now : Z) (req : IncomingMessage)
    (res : ServerResponse) : Completion Handled :=
  if String.eqb (url req) "/__hud" then
    res1 ← setHeader res "Content-Type" "application/json";
    res2 ← setHeader res1 "Cache-Control" "no-store";
    Normal {| response := end_ res2 (stringify_in_template (metrics p now));
              next_called := false |}
  else
    Normal {| response := res; next_called := true |}.

End Vite.

(* ===================================================================== *)
(** ** The Webpack plugin ([webpack-hud-plugin.ts])                       *)
(* ===================================================================== *)

Module Webpack.
Import JS Node.

Module HudDiagnostics.
Record t : Type := {
  framework : string;
  frameworkVersion : string;
  webpackVersion : string;
  nodeVersion : string;
  runtime : string;
  runtimeVersion : string;
  packageManager : string;
  port : Value;
  host : Value;
  https : bool;
  base : string;
  mode : string;
  plugins : list string;
  cliFlags : list string
}.

Definition to_value (d : t) : Value :=
  Obj [ ("framework", Str (framework d));
        ("frameworkVersion", Str (frameworkVersion d));
        ("webpackVersion", Str (webpackVersion d));
        ("nodeVersion", Str (nodeVersion d));
        ("runtime", Str (runtime d));
        ("runtimeVersion", Str (runtimeVersion d));
        ("packageManager", Str (packageManager d));
        ("port", port d);
        ("host", host d);
        ("https", Bool (https d));
        ("base", Str (base d));
        ("mode", Str (mode d));
        ("plugins", strs (plugins d));
        ("cliFlags", strs (cliFlags d)) ].
End HudDiagnostics.

(** The module-level variables shared by the plugin and the middleware. *)
Record Metrics : Type := {
  moduleCount : Z;
  errorCount : Z;
  startTime : Z
}.

(** The module's top level, evaluated when [Date.now ()] is [now]. *)
Definition module_loaded (now : Z) : Metrics :=
  {| moduleCount := 0; errorCount := 0; startTime := now |}.

Record FrameworkInfo : Type := {
  name : string;
  version : Value
}.

Definition dep (deps : list (string * Value)) (k : string) : Value :=
  default Undefined (own deps k).

Definition merged_dependencies (pkg : Value) : Completion (list (string * Value)) :=
  dependencies ← get pkg "dependencies";
  devDependencies ← get pkg "devDependencies";
  Normal (spread (spread [] dependencies) devDependencies).

Definition framework_of (deps : list (string * Value)) : FrameworkInfo :=
  if truthy (dep deps "react-scripts")
  then {| name := "cra"; version := dep deps "react-scripts" |}
  else if truthy (dep deps "next")
  then {| name := "nextjs"; version := dep deps "next" |}
  else if truthy (dep deps "react")
  then {| name := "react"; version := dep deps "react" |}
  else if truthy (dep deps "vue")
  then {| name := "vue"; version := dep deps "vue" |}
  else {| name := "webpack"; version := Str "--" |}.

Definition detectFramework (h : Host) (root : string) : Completion FrameworkInfo :=
  try_catch
    (text ← readResolved h root "package.json";
     pkg ← JSON_parse h text;
     deps ← merged_dependencies pkg;
     Normal (framework_of deps))
    (fun _ => Normal {| name := "webpack"; version := Str "--" |}).

Definition files : list string :=
  ["bun.lockb"; "yarn.lock"; "pnpm-lock.yaml"; "package-lock.json"].
Definition managers : list string := ["bun"; "yarn"; "pnpm"; "npm"].

Fixpoint lockfile_loop (h : Host) (root : string) (remaining i : nat)
  : Completion string :=
  match remaining with
  | O => Normal "npm"
  | S remaining' =>
      try_catch
        (_ ← readResolved h root (nth i files "");
         Normal (nth i managers ""))
        (fun _ => lockfile_loop h root remaining' (S i))
  end.

(** No outer [try] in this variant. *)
Definition detectPackageManager (h : Host) (root : string) : Completion string :=
  lockfile_loop h root (length files) 0.

Definition detectRuntime (p : Process) : string * string :=
  match versions_bun p with
  | Some v => if truthy (Str v) then ("bun", v) else ("node", Node.version p)
  | None => ("node", Node.version p)
  end.

Definition string_or (o : option string) (fallback : string) : string :=
  match o with
  | Some s => if truthy (Str s) then s else fallback
  | None => fallback
  end.

(** *** [parseInt (s, 10)] on ASCII text: leading blanks, a sign, then the
    longest run of digits; [NaN] when there is none. *)
Definition is_blank (c : ascii) : bool :=
  let n := N_of_ascii c in
  ((n =? 32) || ((9 <=? n) && (n <=? 13)))%N.

Definition digit (c : ascii) : option Z :=
  let n := N_of_ascii c in
  if ((48 <=? n) && (n <=? 57))%N then Some (Z.of_N n - 48) else None.

Fixpoint skip_blanks (s : string) : string :=
  match s with
  | String c rest => if is_blank c then skip_blanks rest else s
  | EmptyString => s
  end.

Fixpoint digits (s : string) (acc : option Z) : option Z :=
  match s with
  | String c rest =>
      match digit c with
      | Some d => digits rest (Some (10 * default 0 acc + d))
      | None => acc
      end
  | EmptyString => acc
  end.

Definition parseInt (s : string) : Value :=
  let magnitude (t : string) (sign : Z) :=
    match digits t None with
    | Some n => Num (sign * n)
    | None => NaN
    end in
  match skip_blanks s with
  | String "-"%char rest => magnitude rest (-1)
  | String "+"%char rest => magnitude rest 1
  | t => magnitude t 1
  end.

(** The parts of the compiler that [apply] reads. *)
Module Compiler.
Record DevServer : Type := {
  port : Value;
  host : Value;
  https : Value
}.

Record t : Type := {
  mode : option string;            (* compiler.options.mode *)
  context : string;                (* compiler.context *)
  webpack_version : option string; (* compiler.webpack.version *)
  publicPath : option string;      (* options.output?.publicPath?.toString () *)
  plugins : option (list (option string));
                                   (* p?.constructor?.name of each plugin *)
  devServer : option DevServer     (* options.devServer, when set *)
}.
End Compiler.

(** What [apply] installed on the compiler: the globals handed to
    [DefinePlugin] and the names tapped on [hooks.done]. *)
Record Applied : Type := {
  definitions : list (string * option string);
  done_taps : list string
}.

(** [typeof __HUD_DIAGNOSTICS__ !== 'undefined'] in the bundle: the text
    the global was defined with, if it was defined at all. *)
Fixpoint defined (defs : list (string * option string)) (global : string)
  : option (option string) :=
  match defs with
  | [] => None
  | (g, text) :: rest => if String.eqb g global then Some text else defined rest global
  end.

Definition constructor_names (l : list (option string)) : list string :=
  omap (fun n => match n with
                 | Some s => if truthy (Str s) && negb (String.eqb s "Object")
                             then Some s else None
                 | None => None
                 end) l.

(** The [if (devServer) { ... }] block *)
Definition with_devServer (d : HudDiagnostics.t) (o : option Compiler.DevServer)
  : HudDiagnostics.t :=
  match o with
  | None => d
  | Some ds =>
      {| HudDiagnostics.framework := HudDiagnostics.framework d;
         HudDiagnostics.frameworkVersion := HudDiagnostics.frameworkVersion d;
         HudDiagnostics.webpackVersion := HudDiagnostics.webpackVersion d;
         HudDiagnostics.nodeVersion := HudDiagnostics.nodeVersion d;
         HudDiagnostics.runtime := HudDiagnostics.runtime d;
         HudDiagnostics.runtimeVersion := HudDiagnostics.runtimeVersion d;
         HudDiagnostics.packageManager := HudDiagnostics.packageManager d;
         HudDiagnostics.port :=
           if truthy (Compiler.port ds) then Compiler.port ds
           else HudDiagnostics.port d;
         HudDiagnostics.host :=
           if truthy (Compiler.host ds) then Compiler.host ds
           else HudDiagnostics.host d;
         HudDiagnostics.https :=
           if truthy (Compiler.https ds) then true else HudDiagnostics.https d;
         HudDiagnostics.base := HudDiagnostics.base d;
         HudDiagnostics.mode := HudDiagnostics.mode d;
         HudDiagnostics.plugins := HudDiagnostics.plugins d;
         HudDiagnostics.cliFlags := HudDiagnostics.cliFlags d |}
  end.

Definition collect (h : Host) (c : Compiler.t) : Completion HudDiagnostics.t :=
  let root := string_or (Some (Compiler.context c)) (cwd (process h)) in
  fw ← detectFramework h root;
  let rt := detectRuntime (process h) in
  stripped ← replace_range_prefix (version fw);
  pm ← detectPackageManager h root;
  Normal
    {| HudDiagnostics.framework := name fw;
       HudDiagnostics.frameworkVersion := stripped;
       HudDiagnostics.webpackVersion := string_or (Compiler.webpack_version c) "--";
       HudDiagnostics.nodeVersion := Node.version (process h);
       HudDiagnostics.runtime := fst rt;
       HudDiagnostics.runtimeVersion := snd rt;
       HudDiagnostics.packageManager := pm;
       HudDiagnostics.port := parseInt (string_or (env_PORT (process h)) "3000");
       HudDiagnostics.host := Str (string_or (env_HOST (process h)) "localhost");
       HudDiagnostics.https := false;
       HudDiagnostics.base := string_or (Compiler.publicPath c) "/";
       HudDiagnostics.mode := "development";
       HudDiagnostics.plugins :=
         match Compiler.plugins c with
         | Some l => constructor_names l
         | None => []
         end;
       HudDiagnostics.cliFlags := drop 2 (argv (process h)) |}.

(** [HudWebpackPlugin.apply (compiler)] *)
Definition apply (h : Host) (c : Compiler.t) : Completion Applied :=
  if negb (bool_decide (Compiler.mode c = Some "development")) then
    Normal {| definitions := []; done_taps := [] |}
  else
    d ← collect h c;
    let diagnostics := with_devServer d (Compiler.devServer c) in
    Normal
      {| definitions :=
           [("__HUD_DIAGNOSTICS__", stringify (HudDiagnostics.to_value diagnostics))];
         done_taps := ["HudWebpackPlugin"] |}.

(** [stats.toJson ({ modules: true, errors: true })] *)
Record StatsJson : Type := {
  modules : option (list string);
  errors : option (list string)
}.

(** [x?.length || 0] *)
Definition length_or_0 (x : option (list string)) : Z :=
  match x with
  | Some l => Z.of_nat (length l)
  | None => 0
  end.

(** One event is one run of the callback tapped on [hooks.done]. *)
Inductive Event : Type :=
  | Done (info : StatsJson).

Definition on (m : Metrics) (e : Event) : Metrics :=
  match e with
  | Done info =>
      {| moduleCount := length_or_0 (modules info);
         errorCount := length_or_0 (errors info);
         startTime := startTime m |}
  end.

Definition run (m : Metrics) (events : list Event) : Metrics :=
  fold_left on events m.

Definition metrics (m : Metrics) (now : Z) : Value :=
  Obj [ ("moduleCount", Num (moduleCount m));
        ("openConnections", Num 0);
        ("errorCount", Num (errorCount m));
        ("uptime", Num ((now - startTime m) / 1000)) ].

(** The handler [hudDevServerMiddleware ()] returns, run while
    [Date.now ()] is [now]. *)
Definition hudDevServerMiddleware (m : Metrics) (now : Z) (req : IncomingMessage)
    (res : ServerResponse) : Completion Handled :=
  if String.eqb (url req) "/__hud" then
    res1 ← setHeader res "Content-Type" "application/json";
    res2 ← setHeader res1 "Cache-Control" "no-store";
    Normal {| response := end_ res2 (stringify_in_template (metrics m now));
              next_called := false |}
  else
    Normal {| response := res; next_called := true |}.

End Webpack.

(* ===================================================================== *)
(** ** Polling the endpoint                                               *)
(* ===================================================================== *)

Import JS Node.
#[local] Open Scope list_scope.

(** The body of the documented response,
    [{ "moduleCount": _, "openConnections": _, "errorCount": _, "uptime": _ }]. *)
Definition member_text (key text : string) : string :=
  quote key +:+ ":" +:+ text.

Definition hud_body (moduleCount openConnections errorCount uptime : Z) : string :=
  "{" +:+ join "," [ member_text "moduleCount" (pretty moduleCount);
                     member_text "openConnections" (pretty openConnections);
                     member_text "errorCount" (pretty errorCount);
                     member_text "uptime" (pretty uptime) ] +:+ "}".

(** The request the overlay sends every five seconds: [fetch ('/__hud')]. *)
Definition hud_request : IncomingMessage :=
  {| method := "GET"; url := "/__hud" |}.

(** What the client reads: the body of a response the handler finished
    itself. *)
Definition answer (c : Completion Handled) : option string :=
  match c with
  | Normal r =>
      if next_called r then None
      else if writableEnded (response r) then Some (body (response r)) else None
  | Throw _ => None
  end.

Definition poll_vite (p : Vite.Plugin) (now : Z) : option string :=
  answer (Vite.middleware p now hud_request createResponse).

Definition poll_webpack (m : Webpack.Metrics) (now : Z) : option string :=
  answer (Webpack.hudDevServerMiddleware m now hud_request createResponse).

(** Text with apostrophes standing for double quotes, to spell JSON in
    examples. *)
Fixpoint json_text (s : string) : string :=
  match s with
  | EmptyString => EmptyString
  | String c rest =>
      String (if Ascii.eqb c "'"%char then dquote else c) (json_text rest)
  end.

(** *** Event sequences *)

Module ViteEvents.
Import Vite.

Definition is_error (e : Event) : bool :=
  match e with WsError => true | _ => false end.

Definition is_connection (e : Event) : bool :=
  match e with WsConnection => true | _ => false end.

(** The number of runs of the error callback in a sequence *)
Definition errors (events : list Event) : Z :=
  Z.of_nat (length (filter (fun e => is_error e = true) events)).

Definition connections (events : list Event) : Z :=
  Z.of_nat (length (filter (fun e => is_connection e = true) events)).

(** The module counts carried by a sequence, in order *)
Definition counts (events : list Event) : list Z :=
  omap (fun e => match e with
                 | IntervalTick size => Some (Z.of_nat size)
                 | _ => None
                 end) events.
End ViteEvents.

Module WebpackEvents.
Import Webpack.

Definition counts (events : list Event) : list Z :=
  map (fun e => match e with Done info => length_or_0 (modules info) end) events.

Definition error_counts (events : list Event) : list Z :=
  map (fun e => match e with Done info => length_or_0 (errors info) end) events.

(** All the errors the compilations of a sequence reported *)
Definition errors (events : list Event) : Z :=
  foldr Z.add 0 (error_counts events).
End WebpackEvents.

Definition total (l : list Z) : Z := foldr Z.add 0 l.

(* ===================================================================== *)
(** ** Builds and answers used below                                     *)
(* ===================================================================== *)

(** A compilation that failed with two errors, and the next one, after the
    errors were fixed. *)
Definition failed_build : Webpack.Event :=
  Webpack.Done {| Webpack.modules := Some ["src/index.js"];
                  Webpack.errors := Some ["Module not found"; "Unexpected token"] |}.

Definition fixed_build : Webpack.Event :=
  Webpack.Done {| Webpack.modules := Some ["src/index.js"];
                  Webpack.errors := Some [] |}.

(** The path of a request target: the target up to its query string. *)
Fixpoint pathname (target : string) : string :=
  match target with
  | EmptyString => EmptyString
  | String c rest =>
      if Ascii.eqb c "?"%char then EmptyString else String c (pathname rest)
  end.

(** The overlay's request with a cache-busting query string. *)
Definition hud_request_with_query : IncomingMessage :=
  {| method := "GET"; url := "/__hud?t=1" |}.

(** The answer of a handler to [/__hud] on the response [before]: the
    status is the one the response had (the handlers do not assign
    [statusCode]), the two headers are set, the response is finished with
    [text] written to it, and [next] is not called. *)
Definition hud_answer (before : ServerResponse) (text : string) (r : Handled) : Prop :=
  next_called r = false /\
  statusCode (response r) = statusCode before /\
  getHeader (response r) "Content-Type" = Some "application/json" /\
  getHeader (response r) "Cache-Control" = Some "no-store" /\
  writableEnded (response r) = true /\
  body (response r) = body before +:+ text.

(** The request is handed to the next handler, the response untouched. *)
Definition passed_on (before : ServerResponse) (c : Completion Handled) : Prop :=
  c = Normal {| response := before; next_called := true |}.

(** The four members of the body, and nothing else. *)
Definition counter_fields : list string :=
  ["moduleCount"; "openConnections"; "errorCount"; "uptime"].

Definition four_counters (v : Value) (text : string) : Prop :=
  exists members,
    v = Obj members /\ map fst members = counter_fields /\
    Forall (fun kv => exists n, snd kv = Num n) members /\
    stringify v = Some text.

(* ===================================================================== *)
(** ** Marker tables, lockfile priority and sample projects              *)
(* ===================================================================== *)

(** *** The marker tables

    The markers each variant looks for, in the order it looks for them,
    with the framework name reported and whether the framework builds on
    another (a meta-framework) or is a base library.  The two variants
    have different tables: [nuxt] and [@sveltejs/kit] are markers of the
    Vite variant only, [react-scripts] of the Webpack variant only.  The
    detection theorem below relates each variant to its table. *)
Module Markers.

Inductive Tier : Type := Meta | Base.

Record Marker : Type := {
  package : string;     (* the dependency looked for *)
  reported : string;    (* the framework name reported *)
  tier : Tier
}.

Definition vite_markers : list Marker :=
  [ {| package := "@sveltejs/kit"; reported := "sveltekit"; tier := Meta |};
    {| package := "nuxt"; reported := "nuxt"; tier := Meta |};
    {| package := "next"; reported := "nextjs"; tier := Meta |};
    {| package := "vue"; reported := "vue"; tier := Base |};
    {| package := "react"; reported := "react"; tier := Base |} ].

Definition webpack_markers : list Marker :=
  [ {| package := "react-scripts"; reported := "cra"; tier := Meta |};
    {| package := "next"; reported := "nextjs"; tier := Meta |};
    {| package := "react"; reported := "react"; tier := Base |};
    {| package := "vue"; reported := "vue"; tier := Base |} ].

(** The manifest has an entry for the package, whatever its value. *)
Definition listed (deps : list (string * Value)) (m : Marker) : Prop :=
  exists v, own deps (package m) = Some v.

(** The entry counts for the code: its value is truthy, as every
    non-empty version string is. *)
Definition matches (deps : list (string * Value)) (m : Marker) : bool :=
  truthy (default Undefined (own deps (package m))).

Definition first_match (table : list Marker) (deps : list (string * Value))
  : option Marker :=
  List.find (matches deps) table.

(** [m] is the first entry of the table that counts: it counts, and no
    entry before it does. *)
Definition first_counting (table : list Marker) (deps : list (string * Value))
    (m : Marker) : Prop :=
  exists before after,
    table = before ++ m :: after /\
    matches deps m = true /\
    Forall (fun m' => matches deps m' = false) before.

(** The name and version to report: those of the marker found, or the
    build tool's name with the version [--]. *)
Definition report (tool : string) (deps : list (string * Value))
    (found : option Marker) : string * Value :=
  match found with
  | Some m => (reported m, default Undefined (own deps (package m)))
  | None => (tool, Str "--")
  end.

Definition is_meta (m : Marker) : bool :=
  match tier m with Meta => true | Base => false end.

(** Every meta-framework entry comes before every base entry. *)
Fixpoint meta_first (table : list Marker) : bool :=
  match table with
  | [] => true
  | m :: rest => (is_meta m || forallb (fun m' => negb (is_meta m')) rest)
                 && meta_first rest
  end.

End Markers.

(** *** The documented lockfile priority

    The lockfiles in their documented priority order, with the package
    manager each stands for; [npm] when none is found.  The theorems
    below compare the loop of the code with this list. *)
Module Documented.

Definition lockfile_priority : list (string * string) :=
  [ ("bun.lockb", "bun"); ("yarn.lock", "yarn");
    ("pnpm-lock.yaml", "pnpm"); ("package-lock.json", "npm") ].

Definition first_readable (readable : string -> bool) : string :=
  match List.find (fun entry => readable (fst entry)) lockfile_priority with
  | Some entry => snd entry
  | None => "npm"
  end.

End Documented.

(** [readFileSync (resolve (root, name))] does not throw. *)
Definition readable (h : Host) (root name : string) : bool :=
  match readResolved h root name with
  | Normal _ => true
  | Throw _ => false
  end.

(** *** A host over a finite table of files, for examples

    [JSON.parse] returns the document whose JSON text it is given. *)
Definition sample_process : Process :=
  {| Node.version := "v20.11.0"; versions_bun := None;
     argv := ["node"; "vite"; "--host"];
     env_PORT := None; env_HOST := None; cwd := "/srv/app" |}.

Fixpoint file_in (table : list (string * string)) (path : string) : option string :=
  match table with
  | [] => None
  | (p, text) :: rest => if String.eqb p path then Some text else file_in rest path
  end.

Definition table_host (table : list (string * string)) (documents : list Value)
  : Host :=
  {| readFileSync := fun path =>
       match file_in table path with
       | Some text => Normal text
       | None => Throw (SystemError "ENOENT")
       end;
     resolve := fun root name => Normal (root +:+ "/" +:+ name);
     JSON_parse := fun text =>
       match List.find (fun v => bool_decide (stringify v = Some text)) documents with
       | Some v => Normal v
       | None => Throw (SyntaxError "Unexpected token")
       end;
     process := sample_process |}.

Definition manifest (dependencies devDependencies : list (string * Value)) : Value :=
  Obj [ ("name", Str "app");
        ("dependencies", Obj dependencies);
        ("devDependencies", Obj devDependencies) ].

(** A project with the given manifest and lockfiles under [/srv/app]. *)
Definition project (pkg : Value) (lockfiles : list string) : Host :=
  table_host
    (("/srv/app/package.json", stringify_in_template pkg)
       :: map (fun name => ("/srv/app/" +:+ name, "lock")) lockfiles)
    [pkg].

Definition nuxt_app : Value :=
  manifest [("nuxt", Str "^3.8.0"); ("vue", Str "^3.3.0")] [("vite", Str "^5.0.0")].

Definition next_app : Value :=
  manifest [("next", Str "14.0.0"); ("react", Str "^18.2.0")]
           [("typescript", Str "^5.3.0")].

(** A manifest that accepts any version of Nuxt: the empty range. *)
Definition any_nuxt_app : Value :=
  manifest [("nuxt", Str ""); ("vue", Str "^3.3.0")] [].

Definition nuxt_app_dependencies : list (string * Value) :=
  [("nuxt", Str "^3.8.0"); ("vue", Str "^3.3.0"); ("vite", Str "^5.0.0")].

Definition nuxt_marker : Markers.Marker :=
  {| Markers.package := "nuxt"; Markers.reported := "nuxt";
     Markers.tier := Markers.Meta |}.

Definition vue_marker : Markers.Marker :=
  {| Markers.package := "vue"; Markers.reported := "vue";
     Markers.tier := Markers.Base |}.

(** Two dependency objects that differ at most in the entries for [nuxt]
    and [@sveltejs/kit]. *)
Definition same_but_nuxt_and_sveltekit (deps deps' : list (string * Value)) : Prop :=
  forall k, k <> "nuxt" -> k <> "@sveltejs/kit" -> own deps' k = own deps k.

(** An empty directory, and directories whose [package.json] is not JSON
    or is the JSON text [null]. *)
Definition empty_directory : Host := table_host [] [].

Definition broken_manifest : Host :=
  table_host [("/srv/app/package.json", "{ name: ")] [].

Definition null_manifest : Host :=
  table_host [("/srv/app/package.json", "null")] [Null].

(* ===================================================================== *)
(** ** Sample builds and configurations                                  *)
(* ===================================================================== *)

(** The global the overlay of a Webpack project reads. *)
Definition HUD_GLOBAL : string := "__HUD_DIAGNOSTICS__".

Definition production_build : Webpack.Compiler.t :=
  {| Webpack.Compiler.mode := Some "production";
     Webpack.Compiler.context := "/srv/app";
     Webpack.Compiler.webpack_version := Some "5.89.0";
     Webpack.Compiler.publicPath := Some "/";
     Webpack.Compiler.plugins := Some [Some "HudWebpackPlugin"];
     Webpack.Compiler.devServer := None |}.

Definition development_build : Webpack.Compiler.t :=
  {| Webpack.Compiler.mode := Some "development";
     Webpack.Compiler.context := "/srv/app";
     Webpack.Compiler.webpack_version := Some "5.89.0";
     Webpack.Compiler.publicPath := None;
     Webpack.Compiler.plugins := Some [Some "HudWebpackPlugin"; Some "Object"; None];
     Webpack.Compiler.devServer :=
       Some {| Webpack.Compiler.port := Num 8080;
               Webpack.Compiler.host := Undefined;
               Webpack.Compiler.https := Bool false |} |}.

(** The text the virtual module exports outside [serve]. *)
Definition EMPTY_MODULE : string :=
  "export default "
    +:+ stringify_in_template (Vite.HudDiagnostics.to_value Vite.EMPTY_DIAGNOSTICS)
    +:+ ";".

Definition build_config : Vite.Config.t :=
  {| Vite.Config.command := "build";
     Vite.Config.root := "/srv/app";
     Vite.Config.env_VITE_VERSION := None;
     Vite.Config.server_port := Some 3000;
     Vite.Config.server_host := Vite.Config.HostFlag true;
     Vite.Config.server_https := false;
     Vite.Config.base := "/app/";
     Vite.Config.mode := "production";
     Vite.Config.envPrefix := Vite.Config.PrefixUnset;
     Vite.Config.plugins := ["vite:vue"; "vite-hud-plugin"];
     Vite.Config.resolve_alias :=
       [ {| Vite.Config.find := Vite.Config.FindString "@";
            Vite.Config.replacement := "/srv/app/src" |} ] |}.

Definition serve_config : Vite.Config.t :=
  {| Vite.Config.command := "serve";
     Vite.Config.root := "/srv/app";
     Vite.Config.env_VITE_VERSION := None;
     Vite.Config.server_port := Some 3000;
     Vite.Config.server_host := Vite.Config.HostFlag true;
     Vite.Config.server_https := false;
     Vite.Config.base := "/app/";
     Vite.Config.mode := "development";
     Vite.Config.envPrefix := Vite.Config.PrefixUnset;
     Vite.Config.plugins := ["vite:vue"; "vite-hud-plugin"];
     Vite.Config.resolve_alias :=
       [ {| Vite.Config.find := Vite.Config.FindString "@";
            Vite.Config.replacement := "/srv/app/src" |} ] |}.

(* ===================================================================== *)
(** ** The overlay ([templates/vue-hud.vue], [templates/react-hud.tsx])   *)
(* ===================================================================== *)

(** The script of the Vue overlay and, where it differs, of the React
    one.  Byte counts, timestamps and pixel coordinates are integers. *)
Module VueHud.
Import JS.

(** *** Helpers *)

(** Byte counts are integers.  The digits [Number::toString] prints are
    those of the integer itself as long as its magnitude is below 2^53;
    above, they are the shortest digits that read back as the same
    double, and from 10^21 on the number is printed in exponent notation,
    by [toFixed] as well.  [Number_toString num den] stands for the text
    of the number [num / den] in those cases. *)
Section Numbers.
Variable Number_toString : Z -> Z -> string.

Definition MAX_SAFE_INTEGER : Z := 2 ^ 53 - 1.

(** [`${x}`] for an integer [x] *)
Definition toString (x : Z) : string :=
  if Z.abs x <=? MAX_SAFE_INTEGER then pretty x else Number_toString x 1.

(** [x.toFixed (1)] for [x = num / den], with [0 <= num] and [den] a power
    of two, so that the quotient is an exact double: below 10^21 the
    tenths [n] nearest to [x], the larger one on a tie, printed as
    [n / 10], a point and [n mod 10]. *)
Definition toFixed1 (num den : Z) : string :=
  if 10 ^ 21 * den <=? num then Number_toString num den
  else
    let n := (20 * num + den) / (2 * den) in
    pretty (n / 10) +:+ "." +:+ pretty (n mod 10).

Definition formatBytes (bytes : Z) : string :=
  if bytes =? 0 then "0 B"
  else if bytes <? 1024 then toString bytes +:+ " B"
  else if bytes <? 1024 * 1024 then toFixed1 bytes 1024 +:+ " KB"
  else toFixed1 bytes (1024 * 1024) +:+ " MB".

End Numbers.

(** A [DOMString] is its sequence of UTF-16 code units; a [Storage] is its
    list of entries, [key (i)] the key of the [i]th and [getItem] the
    value under a key, both [null] when there is none. *)
Definition DOMString : Type := list N.
Definition Storage : Type := list (DOMString * DOMString).

Definition key (storage : Storage) (i : nat) : option DOMString :=
  match storage !! i with
  | Some entry => Some (fst entry)
  | None => None
  end.

Fixpoint getItem (storage : Storage) (k : DOMString) : option DOMString :=
  match storage with
  | [] => None
  | (k', v) :: rest => if bool_decide (k' = k) then Some v else getItem rest k
  end.

(** Reading [.length] of [null] throws. *)
Definition non_null {A : Type} (o : option A) : Completion A :=
  match o with
  | Some a => Normal a
  | None => Throw (TypeError "Cannot read properties of null")
  end.

Record StorageSize : Type := {
  bytes : Z;
  keys : Z
}.

(** The [for] loop of [getStorageSize] from index [i], with [remaining]
    iterations to go. *)
Fixpoint size_loop (storage : Storage) (remaining i : nat) (total : Z)
  : Completion Z :=
  match remaining with
  | O => Normal total
  | S remaining' =>
      k ← non_null (key storage i);
      v ← non_null (getItem storage k);
      size_loop storage remaining' (S i)
        (total + (Z.of_nat (length k) + Z.of_nat (length v)) * 2)
  end.

Definition getStorageSize (storage : Storage) : Completion StorageSize :=
  total ← size_loop storage (length storage) 0 0;
  Normal {| bytes := total; keys := Z.of_nat (length storage) |}.

(** *** Computed values *)

(** [hmrRelativeTime] ([getRelativeTime] in the React overlay), evaluated
    while [Date.now ()] is [now]; [lastUpdate] is the time of the [Date],
    [None] for [null]. *)
Definition hmrRelativeTime (toLocaleTimeString : Z -> string) (now : Z)
    (lastUpdate : option Z) : string :=
  match lastUpdate with
  | None => "--"
  | Some t =>
      let diff := (now - t) / 1000 in
      if diff <? 60 then pretty diff +:+ "s ago"
      else if diff <? 3600 then pretty (diff / 60) +:+ "m ago"
      else toLocaleTimeString t
  end.

(** [s.includes (sub)] and [s.startsWith (pre)] *)
Fixpoint includes (s sub : string) : bool :=
  String.prefix sub s
  || match s with
     | EmptyString => false
     | String _ rest => includes rest sub
     end.

Definition startsWith (s pre : string) : bool := String.prefix pre s.

Definition names_a_backend (key : string) : bool :=
  includes key "API" || includes key "BACKEND" || includes key "SERVER"
  || includes key "BASE_URL".

(** One turn of the loop over [Object.entries (import.meta.env)] *)
Definition push_vite_url (urls : list (string * string)) (entry : string * Value)
  : list (string * string) :=
  match snd entry with
  | Str value =>
      if names_a_backend (fst entry) && negb (startsWith (fst entry) "__")
      then urls ++ [(fst entry, value)]
      else urls
  | _ => urls
  end.

(** [backendUrls]; [env] is [import.meta.env], [None] when it is not
    set. *)
Definition backendUrls (env : option (list (string * Value)))
  : list (string * string) :=
  match env with
  | None => []
  | Some entries => fold_left push_vite_url entries []
  end.

(** *** Sections and visibility *)

(** [sections] is [reactive ({ environment: true, ... })]: an object
    literal behind Vue's reactive proxy.  Its own members are booleans,
    kept in a finite map; nothing here depends on the order of the keys.

    A read of [sections[name]] goes to the proxy, which answers some keys
    itself (its flags, such as [__v_isReactive]) and hands every other to
    the object.  The object gives its own member when it has one;
    otherwise the lookup goes on in [Object.prototype], whose members are
    all truthy (functions, and under [__proto__] the prototype itself);
    a name found nowhere reads [undefined]. *)
Definition Object_prototype : list string :=
  [ "constructor"; "__defineGetter__"; "__defineSetter__"; "hasOwnProperty";
    "__lookupGetter__"; "__lookupSetter__"; "isPrototypeOf";
    "propertyIsEnumerable"; "toString"; "valueOf"; "__proto__";
    "toLocaleString" ].

Definition inherited (name : string) : bool :=
  bool_decide (name ∈ Object_prototype).

Section Sections.

(** What the proxy answers by itself: [Some t] for a key it does not hand
    to the object, [t] being the truthiness of its answer. *)
Variable proxy_answer : string -> option bool.

(** The truthiness of [sections[name]] *)
Definition section_is_open (sections : gmap string bool) (name : string) : bool :=
  match proxy_answer name with
  | Some answer => answer
  | None =>
      match sections !! name with
      | Some flag => flag
      | None => inherited name
      end
  end.

(** [sections[name] = value] for a boolean: the proxy hands every
    assignment to the object.  An own member is overwritten.  Otherwise
    the member is added, except under [__proto__], where the assignment
    runs the setter inherited from [Object.prototype], which ignores a
    boolean. *)
Definition assign_section (sections : gmap string bool) (name : string)
    (value : bool) : gmap string bool :=
  match sections !! name with
  | Some _ => <[name := value]> sections
  | None =>
      if String.eqb name "__proto__" then sections
      else <[name := value]> sections
  end.

(** [sections[name] = !sections[name]] *)
Definition toggleSection (sections : gmap string bool) (name : string)
  : gmap string bool :=
  assign_section sections name (negb (section_is_open sections name)).

End Sections.

Definition initial_sections : gmap string bool :=
  list_to_map
    [ ("environment", true); ("server", true); ("routes", true);
      ("backend", false); ("storage", false);
      ("performance", false); ("hmr", true) ].

Record KeyboardEvent : Type := {
  ctrlKey : bool;
  metaKey : bool;
  shiftKey : bool;
  key_name : string            (* e.key *)
}.

Definition is_toggle_chord (e : KeyboardEvent) : bool :=
  (ctrlKey e || metaKey e) && shiftKey e && String.eqb (key_name e) "H".

(** [onKeyDown]: the new value of [visible], and whether
    [preventDefault] was called. *)
Definition onKeyDown (visible : bool) (e : KeyboardEvent) : bool * bool :=
  if is_toggle_chord e then (negb visible, true) else (visible, false).

(** *** Dragging *)

Record Drag : Type := {
  dragging : bool;
  dragOffset : Z * Z;
  position : Z * Z
}.

(** [position] starts at [(-1, -1)]: the overlay is docked by the
    stylesheet. *)
Definition initial_drag : Drag :=
  {| dragging := false; dragOffset := (0, 0); position := (-1, -1) |}.

Inductive DragEvent : Type :=
  | MouseDown (clientX clientY : Z) (rect : option (Z * Z))
      (* on the header; [rect] is the left and top of the closest
         [.hud-container], [None] when there is none *)
  | MouseMove (clientX clientY innerWidth innerHeight : Z)
  | MouseUp.

Definition onDragStart (d : Drag) (clientX clientY : Z) (rect : option (Z * Z))
  : Drag :=
  match rect with
  | None => {| dragging := true; dragOffset := dragOffset d; position := position d |}
  | Some (rect_left, rect_top) =>
      {| dragging := true;
         dragOffset := (clientX - rect_left, clientY - rect_top);
         position := position d |}
  end.

Definition onDragMove (d : Drag) (clientX clientY innerWidth innerHeight : Z) : Drag :=
  if negb (dragging d) then d
  else
    {| dragging := dragging d;
       dragOffset := dragOffset d;
       position :=
         (Z.max 0 (Z.min (innerWidth - 320) (clientX - fst (dragOffset d))),
          Z.max 0 (Z.min (innerHeight - 40) (clientY - snd (dragOffset d)))) |}.

Definition onDragEnd (d : Drag) : Drag :=
  {| dragging := false; dragOffset := dragOffset d; position := position d |}.

Definition drag_on (d : Drag) (e : DragEvent) : Drag :=
  match e with
  | MouseDown x y rect => onDragStart d x y rect
  | MouseMove x y w h => onDragMove d x y w h
  | MouseUp => onDragEnd d
  end.

(** [positionStyle]: the pairs of the style object. *)
Definition positionStyle (d : Drag) : list (string * string) :=
  if 0 <=? fst (position d) then
    [ ("left", pretty (fst (position d)) +:+ "px");
      ("top", pretty (snd (position d)) +:+ "px");
      ("right", "auto"); ("bottom", "auto") ]
  else [].

(** *** Polling [/__hud] *)










(** *** Storage metrics *)

(** [s.split (sep)] for a one-character separator *)
Fixpoint split (sep : ascii) (s : string) : list string :=
  match s with
  | EmptyString => [EmptyString]
  | String c rest =>
      if Ascii.eqb c sep then EmptyString :: split sep rest
      else match split sep rest with
           | segment :: segments => String c segment :: segments
           | [] => [String c EmptyString]
           end
  end.

(** [document.cookie.split (';').filter (Boolean)]; the cookie
    string is held as its UTF-8 bytes, which [';'] splits like its code
    units. *)
Definition cookies (cookie : string) : list string :=
  List.filter (fun segment => truthy (Str segment)) (split ";"%char cookie).

Record StorageMetrics : Type := {
  localStorageBytes : Z;
  localStorageKeys : Z;
  sessionStorageBytes : Z;
  sessionStorageKeys : Z;
  cookieCount : Z;
  cookieBytes : Z
}.

(** [updateStorage]: the arguments are what reading [localStorage],
    [sessionStorage] and [document.cookie] gives, each of which throws
    where access is restricted; [new Blob ([cookie]).size] is the number of
    UTF-8 bytes. *)
Definition updateStorage (storageMetrics : StorageMetrics)
    (localStorage sessionStorage : Completion Storage) (cookie : Completion string)
  : StorageMetrics :=
  match
    try_catch
      (local ← localStorage;
       ls ← getStorageSize local;
       session ← sessionStorage;
       ss ← getStorageSize session;
       text ← cookie;
       Normal {| localStorageBytes := bytes ls; localStorageKeys := keys ls;
                 sessionStorageBytes := bytes ss; sessionStorageKeys := keys ss;
                 cookieCount := Z.of_nat (length (cookies text));
                 cookieBytes := Z.of_nat (String.length text) |})
      (fun _ => Normal storageMetrics)
  with
  | Normal after => after
  | Throw _ => storageMetrics
  end.

End VueHud.

Module ReactHud.
Import JS.

(** One turn of the loop over [Object.entries (process.env)] *)
Definition push_cra_url (urls : list (string * string)) (entry : string * Value)
  : list (string * string) :=
  match snd entry with
  | Str value =>
      if VueHud.startsWith (fst entry) "REACT_APP_" && VueHud.names_a_backend (fst entry)
      then urls ++ [(fst entry, value)]
      else urls
  | _ => urls
  end.

(** [getBackendUrls ()]; the arguments are [import.meta.env] and
    [process.env], [None] when not set. *)
Definition getBackendUrls (meta_env process_env : option (list (string * Value)))
  : list (string * string) :=
  let urls :=
    match meta_env with
    | None => []
    | Some entries => fold_left VueHud.push_vite_url entries []
    end in
  match process_env with
  | None => urls
  | Some entries => fold_left push_cra_url entries urls
  end.

End ReactHud.

(* ===================================================================== *)
(** ** Notions and samples for the further properties                     *)
(* ===================================================================== *)

(** A version range holds a caret or a tilde. *)
Fixpoint has_range_char (s : string) : bool :=
  match s with
  | EmptyString => false
  | String c rest =>
      Ascii.eqb c "^"%char || Ascii.eqb c "~"%char || has_range_char rest
  end.

(** The aliases [Object.fromEntries] receives: those whose [find] is a
    string, in order. *)
Definition string_aliases (l : list Vite.Config.Alias) : list (string * Value) :=
  omap (fun a => match Vite.Config.find a with
                 | Vite.Config.FindString s => Some (s, Str (Vite.Config.replacement a))
                 | Vite.Config.FindRegExp _ => None
                 end) l.

(** Two bytes for every code unit of a key and of its value. *)
Definition entry_bytes (entry : VueHud.DOMString * VueHud.DOMString) : Z :=
  2 * (Z.of_nat (length (fst entry)) + Z.of_nat (length (snd entry))).

(** [n] tenths, as [toFixed (1)] prints them. *)
Definition tenths (n : Z) : string :=
  pretty (n / 10) +:+ "." +:+ pretty (n mod 10).

(** What an engine prints for 2^90 / 2^20 = 2^70, the one number beyond
    10^21 used below. *)
Definition sample_Number_toString (num den : Z) : string :=
  if (num =? 2 ^ 90) && (den =? 2 ^ 20) then "1.1805916207174113e+21"
  else "".

(** [sub] occurs in [s]; [s] begins with [pre]. *)
Definition occurs_in (sub s : string) : Prop :=
  exists before after, s = before +:+ sub +:+ after.

Definition begins_with (pre s : string) : Prop :=
  exists rest, s = pre +:+ rest.

Definition backend_marker (key : string) : Prop :=
  occurs_in "API" key \/ occurs_in "BACKEND" key \/ occurs_in "SERVER" key
  \/ occurs_in "BASE_URL" key.

(** What one environment entry adds to the list of backend URLs, in the
    Vue overlay and in the second loop of the React overlay. *)
Definition vite_url (entry : string * Value) : option (string * string) :=
  match snd entry with
  | Str value =>
      if VueHud.names_a_backend (fst entry) && negb (VueHud.startsWith (fst entry) "__")
      then Some (fst entry, value) else None
  | _ => None
  end.

Definition cra_url (entry : string * Value) : option (string * string) :=
  match snd entry with
  | Str value =>
      if VueHud.startsWith (fst entry) "REACT_APP_" && VueHud.names_a_backend (fst entry)
      then Some (fst entry, value) else None
  | _ => None
  end.

(** A cookie pair as [document.cookie] lists it: not empty, and holding
    no semicolon. *)
Fixpoint has_semicolon (s : string) : bool :=
  match s with
  | EmptyString => false
  | String c rest => Ascii.eqb c ";"%char || has_semicolon rest
  end.

Definition cookie_pair (s : string) : Prop :=
  s <> "" /\ has_semicolon s = false.

Definition zero_storage_metrics : VueHud.StorageMetrics :=
  {| VueHud.localStorageBytes := 0; VueHud.localStorageKeys := 0;
     VueHud.sessionStorageBytes := 0; VueHud.sessionStorageKeys := 0;
     VueHud.cookieCount := 0; VueHud.cookieBytes := 0 |}.

Definition drag_run (events : list VueHud.DragEvent) : VueHud.Drag :=
  fold_left VueHud.drag_on events VueHud.initial_drag.

Definition keys_run (visible : bool) (events : list VueHud.KeyboardEvent) : bool :=
  fold_left (fun v e => fst (VueHud.onKeyDown v e)) events visible.

Definition chords (events : list VueHud.KeyboardEvent) : nat :=
  length (List.filter VueHud.is_toggle_chord events).

(** A manifest whose marker holds a number instead of a version string,
    and one declaring a package in both dependency groups. *)
Definition numeric_version_app : Value :=
  manifest [("vue", Num 3)] [].

Definition upgraded_app : Value :=
  manifest [("vue", Str "^2.7.0"); ("nuxt", Str "^3.8.0")]
           [("vue", Str "^3.4.0"); ("nuxt", Str "")].

Definition ranged_app : Value :=
  manifest [("react", Str "^17.0.0 || ^18.0.0")] [].

Definition code_units (s : string) : VueHud.DOMString :=
  map N_of_ascii (list_ascii_of_string s).

Definition sample_storage : VueHud.Storage :=
  [ (code_units "theme", code_units "dark");
    (code_units "token", code_units "abc123") ].

Definition sample_env : list (string * Value) :=
  [ ("BASE_URL", Str "/"); ("MODE", Str "development"); ("DEV", Bool true);
    ("VITE_API_URL", Str "https://api.example.test");
    ("__VITE_SERVER_HOST", Str "internal");
    ("VITE_TITLE", Str "Demo") ].

Definition sample_process_env : list (string * Value) :=
  [ ("NODE_ENV", Str "development"); ("API_KEY", Str "secret");
    ("REACT_APP_API_URL", Str "https://api.example.test");
    ("REACT_APP_TITLE", Str "Demo") ].

Definition shift_ctrl_H : VueHud.KeyboardEvent :=
  {| VueHud.ctrlKey := true; VueHud.metaKey := false; VueHud.shiftKey := true;
     VueHud.key_name := "H" |}.

(** The keys the reactive proxy of Vue 3 answers itself. *)
Definition vue3_flags (name : string) : option bool :=
  if String.eqb name "__v_isReactive" then Some true
  else if String.eqb name "__v_isReadonly" then Some false
  else if String.eqb name "__v_isShallow" then Some false
  else if String.eqb name "__v_raw" then Some true
  else None.



(* ===================================================================== *)
(** ** Lemmas on the counters                                             *)
(* ===================================================================== *)

Lemma last_cons_default (x : Z) (l : list Z) (d : Z) :
  List.last (x :: l) d = List.last l x.
Proof.
  revert x d. induction l as [|y l IH]; intros x d; [reflexivity|].
  change (List.last (y :: l) d = List.last (y :: l) x).
  now rewrite (IH y d), (IH y x).
Qed.

Lemma vite_run_snoc (p : Vite.Plugin) (events : list Vite.Event) (e : Vite.Event) :
  Vite.run p (events ++ [e]) = Vite.on (Vite.run p events) e.
Proof. unfold Vite.run. now rewrite fold_left_app. Qed.

Lemma vite_run_app (p : Vite.Plugin) (l1 l2 : list Vite.Event) :
  Vite.run p (l1 ++ l2) = Vite.run (Vite.run p l1) l2.
Proof. unfold Vite.run. now rewrite fold_left_app. Qed.

Lemma vite_errorCount_on (p : Vite.Plugin) (e : Vite.Event) :
  Vite.errorCount (Vite.on p e)
  = Vite.errorCount p + (if ViteEvents.is_error e then 1 else 0).
Proof. destruct e; simpl; lia. Qed.

Lemma vite_openConnections_on (p : Vite.Plugin) (e : Vite.Event) :
  Vite.openConnections (Vite.on p e)
  = Vite.openConnections p + (if ViteEvents.is_connection e then 1 else 0).
Proof. destruct e; simpl; lia. Qed.

Lemma vite_startTime_on (p : Vite.Plugin) (e : Vite.Event) :
  Vite.startTime (Vite.on p e) = Vite.startTime p.
Proof. now destruct e. Qed.

Lemma vite_errorCount_run (events : list Vite.Event) (p : Vite.Plugin) :
  Vite.errorCount (Vite.run p events) = Vite.errorCount p + ViteEvents.errors events.
Proof.
  revert p. induction events as [|e events IH]; intros p.
  - unfold ViteEvents.errors. simpl. lia.
  - change (Vite.run p (e :: events)) with (Vite.run (Vite.on p e) events).
    rewrite IH, vite_errorCount_on. unfold ViteEvents.errors.
    rewrite filter_cons. destruct e; simpl;
      repeat case_decide; try congruence; simpl length; lia.
Qed.

Lemma vite_openConnections_run (events : list Vite.Event) (p : Vite.Plugin) :
  Vite.openConnections (Vite.run p events)
  = Vite.openConnections p + ViteEvents.connections events.
Proof.
  revert p. induction events as [|e events IH]; intros p.
  - unfold ViteEvents.connections. simpl. lia.
  - change (Vite.run p (e :: events)) with (Vite.run (Vite.on p e) events).
    rewrite IH, vite_openConnections_on. unfold ViteEvents.connections.
    rewrite filter_cons. destruct e; simpl;
      repeat case_decide; try congruence; simpl length; lia.
Qed.

Lemma vite_startTime_run (events : list Vite.Event) (p : Vite.Plugin) :
  Vite.startTime (Vite.run p events) = Vite.startTime p.
Proof.
  revert p. induction events as [|e events IH]; intros p; [reflexivity|].
  change (Vite.run p (e :: events)) with (Vite.run (Vite.on p e) events).
  now rewrite IH, vite_startTime_on.
Qed.

Lemma vite_moduleCount_run (events : list Vite.Event) (p : Vite.Plugin) :
  Vite.moduleCount (Vite.run p events)
  = List.last (ViteEvents.counts events) (Vite.moduleCount p).
Proof.
  revert p. induction events as [|e events IH]; intros p; [reflexivity|].
  change (Vite.run p (e :: events)) with (Vite.run (Vite.on p e) events).
  rewrite IH. destruct e; try reflexivity.
  change (ViteEvents.counts (Vite.IntervalTick size :: events))
    with (Z.of_nat size :: ViteEvents.counts events).
  now rewrite last_cons_default.
Qed.

Lemma webpack_run_snoc (m : Webpack.Metrics) (events : list Webpack.Event)
    (e : Webpack.Event) :
  Webpack.run m (events ++ [e]) = Webpack.on (Webpack.run m events) e.
Proof. unfold Webpack.run. now rewrite fold_left_app. Qed.

Lemma webpack_startTime_run (events : list Webpack.Event) (m : Webpack.Metrics) :
  Webpack.startTime (Webpack.run m events) = Webpack.startTime m.
Proof.
  revert m. induction events as [|[info] events IH]; intros m; [reflexivity|].
  change (Webpack.run m (Webpack.Done info :: events))
    with (Webpack.run (Webpack.on m (Webpack.Done info)) events).
  now rewrite IH.
Qed.

Lemma webpack_moduleCount_run (events : list Webpack.Event) (m : Webpack.Metrics) :
  Webpack.moduleCount (Webpack.run m events)
  = List.last (WebpackEvents.counts events) (Webpack.moduleCount m).
Proof.
  revert m. induction events as [|[info] events IH]; intros m; [reflexivity|].
  change (Webpack.run m (Webpack.Done info :: events))
    with (Webpack.run (Webpack.on m (Webpack.Done info)) events).
  rewrite IH.
  change (WebpackEvents.counts (Webpack.Done info :: events))
    with (Webpack.length_or_0 (Webpack.modules info) :: WebpackEvents.counts events).
  now rewrite last_cons_default.
Qed.

Lemma webpack_errorCount_run (events : list Webpack.Event) (m : Webpack.Metrics) :
  Webpack.errorCount (Webpack.run m events)
  = List.last (WebpackEvents.error_counts events) (Webpack.errorCount m).
Proof.
  revert m. induction events as [|[info] events IH]; intros m; [reflexivity|].
  change (Webpack.run m (Webpack.Done info :: events))
    with (Webpack.run (Webpack.on m (Webpack.Done info)) events).
  rewrite IH.
  change (WebpackEvents.error_counts (Webpack.Done info :: events))
    with (Webpack.length_or_0 (Webpack.errors info)
            :: WebpackEvents.error_counts events).
  now rewrite last_cons_default.
Qed.

(** The handlers answer the overlay's request with the four counters. *)
Lemma poll_vite_body (p : Vite.Plugin) (now : Z) :
  poll_vite p now
  = Some (hud_body (Vite.moduleCount p) (Vite.openConnections p)
            (Vite.errorCount p) ((now - Vite.startTime p) / 1000)).
Proof. reflexivity. Qed.

Lemma poll_webpack_body (m : Webpack.Metrics) (now : Z) :
  poll_webpack m now
  = Some (hud_body (Webpack.moduleCount m) 0 (Webpack.errorCount m)
            ((now - Webpack.startTime m) / 1000)).
Proof. reflexivity. Qed.

Example hud_body_documented :
  hud_body 142 1 0 3600
  = json_text "{'moduleCount':142,'openConnections':1,'errorCount':0,'uptime':3600}".
Proof. vm_compute. reflexivity. Qed.

Lemma total_snoc (cs : list Z) (c : Z) : total (cs ++ [c]) = total cs + c.
Proof.
  unfold total. induction cs as [|x cs IH]; simpl; [lia|].
  change (foldr Z.add 0 (cs ++ [c])) with (total (cs ++ [c])) in *.
  unfold total in *. rewrite IH. lia.
Qed.

Lemma last_snoc (cs : list Z) (c d : Z) : List.last (cs ++ [c]) d = c.
Proof. apply List.last_last. Qed.

(* ===================================================================== *)
(** ** The live counters                                                  *)
(* ===================================================================== *)

(** C1, as stated, fails for the Webpack variant: after a compilation with
    two errors the endpoint reports [errorCount] 2, and after the next,
    clean compilation it reports 0.  The value went down, and it is not the
    number of errors delivered so far (two), nor the number of compilations
    that delivered errors (one, while 2 was reported). *)
Lemma C1_webpack_errorCount_drops :
  let before := Webpack.run (Webpack.module_loaded 0) [failed_build] in
  let after := Webpack.run (Webpack.module_loaded 0) [failed_build; fixed_build] in
  poll_webpack before 0 = Some (hud_body 1 0 2 0) /\
  poll_webpack after 0 = Some (hud_body 1 0 0 0) /\
  WebpackEvents.errors [failed_build; fixed_build] = 2 /\
  ~ (Webpack.errorCount before <= Webpack.errorCount after) /\
  Webpack.errorCount after <> WebpackEvents.errors [failed_build; fixed_build].
Proof. vm_compute. repeat split; congruence. Qed.

(** C1 (amended).  In the Vite variant, after any sequence of events
    holding N runs of the error callback the endpoint reports [errorCount]
    N, and no event lowers the counter.  In the Webpack variant the counter
    is overwritten by every finished compilation: the endpoint reports the
    number of errors of the latest one ([0] before the first). *)
Theorem C1_errorCount_vite_accumulates_webpack_latest :
  forall (t0 now : Z) (events more : list Vite.Event) (builds : list Webpack.Event),
    let p := Vite.run (Vite.hudPlugin t0) events in
    let m := Webpack.run (Webpack.module_loaded t0) builds in
    get (Vite.metrics p now) "errorCount" = Normal (Num (ViteEvents.errors events)) /\
    poll_vite p now
      = Some (hud_body (Vite.moduleCount p) (Vite.openConnections p)
                (ViteEvents.errors events) ((now - t0) / 1000)) /\
    Vite.errorCount p <= Vite.errorCount (Vite.run (Vite.hudPlugin t0) (events ++ more)) /\
    get (Webpack.metrics m now) "errorCount"
      = Normal (Num (List.last (WebpackEvents.error_counts builds) 0)) /\
    poll_webpack m now
      = Some (hud_body (Webpack.moduleCount m) 0
                (List.last (WebpackEvents.error_counts builds) 0) ((now - t0) / 1000)).
Proof.
  intros t0 now events more builds p m.
  assert (Hp : Vite.errorCount p = ViteEvents.errors events).
  { subst p. rewrite vite_errorCount_run. simpl. lia. }
  assert (Hm : Webpack.errorCount m = List.last (WebpackEvents.error_counts builds) 0).
  { subst m. now rewrite webpack_errorCount_run. }
  split; [|split; [|split; [|split]]].
  - change (get (Vite.metrics p now) "errorCount") with (Normal (Num (Vite.errorCount p))).
    now rewrite Hp.
  - rewrite poll_vite_body, Hp. subst p. now rewrite vite_startTime_run.
  - rewrite vite_run_app. fold p. rewrite (vite_errorCount_run more p).
    unfold ViteEvents.errors. lia.
  - change (get (Webpack.metrics m now) "errorCount")
      with (Normal (Num (Webpack.errorCount m))).
    now rewrite Hm.
  - rewrite poll_webpack_body, Hm. subst m. now rewrite webpack_startTime_run.
Qed.

(** C6.  After events carrying the module counts [c1..cN] the endpoint
    reports [moduleCount = cN] in both variants, and [0] when there was no
    such event; every such event overwrites the counter, so the report
    differs from the sum [c1 + ... + cN] as soon as the earlier counts do
    not add up to zero. *)
Theorem C6_moduleCount_last_write_wins :
  forall (t0 now : Z) (events : list Vite.Event) (builds : list Webpack.Event)
         (cs : list Z) (cN : Z),
    let p := Vite.run (Vite.hudPlugin t0) events in
    let m := Webpack.run (Webpack.module_loaded t0) builds in
    (ViteEvents.counts events = cs ++ [cN] ->
       get (Vite.metrics p now) "moduleCount" = Normal (Num cN) /\
       poll_vite p now
         = Some (hud_body cN (Vite.openConnections p) (Vite.errorCount p)
                   ((now - t0) / 1000)) /\
       (total cs <> 0 -> Vite.moduleCount p <> total (cs ++ [cN]))) /\
    (WebpackEvents.counts builds = cs ++ [cN] ->
       get (Webpack.metrics m now) "moduleCount" = Normal (Num cN) /\
       poll_webpack m now
         = Some (hud_body cN 0 (Webpack.errorCount m) ((now - t0) / 1000)) /\
       (total cs <> 0 -> Webpack.moduleCount m <> total (cs ++ [cN]))) /\
    (ViteEvents.counts events = [] -> Vite.moduleCount p = 0) /\
    (WebpackEvents.counts builds = [] -> Webpack.moduleCount m = 0) /\
    (forall size, Vite.moduleCount (Vite.on p (Vite.IntervalTick size)) = Z.of_nat size) /\
    (forall info, Webpack.moduleCount (Webpack.on m (Webpack.Done info))
                  = Webpack.length_or_0 (Webpack.modules info)).
Proof.
  intros t0 now events builds cs cN p m.
  assert (Hp : Vite.moduleCount p = List.last (ViteEvents.counts events) 0).
  { subst p. now rewrite vite_moduleCount_run. }
  assert (Hm : Webpack.moduleCount m = List.last (WebpackEvents.counts builds) 0).
  { subst m. now rewrite webpack_moduleCount_run. }
  split; [|split; [|split; [|split; [|split]]]].
  - intros Hcounts. rewrite Hcounts, last_snoc in Hp. split; [|split].
    + change (get (Vite.metrics p now) "moduleCount")
        with (Normal (Num (Vite.moduleCount p))).
      now rewrite Hp.
    + rewrite poll_vite_body, Hp. subst p. now rewrite vite_startTime_run.
    + intros Hsum. rewrite Hp, total_snoc. lia.
  - intros Hcounts. rewrite Hcounts, last_snoc in Hm. split; [|split].
    + change (get (Webpack.metrics m now) "moduleCount")
        with (Normal (Num (Webpack.moduleCount m))).
      now rewrite Hm.
    + rewrite poll_webpack_body, Hm. subst m. now rewrite webpack_startTime_run.
    + intros Hsum. rewrite Hm, total_snoc. lia.
  - intros Hcounts. now rewrite Hp, Hcounts.
  - intros Hcounts. now rewrite Hm, Hcounts.
  - reflexivity.
  - reflexivity.
Qed.

(** The scenario of the specification: counts 10, 25 and 40, then a poll. *)
Lemma C6_moduleCount_last_write_wins_witness :
  let events := [Vite.IntervalTick 10; Vite.WsConnection; Vite.IntervalTick 25;
                 Vite.IntervalTick 40; Vite.WsError] in
  let info n := {| Webpack.modules := Some (replicate n "m.js");
                   Webpack.errors := None |} in
  let builds := [Webpack.Done (info 10%nat); Webpack.Done (info 25%nat);
                 Webpack.Done (info 40%nat)] in
  poll_vite (Vite.run (Vite.hudPlugin 0) events) 2500 = Some (hud_body 40 1 1 2) /\
  Vite.moduleCount (Vite.run (Vite.hudPlugin 0) events) <> 75 /\
  poll_webpack (Webpack.run (Webpack.module_loaded 0) builds) 2500
    = Some (hud_body 40 0 0 2) /\
  Webpack.moduleCount (Webpack.run (Webpack.module_loaded 0) builds) <> 75.
Proof.
  intros events info builds.
  pose proof (C6_moduleCount_last_write_wins 0 2500 events builds [10; 25] 40) as H.
  destruct H as (Hv & Hw & _).
  destruct (Hv eq_refl) as (_ & Hv1 & Hv2). destruct (Hw eq_refl) as (_ & Hw1 & Hw2).
  split; [exact Hv1|]. split; [apply Hv2; discriminate|].
  split; [exact Hw1|]. apply Hw2; discriminate.
Defined.

(** The end-to-end scenario of the specification, on the Vite provider:
    nothing happened yet; then three module counts; then two errors. *)
Example end_to_end_scenario :
  let started := Vite.hudPlugin 1000 in
  let counted := Vite.run started [Vite.IntervalTick 10; Vite.IntervalTick 25;
                                   Vite.IntervalTick 40] in
  let failed := Vite.run counted [Vite.WsError; Vite.WsError] in
  poll_vite started 1400 = Some (hud_body 0 0 0 0) /\
  poll_vite counted 7400 = Some (hud_body 40 0 0 6) /\
  poll_vite failed 9400 = Some (hud_body 40 0 2 8).
Proof. repeat split. Qed.

(** C7.  A poll served at time [T] by a provider initialised at time [t0]
    reports, after any events, the [uptime] [u] with
    [1000 * u <= T - t0 < 1000 * (u + 1)], that is the whole number of
    seconds [floor ((T - t0) / 1000)] exactly (so also within one second
    of it), in both variants. *)
Theorem C7_uptime_is_floor_of_elapsed_seconds :
  forall (t0 T : Z) (events : list Vite.Event) (builds : list Webpack.Event),
    let p := Vite.run (Vite.hudPlugin t0) events in
    let m := Webpack.run (Webpack.module_loaded t0) builds in
    exists u : Z,
      poll_vite p T
        = Some (hud_body (Vite.moduleCount p) (Vite.openConnections p)
                  (Vite.errorCount p) u) /\
      poll_webpack m T
        = Some (hud_body (Webpack.moduleCount m) 0 (Webpack.errorCount m) u) /\
      get (Vite.metrics p T) "uptime" = Normal (Num u) /\
      get (Webpack.metrics m T) "uptime" = Normal (Num u) /\
      1000 * u <= T - t0 < 1000 * (u + 1) /\
      Z.abs (u - (T - t0) / 1000) <= 1.
Proof.
  intros t0 T events builds p m.
  assert (Hp : Vite.startTime p = t0).
  { subst p. now rewrite vite_startTime_run. }
  assert (Hm : Webpack.startTime m = t0).
  { subst m. now rewrite webpack_startTime_run. }
  exists ((T - t0) / 1000). repeat apply conj.
  - now rewrite poll_vite_body, Hp.
  - now rewrite poll_webpack_body, Hm.
  - simpl. now rewrite Hp.
  - simpl. now rewrite Hm.
  - pose proof (Z.mul_div_le (T - t0) 1000). lia.
  - pose proof (Z.mod_pos_bound (T - t0) 1000).
    pose proof (Z.div_mod (T - t0) 1000). lia.
  - lia.
Qed.

(** C9.  In the Vite provider [openConnections] is the number of
    connection events so far: a connection event adds one, no event of any
    kind (tick, server close, socket close, error) lowers it, so the value
    the endpoint reports never decreases along a run. *)
Theorem C9_vite_openConnections_never_decreases :
  forall (t0 now later : Z) (events more : list Vite.Event) (e : Vite.Event),
    let p := Vite.run (Vite.hudPlugin t0) events in
    let p' := Vite.run (Vite.hudPlugin t0) (events ++ more) in
    Vite.openConnections p = ViteEvents.connections events /\
    Vite.openConnections (Vite.on p Vite.WsConnection) = Vite.openConnections p + 1 /\
    Vite.openConnections (Vite.on p Vite.WsClose) = Vite.openConnections p /\
    Vite.openConnections (Vite.on p Vite.HttpServerClose) = Vite.openConnections p /\
    Vite.openConnections (Vite.on p Vite.WsError) = Vite.openConnections p /\
    Vite.openConnections p <= Vite.openConnections (Vite.on p e) /\
    Vite.openConnections p <= Vite.openConnections p' /\
    get (Vite.metrics p now) "openConnections" = Normal (Num (Vite.openConnections p)) /\
    exists mc ec mc' ec' c',
      poll_vite p now
        = Some (hud_body mc (Vite.openConnections p) ec ((now - t0) / 1000)) /\
      poll_vite p' later = Some (hud_body mc' c' ec' ((later - t0) / 1000)) /\
      Vite.openConnections p <= c'.
Proof.
  intros t0 now later events more e p p'.
  assert (Hle : Vite.openConnections p <= Vite.openConnections p').
  { subst p'. rewrite vite_run_app. fold p.
    rewrite (vite_openConnections_run more p). unfold ViteEvents.connections. lia. }
  repeat apply conj; try reflexivity.
  - subst p. rewrite vite_openConnections_run. simpl. lia.
  - rewrite vite_openConnections_on. destruct (ViteEvents.is_connection e); lia.
  - exact Hle.
  - exists (Vite.moduleCount p), (Vite.errorCount p),
      (Vite.moduleCount p'), (Vite.errorCount p'), (Vite.openConnections p').
    rewrite !poll_vite_body. subst p p'. rewrite !vite_startTime_run.
    repeat split. exact Hle.
Qed.

(** C10.  The Webpack middleware reports [openConnections] 0 whatever
    happened before: the member is the constant [0] of the object
    literal. *)
Theorem C10_webpack_openConnections_is_zero :
  forall (m0 : Webpack.Metrics) (builds : list Webpack.Event) (now : Z),
    let m := Webpack.run m0 builds in
    get (Webpack.metrics m now) "openConnections" = Normal (Num 0) /\
    exists mc ec up, poll_webpack m now = Some (hud_body mc 0 ec up).
Proof.
  intros m0 builds now m. split; [reflexivity|].
  exists (Webpack.moduleCount m), (Webpack.errorCount m),
    ((now - Webpack.startTime m) / 1000).
  apply poll_webpack_body.
Qed.

(* ===================================================================== *)
(** ** The endpoint                                                       *)
(* ===================================================================== *)

Lemma getHeader_set_header_eq hs key name value :
  getHeader_in (set_header hs key name value) key = Some value.
Proof.
  induction hs as [|[key' [n v]] hs IH]; simpl.
  - now rewrite String.eqb_refl.
  - destruct (String.eqb key' key) eqn:E; simpl; rewrite E; [reflexivity|exact IH].
Qed.

Lemma getHeader_set_header_ne hs key key' name value :
  key <> key' ->
  getHeader_in (set_header hs key name value) key' = getHeader_in hs key'.
Proof.
  intros Hne. induction hs as [|[k [n v]] hs IH]; simpl.
  - destruct (String.eqb key key') eqn:E; [|reflexivity].
    apply String.eqb_eq in E. contradiction.
  - destruct (String.eqb k key) eqn:E; simpl.
    + apply String.eqb_eq in E. subst k.
      destruct (String.eqb key key') eqn:E'; [|reflexivity].
      apply String.eqb_eq in E'. contradiction.
    + now rewrite IH.
Qed.

Lemma hud_answer_intro (res : ServerResponse) (text : string) :
  headersSent res = false -> writableEnded res = false ->
  exists r,
    (res1 ← setHeader res "Content-Type" "application/json";
     res2 ← setHeader res1 "Cache-Control" "no-store";
     Normal {| response := end_ res2 text; next_called := false |}) = Normal r /\
    hud_answer res text r.
Proof.
  intros Hsent Hended.
  unfold setHeader. rewrite Hsent. cbn [mbind completion_bind bind headersSent].
  eexists. split; [reflexivity|].
  unfold hud_answer, end_, getHeader.
  cbn [response next_called writableEnded statusCode headers body]. rewrite Hended.
  cbn [response next_called writableEnded statusCode headers body].
  repeat apply conj; try reflexivity; try assumption.
  - change (toLowerCase "Content-Type") with "content-type".
    change (toLowerCase "Cache-Control") with "cache-control".
    rewrite getHeader_set_header_ne by discriminate.
    apply getHeader_set_header_eq.
  - change (toLowerCase "Cache-Control") with "cache-control".
    apply getHeader_set_header_eq.
Qed.

(** C3, as worded, fails.  The request [/__hud?t=1] has the path [/__hud],
    yet both handlers hand it to the next handler and write nothing: the
    client gets no diagnostics from them. *)
Lemma C3_hud_path_with_a_query_string_is_passed_on :
  pathname (url hud_request_with_query) = "/__hud" /\
  passed_on createResponse
    (Vite.middleware (Vite.hudPlugin 0) 1500 hud_request_with_query createResponse) /\
  passed_on createResponse
    (Webpack.hudDevServerMiddleware (Webpack.module_loaded 0) 1500
       hud_request_with_query createResponse) /\
  answer (Vite.middleware (Vite.hudPlugin 0) 1500 hud_request_with_query
            createResponse) = None /\
  answer (Webpack.hudDevServerMiddleware (Webpack.module_loaded 0) 1500
            hud_request_with_query createResponse) = None.
Proof. repeat split. Qed.

(** C3, amended.  The handlers compare the whole request target [req.url],
    query string included, with [/__hud].  A request whose [url] is
    exactly [/__hud] is answered by both handlers, on a response nothing
    was sent on yet, with [Content-Type: application/json],
    [Cache-Control: no-store] and the JSON text of an object with exactly
    the four counters, without calling [next]; the status is left as the
    response had it, which is 200 when it had 200.  On a response whose
    head was sent already, [setHeader] throws.  Every other [url], one
    whose path is [/__hud] included, leaves the response as it is and
    calls [next]. *)
Theorem C3_endpoint_answers_the_exact_url_and_passes_the_rest :
  forall (p : Vite.Plugin) (m : Webpack.Metrics) (now : Z)
         (req : IncomingMessage) (res : ServerResponse),
    (url req = "/__hud" -> headersSent res = false -> writableEnded res = false ->
       exists rv rw,
         Vite.middleware p now req res = Normal rv /\
         Webpack.hudDevServerMiddleware m now req res = Normal rw /\
         let tv := hud_body (Vite.moduleCount p) (Vite.openConnections p)
                     (Vite.errorCount p) ((now - Vite.startTime p) / 1000) in
         let tw := hud_body (Webpack.moduleCount m) 0 (Webpack.errorCount m)
                     ((now - Webpack.startTime m) / 1000) in
         hud_answer res tv rv /\ hud_answer res tw rw /\
         four_counters (Vite.metrics p now) tv /\
         four_counters (Webpack.metrics m now) tw /\
         (statusCode res = 200 ->
            statusCode (response rv) = 200 /\ statusCode (response rw) = 200)) /\
    (url req = "/__hud" -> headersSent res = true ->
       Vite.middleware p now req res = Throw (SystemError "ERR_HTTP_HEADERS_SENT") /\
       Webpack.hudDevServerMiddleware m now req res
       = Throw (SystemError "ERR_HTTP_HEADERS_SENT")) /\
    (url req <> "/__hud" ->
       passed_on res (Vite.middleware p now req res) /\
       passed_on res (Webpack.hudDevServerMiddleware m now req res)).
Proof.
  intros p m now req res. split; [|split].
  - intros Hurl Hsent Hended.
    destruct (hud_answer_intro res (stringify_in_template (Vite.metrics p now))
                Hsent Hended) as (rv & Hrv & Hav).
    destruct (hud_answer_intro res (stringify_in_template (Webpack.metrics m now))
                Hsent Hended) as (rw & Hrw & Haw).
    exists rv, rw.
    unfold Vite.middleware, Webpack.hudDevServerMiddleware. rewrite Hurl.
    change (String.eqb "/__hud" "/__hud") with true. cbv iota.
    split; [exact Hrv|]. split; [exact Hrw|].
    split; [exact Hav|]. split; [exact Haw|].
    split; [|split].
    + eexists; (split; [reflexivity|]); (split; [reflexivity|]);
        (split; [|reflexivity]); repeat constructor; eexists; reflexivity.
    + eexists; (split; [reflexivity|]); (split; [reflexivity|]);
        (split; [|reflexivity]); repeat constructor; eexists; reflexivity.
    + intros Hstatus.
      destruct Hav as (_ & Hsv & _), Haw as (_ & Hsw & _).
      rewrite Hsv, Hsw. now split.
  - intros Hurl Hsent.
    unfold Vite.middleware, Webpack.hudDevServerMiddleware. rewrite Hurl.
    change (String.eqb "/__hud" "/__hud") with true. cbv iota.
    unfold setHeader. rewrite Hsent. now split.
  - intros Hurl. apply String.eqb_neq in Hurl.
    unfold passed_on, Vite.middleware, Webpack.hudDevServerMiddleware.
    now rewrite Hurl.
Qed.

Lemma C3_endpoint_answers_the_exact_url_and_passes_the_rest_witness :
  (exists rv rw,
     Vite.middleware (Vite.hudPlugin 0) 1500 hud_request createResponse = Normal rv /\
     Webpack.hudDevServerMiddleware (Webpack.module_loaded 0) 1500 hud_request
       createResponse = Normal rw /\
     hud_answer createResponse (hud_body 0 0 0 1) rv /\
     hud_answer createResponse (hud_body 0 0 0 1) rw /\
     statusCode (response rv) = 200 /\ statusCode (response rw) = 200) /\
  Vite.middleware (Vite.hudPlugin 0) 1500 hud_request (end_ createResponse "done")
    = Throw (SystemError "ERR_HTTP_HEADERS_SENT") /\
  passed_on createResponse
    (Vite.middleware (Vite.hudPlugin 0) 1500 {| method := "GET"; url := "/index.html" |}
       createResponse).
Proof.
  split; [|split].
  - destruct (C3_endpoint_answers_the_exact_url_and_passes_the_rest
                (Vite.hudPlugin 0) (Webpack.module_loaded 0) 1500 hud_request
                createResponse) as [Hhud _].
    destruct (Hhud eq_refl eq_refl eq_refl)
      as (rv & rw & Hv & Hw & Hav & Haw & _ & _ & Hstatus).
    destruct (Hstatus eq_refl) as [Hsv Hsw].
    exists rv, rw.
    split; [exact Hv|]. split; [exact Hw|]. split; [exact Hav|].
    split; [exact Haw|]. split; [exact Hsv|exact Hsw].
  - destruct (C3_endpoint_answers_the_exact_url_and_passes_the_rest
                (Vite.hudPlugin 0) (Webpack.module_loaded 0) 1500 hud_request
                (end_ createResponse "done")) as (_ & Hsent & _).
    exact (proj1 (Hsent eq_refl eq_refl)).
  - destruct (C3_endpoint_answers_the_exact_url_and_passes_the_rest
                (Vite.hudPlugin 0) (Webpack.module_loaded 0) 1500
                {| method := "GET"; url := "/index.html" |}
                createResponse) as (_ & _ & Hother).
    apply Hother. discriminate.
Defined.

(** The status is not the handlers': a response an earlier handler set to
    404 is answered with 404. *)
Example hud_keeps_the_status_it_finds (p : Vite.Plugin) (now : Z) :
  let res := {| statusCode := 404; headers := []; headersSent := false;
                body := ""; writableEnded := false |} in
  exists r, Vite.middleware p now hud_request res = Normal r /\
            statusCode (response r) = 404 /\ next_called r = false.
Proof. eexists. repeat split. Qed.

(* ===================================================================== *)
(** ** Detection                                                         *)
(* ===================================================================== *)

(** *** The merged dependencies are a union in which [devDependencies]
    wins *)
Lemma own_set_prop (props : list (string * Value)) (k k' : string) (v : Value) :
  own (set_prop props k v) k'
  = if String.eqb k k' then Some v else own props k'.
Proof.
  induction props as [|[k0 v0] props IH]; simpl.
  - reflexivity.
  - destruct (String.eqb k0 k) eqn:E; simpl.
    + apply String.eqb_eq in E. subst k0.
      now destruct (String.eqb k k').
    + rewrite IH. destruct (String.eqb k0 k') eqn:E'; [|reflexivity].
      apply String.eqb_eq in E'. subst k0.
      rewrite String.eqb_sym in E. now rewrite E.
Qed.

Lemma own_not_in (l : list (string * Value)) (k : string) :
  ~ In k (map fst l) -> own l k = None.
Proof.
  induction l as [|[k0 v0] l IH]; simpl; intros Hn; [reflexivity|].
  destruct (String.eqb k0 k) eqn:E.
  - apply String.eqb_eq in E. tauto.
  - apply IH. tauto.
Qed.

Lemma own_copied (l acc : list (string * Value)) (k : string) :
  List.NoDup (map fst l) ->
  own (fold_left (fun a kv => set_prop a (fst kv) (snd kv)) l acc) k
  = match own l k with
    | Some v => Some v
    | None => own acc k
    end.
Proof.
  revert acc. induction l as [|[k0 v0] l IH]; intros acc Hnd; [reflexivity|].
  inversion Hnd as [|? ? Hnotin Hnd']; subst. simpl.
  rewrite (IH _ Hnd'), own_set_prop.
  destruct (String.eqb k0 k) eqn:E; [|reflexivity].
  apply String.eqb_eq in E. subst k0. now rewrite (own_not_in l k Hnotin).
Qed.

Lemma merged_dependencies_union (dependencies devDependencies props
    : list (string * Value)) (k : string) :
  List.NoDup (map fst dependencies) -> List.NoDup (map fst devDependencies) ->
  Vite.merged_dependencies
    (Obj [("dependencies", Obj dependencies);
          ("devDependencies", Obj devDependencies)]) = Normal props ->
  Vite.dep props k
  = match own devDependencies k with
    | Some v => v
    | None => default Undefined (own dependencies k)
    end.
Proof.
  intros Hd Hdev Hm. cbv in Hm. injection Hm as <-.
  unfold Vite.dep.
  change (own (spread (spread [] (Obj dependencies)) (Obj devDependencies)) k)
    with (own (fold_left (fun a kv => set_prop a (fst kv) (snd kv)) devDependencies
                 (fold_left (fun a kv => set_prop a (fst kv) (snd kv)) dependencies [])) k).
  rewrite (own_copied _ _ _ Hdev), (own_copied _ _ _ Hd).
  destruct (own devDependencies k); [reflexivity|].
  now destruct (own dependencies k).
Qed.

Lemma merged_dependencies_same (pkg : Value) :
  Webpack.merged_dependencies pkg = Vite.merged_dependencies pkg.
Proof. reflexivity. Qed.

(** *** Framework detection *)

Lemma vite_framework_of_first_match (deps : list (string * Value)) :
  (Vite.name (Vite.framework_of deps), Vite.version (Vite.framework_of deps))
  = Markers.report "vite" deps
      (Markers.first_match Markers.vite_markers deps).
Proof.
  unfold Vite.framework_of, Markers.first_match, Markers.matches,
    Markers.vite_markers, Vite.dep.
  cbn [List.find Markers.package].
  repeat (match goal with
          | |- context [truthy ?v] => destruct (truthy v) eqn:?
          end; try reflexivity).
Qed.

Lemma webpack_framework_of_first_match (deps : list (string * Value)) :
  (Webpack.name (Webpack.framework_of deps), Webpack.version (Webpack.framework_of deps))
  = Markers.report "webpack" deps
      (Markers.first_match Markers.webpack_markers deps).
Proof.
  unfold Webpack.framework_of, Markers.first_match, Markers.matches,
    Markers.webpack_markers, Webpack.dep.
  cbn [List.find Markers.package].
  repeat (match goal with
          | |- context [truthy ?v] => destruct (truthy v) eqn:?
          end; try reflexivity).
Qed.

Lemma vite_framework_of_report (deps : list (string * Value)) :
  Vite.framework_of deps
  = let r := Markers.report "vite" deps
               (Markers.first_match Markers.vite_markers deps) in
    {| Vite.name := fst r; Vite.version := snd r |}.
Proof.
  rewrite <- vite_framework_of_first_match. now destruct (Vite.framework_of deps).
Qed.

Lemma webpack_framework_of_report (deps : list (string * Value)) :
  Webpack.framework_of deps
  = let r := Markers.report "webpack" deps
               (Markers.first_match Markers.webpack_markers deps) in
    {| Webpack.name := fst r; Webpack.version := snd r |}.
Proof.
  rewrite <- webpack_framework_of_first_match.
  now destruct (Webpack.framework_of deps).
Qed.

(** The first entry that counts is the one a search from the front finds. *)
Lemma first_counting_first_match (table : list Markers.Marker)
    (deps : list (string * Value)) (m : Markers.Marker) :
  Markers.first_counting table deps m ->
  Markers.first_match table deps = Some m.
Proof.
  intros (before & after & -> & Hm & Hbefore).
  unfold Markers.first_match.
  induction Hbefore as [|m0 before Hm0 _ IH]; simpl.
  - now rewrite Hm.
  - now rewrite Hm0.
Qed.

(** In a table with the meta-frameworks first, the first match is a
    meta-framework as soon as any meta-framework matches. *)
Lemma meta_beats_base (table : list Markers.Marker) (deps : list (string * Value))
    (m : Markers.Marker) :
  Markers.meta_first table = true ->
  In m table -> Markers.is_meta m = true -> Markers.matches deps m = true ->
  exists w, Markers.first_match table deps = Some w /\ In w table /\
            Markers.is_meta w = true /\ Markers.matches deps w = true.
Proof.
  unfold Markers.first_match.
  induction table as [|m0 table IH]; intros Hsorted Hin Hmeta Hmatch; [destruct Hin|].
  simpl in Hsorted. apply andb_true_iff in Hsorted as [Hhead Hrest].
  simpl. destruct (Markers.matches deps m0) eqn:E0.
  - exists m0. split; [reflexivity|]. split; [now left|]. split; [|exact E0].
    apply orb_true_iff in Hhead as [Hm0|Hall]; [exact Hm0|].
    destruct Hin as [->|Hin]; [exact Hmeta|].
    rewrite forallb_forall in Hall. specialize (Hall m Hin).
    rewrite Hmeta in Hall. discriminate.
  - destruct Hin as [->|Hin]; [congruence|].
    destruct (IH Hrest Hin Hmeta Hmatch) as (w & Hfind & Hinw & Hw).
    exists w. split; [exact Hfind|]. split; [now right|exact Hw].
Qed.

Lemma find_none_no_match (table : list Markers.Marker) (deps : list (string * Value)) :
  Forall (fun m => Markers.matches deps m = false) table ->
  Markers.first_match table deps = None.
Proof.
  unfold Markers.first_match.
  induction 1 as [|m0 table Hm0 _ IH]; [reflexivity|].
  simpl. now rewrite Hm0.
Qed.

(** The Webpack chain reads four entries of the dependencies and no
    other. *)
Lemma webpack_framework_of_reads_four (deps deps' : list (string * Value)) :
  same_but_nuxt_and_sveltekit deps deps' ->
  Webpack.framework_of deps' = Webpack.framework_of deps.
Proof.
  intros Hsame. unfold Webpack.framework_of, Webpack.dep.
  now rewrite !Hsame by discriminate.
Qed.

(** C4, as worded, fails.  The manifest of [nuxt_app] declares the
    meta-framework Nuxt and its base library Vue; the Webpack variant,
    whose chain has no test for [nuxt], reports the base library. *)
Lemma C4_webpack_reports_vue_for_a_nuxt_project :
  Markers.listed nuxt_app_dependencies nuxt_marker /\
  Markers.listed nuxt_app_dependencies vue_marker /\
  Webpack.merged_dependencies nuxt_app = Normal nuxt_app_dependencies /\
  Webpack.detectFramework (project nuxt_app []) "/srv/app"
  = Normal {| Webpack.name := "vue"; Webpack.version := Str "^3.3.0" |}.
Proof.
  split; [now eexists|]. split; [now eexists|]. split; reflexivity.
Qed.

(** C4, amended.  Each variant has its own table of markers (Vite:
    [@sveltejs/kit], [nuxt], [next], [vue], [react]; Webpack:
    [react-scripts], [next], [react], [vue]), and an entry counts when the
    merged dependencies hold a truthy value for its package.  When the
    manifest is read and parsed, each variant reports the first entry of
    its own table that counts, with the value the manifest holds for it,
    and the build tool's name with version [--] when none counts.  Both
    tables list the meta-frameworks before the base libraries, so when a
    meta-framework of a variant's own table counts, that variant reports a
    meta-framework of its table, whatever base library is declared as
    well.  The Webpack variant reads neither [nuxt] nor [@sveltejs/kit]:
    its report is the same for any manifest that differs in those two
    entries only. *)
Theorem C4_detectFramework_first_marker_of_its_own_table :
  forall (h : Host) (root text : string) (pkg : Value) (deps : list (string * Value)),
    readResolved h root "package.json" = Normal text ->
    JSON_parse h text = Normal pkg ->
    Vite.merged_dependencies pkg = Normal deps ->
    exists rv rw,
      Vite.detectFramework h root = Normal rv /\
      Webpack.detectFramework h root = Normal rw /\
      (forall m, Markers.first_counting Markers.vite_markers deps m ->
         rv = {| Vite.name := Markers.reported m;
                 Vite.version := Vite.dep deps (Markers.package m) |}) /\
      (forall m, Markers.first_counting Markers.webpack_markers deps m ->
         rw = {| Webpack.name := Markers.reported m;
                 Webpack.version := Webpack.dep deps (Markers.package m) |}) /\
      (Forall (fun m => Markers.matches deps m = false) Markers.vite_markers ->
         rv = {| Vite.name := "vite"; Vite.version := Str "--" |}) /\
      (Forall (fun m => Markers.matches deps m = false) Markers.webpack_markers ->
         rw = {| Webpack.name := "webpack"; Webpack.version := Str "--" |}) /\
      Markers.meta_first Markers.vite_markers = true /\
      Markers.meta_first Markers.webpack_markers = true /\
      (forall m, In m Markers.vite_markers ->
         Markers.is_meta m = true -> Markers.matches deps m = true ->
         exists w, In w Markers.vite_markers /\ Markers.is_meta w = true /\
                   Markers.matches deps w = true /\
                   Vite.name rv = Markers.reported w) /\
      (forall m, In m Markers.webpack_markers ->
         Markers.is_meta m = true -> Markers.matches deps m = true ->
         exists w, In w Markers.webpack_markers /\ Markers.is_meta w = true /\
                   Markers.matches deps w = true /\
                   Webpack.name rw = Markers.reported w) /\
      (forall (h' : Host) (root' text' : string) (pkg' : Value)
              (deps' : list (string * Value)),
         readResolved h' root' "package.json" = Normal text' ->
         JSON_parse h' text' = Normal pkg' ->
         Webpack.merged_dependencies pkg' = Normal deps' ->
         same_but_nuxt_and_sveltekit deps deps' ->
         Webpack.detectFramework h' root' = Normal rw).
Proof.
  intros h root text pkg deps Hread Hparse Hdeps.
  assert (Hw_any : forall h' root' text' pkg' deps',
             readResolved h' root' "package.json" = Normal text' ->
             JSON_parse h' text' = Normal pkg' ->
             Webpack.merged_dependencies pkg' = Normal deps' ->
             Webpack.detectFramework h' root' = Normal (Webpack.framework_of deps')).
  { intros h' root' text' pkg' deps' Hread' Hparse' Hdeps'.
    unfold Webpack.detectFramework. rewrite Hread'. cbn [mbind completion_bind bind].
    rewrite Hparse'. cbn [mbind completion_bind bind]. now rewrite Hdeps'. }
  assert (Hv : Vite.detectFramework h root = Normal (Vite.framework_of deps)).
  { unfold Vite.detectFramework. rewrite Hread. cbn [mbind completion_bind bind].
    rewrite Hparse. cbn [mbind completion_bind bind]. now rewrite Hdeps. }
  exists (Vite.framework_of deps), (Webpack.framework_of deps).
  split; [exact Hv|].
  split; [exact (Hw_any h root text pkg deps Hread Hparse Hdeps)|].
  split; [|split; [|split; [|split; [|split; [reflexivity|split; [reflexivity|]]]]]].
  - intros m Hm. rewrite vite_framework_of_report.
    now rewrite (first_counting_first_match _ _ _ Hm).
  - intros m Hm. rewrite webpack_framework_of_report.
    now rewrite (first_counting_first_match _ _ _ Hm).
  - intros Hnone. rewrite vite_framework_of_report.
    now rewrite (find_none_no_match _ _ Hnone).
  - intros Hnone. rewrite webpack_framework_of_report.
    now rewrite (find_none_no_match _ _ Hnone).
  - split; [|split].
    + intros m Hin Hmeta Hmatch.
      destruct (meta_beats_base Markers.vite_markers deps m
                  eq_refl Hin Hmeta Hmatch) as (w & Hfind & Hinw & Hmw & Hcw).
      exists w. repeat (split; [assumption|]).
      rewrite vite_framework_of_report. now rewrite Hfind.
    + intros m Hin Hmeta Hmatch.
      destruct (meta_beats_base Markers.webpack_markers deps m
                  eq_refl Hin Hmeta Hmatch) as (w & Hfind & Hinw & Hmw & Hcw).
      exists w. repeat (split; [assumption|]).
      rewrite webpack_framework_of_report. now rewrite Hfind.
    + intros h' root' text' pkg' deps' Hread' Hparse' Hdeps' Hsame.
      rewrite (Hw_any h' root' text' pkg' deps' Hread' Hparse' Hdeps').
      f_equal. now apply webpack_framework_of_reads_four.
Qed.

(** A Nuxt project that also declares Vue is reported as Nuxt by the Vite
    plugin and as Vue by the Webpack plugin, whose table has no Nuxt
    entry. *)
Lemma C4_detectFramework_first_marker_of_its_own_table_witness :
  exists rv rw,
    Vite.detectFramework (project nuxt_app []) "/srv/app" = Normal rv /\
    Webpack.detectFramework (project nuxt_app []) "/srv/app" = Normal rw /\
    rv = {| Vite.name := "nuxt"; Vite.version := Str "^3.8.0" |} /\
    rw = {| Webpack.name := "vue"; Webpack.version := Str "^3.3.0" |}.
Proof.
  destruct (C4_detectFramework_first_marker_of_its_own_table
              (project nuxt_app []) "/srv/app" (stringify_in_template nuxt_app)
              nuxt_app nuxt_app_dependencies eq_refl eq_refl eq_refl)
    as (rv & rw & Hv & Hw & Hfirst_v & Hfirst_w & _).
  exists rv, rw. split; [exact Hv|]. split; [exact Hw|]. split.
  - apply (Hfirst_v nuxt_marker).
    exists [ {| Markers.package := "@sveltejs/kit"; Markers.reported := "sveltekit";
                Markers.tier := Markers.Meta |} ],
           (skipn 2 Markers.vite_markers).
    split; [reflexivity|]. split; [reflexivity|]. repeat constructor.
  - apply (Hfirst_w vue_marker).
    exists (firstn 3 Markers.webpack_markers), [].
    split; [reflexivity|]. split; [reflexivity|]. repeat constructor.
Defined.

(** A Next.js project that also declares React is reported as Next.js by
    both variants. *)
Example next_app_is_nextjs_in_both :
  Vite.detectFramework (project next_app []) "/srv/app"
  = Normal {| Vite.name := "nextjs"; Vite.version := Str "14.0.0" |} /\
  Webpack.detectFramework (project next_app []) "/srv/app"
  = Normal {| Webpack.name := "nextjs"; Webpack.version := Str "14.0.0" |}.
Proof. split; reflexivity. Qed.

(** An entry whose value is the empty string does not count, although the
    manifest lists it: the next marker is reported. *)
Example empty_version_is_skipped :
  Markers.listed [("nuxt", Str ""); ("vue", Str "^3.3.0")] nuxt_marker /\
  Vite.detectFramework (project any_nuxt_app []) "/srv/app"
  = Normal {| Vite.name := "vue"; Vite.version := Str "^3.3.0" |}.
Proof. split; [now eexists|reflexivity]. Qed.

(** *** Package-manager detection *)

Lemma vite_lockfile_loop_documented (h : Host) (root : string) :
  Vite.lockfile_loop h root (length Vite.files) 0
  = Normal (Documented.first_readable (readable h root)).
Proof.
  unfold Documented.first_readable, Documented.lockfile_priority, readable.
  cbn [length Vite.files Vite.lockfile_loop nth Vite.managers List.find fst snd].
  destruct (readResolved h root "bun.lockb"); [reflexivity|].
  cbn [mbind completion_bind bind try_catch].
  destruct (readResolved h root "yarn.lock"); [reflexivity|].
  cbn [mbind completion_bind bind try_catch].
  destruct (readResolved h root "pnpm-lock.yaml"); [reflexivity|].
  cbn [mbind completion_bind bind try_catch].
  destruct (readResolved h root "package-lock.json"); reflexivity.
Qed.

Lemma webpack_lockfile_loop_same (h : Host) (root : string) (remaining i : nat) :
  Webpack.lockfile_loop h root remaining i = Vite.lockfile_loop h root remaining i.
Proof.
  revert i. induction remaining as [|remaining IH]; intros i; [reflexivity|].
  simpl. now rewrite IH.
Qed.

Lemma first_readable_chain (readable : string -> bool) :
  Documented.first_readable readable
  = (if readable "bun.lockb" then "bun"
     else if readable "yarn.lock" then "yarn"
     else if readable "pnpm-lock.yaml" then "pnpm"
     else if readable "package-lock.json" then "npm"
     else "npm").
Proof.
  unfold Documented.first_readable, Documented.lockfile_priority.
  cbn [List.find fst snd].
  repeat (match goal with
          | |- context [if readable ?f then _ else _] => destruct (readable f)
          end; try reflexivity).
Qed.

Lemma vite_detectPackageManager_documented (h : Host) (root : string) :
  Vite.detectPackageManager h root
  = Normal (Documented.first_readable (readable h root)).
Proof.
  unfold Vite.detectPackageManager. now rewrite vite_lockfile_loop_documented.
Qed.

Lemma webpack_detectPackageManager_documented (h : Host) (root : string) :
  Webpack.detectPackageManager h root
  = Normal (Documented.first_readable (readable h root)).
Proof.
  unfold Webpack.detectPackageManager.
  rewrite webpack_lockfile_loop_same. apply vite_lockfile_loop_documented.
Qed.

(** C5.  For every project root, whatever lockfiles can be read there,
    both variants return the manager of the first readable lockfile in the
    order [bun.lockb], [yarn.lock], [pnpm-lock.yaml], [package-lock.json],
    and [npm] when none of them can be read. *)
Theorem C5_detectPackageManager_first_readable_lockfile :
  forall (h : Host) (root : string),
    Vite.detectPackageManager h root
      = Normal (Documented.first_readable (readable h root)) /\
    Webpack.detectPackageManager h root
      = Normal (Documented.first_readable (readable h root)) /\
    Documented.first_readable (readable h root)
      = (if readable h root "bun.lockb" then "bun"
         else if readable h root "yarn.lock" then "yarn"
         else if readable h root "pnpm-lock.yaml" then "pnpm"
         else if readable h root "package-lock.json" then "npm"
         else "npm").
Proof.
  intros h root. split; [|split].
  - apply vite_detectPackageManager_documented.
  - apply webpack_detectPackageManager_documented.
  - apply first_readable_chain.
Qed.

Example yarn_before_npm :
  Vite.detectPackageManager (project nuxt_app ["package-lock.json"; "yarn.lock"]) "/srv/app"
  = Normal "yarn".
Proof. reflexivity. Qed.

Example bun_before_all :
  Webpack.detectPackageManager
    (project next_app ["package-lock.json"; "pnpm-lock.yaml"; "yarn.lock"; "bun.lockb"])
    "/srv/app"
  = Normal "bun".
Proof. reflexivity. Qed.

Example pnpm_alone :
  Webpack.detectPackageManager (project next_app ["pnpm-lock.yaml"]) "/srv/app"
  = Normal "pnpm".
Proof. reflexivity. Qed.

(** *** Failing soft *)

(** C8.  [detectFramework] and [detectPackageManager] return normally on
    every host and project root, in both variants.  When [package.json]
    cannot be read, when its text does not parse, or when the parsed value
    has no properties to read, [detectFramework] returns the build tool's
    name with version [--]; when no lockfile can be read
    [detectPackageManager] returns [npm]. *)
Theorem C8_detection_fails_soft :
  forall (h : Host) (root : string),
    returns (Vite.detectFramework h root) /\
    returns (Vite.detectPackageManager h root) /\
    returns (Webpack.detectFramework h root) /\
    returns (Webpack.detectPackageManager h root) /\
    let vite_default := {| Vite.name := "vite"; Vite.version := Str "--" |} in
    let webpack_default := {| Webpack.name := "webpack"; Webpack.version := Str "--" |} in
    (forall e, readResolved h root "package.json" = Throw e ->
               Vite.detectFramework h root = Normal vite_default /\
               Webpack.detectFramework h root = Normal webpack_default) /\
    (forall text e, readResolved h root "package.json" = Normal text ->
                    JSON_parse h text = Throw e ->
                    Vite.detectFramework h root = Normal vite_default /\
                    Webpack.detectFramework h root = Normal webpack_default) /\
    (forall text pkg e, readResolved h root "package.json" = Normal text ->
                        JSON_parse h text = Normal pkg ->
                        Vite.merged_dependencies pkg = Throw e ->
                        Vite.detectFramework h root = Normal vite_default /\
                        Webpack.detectFramework h root = Normal webpack_default) /\
    ((forall name, In name Vite.files -> readable h root name = false) ->
       Vite.detectPackageManager h root = Normal "npm" /\
       Webpack.detectPackageManager h root = Normal "npm").
Proof.
  intros h root.
  assert (Hfv : returns (Vite.detectFramework h root)).
  { unfold returns, Vite.detectFramework.
    destruct (readResolved h _ _) as [text|]; cbn [mbind completion_bind bind try_catch];
      [|eauto].
    destruct (JSON_parse h text) as [pkg|]; cbn [mbind completion_bind bind try_catch];
      [|eauto].
    destruct (Vite.merged_dependencies pkg); cbn [mbind completion_bind bind try_catch];
      eauto. }
  assert (Hfw : returns (Webpack.detectFramework h root)).
  { unfold returns, Webpack.detectFramework.
    destruct (readResolved h _ _) as [text|]; cbn [mbind completion_bind bind try_catch];
      [|eauto].
    destruct (JSON_parse h text) as [pkg|]; cbn [mbind completion_bind bind try_catch];
      [|eauto].
    destruct (Webpack.merged_dependencies pkg);
      cbn [mbind completion_bind bind try_catch]; eauto. }
  pose proof (vite_detectPackageManager_documented h root) as Hpv.
  pose proof (webpack_detectPackageManager_documented h root) as Hpw.
  pose proof (first_readable_chain (readable h root)) as Hchain.
  split; [exact Hfv|]. split; [rewrite Hpv; unfold returns; eauto|].
  split; [exact Hfw|]. split; [rewrite Hpw; unfold returns; eauto|].
  intros vite_default webpack_default.
  split; [|split; [|split]].
  - intros e Hread. unfold Vite.detectFramework, Webpack.detectFramework.
    now rewrite Hread.
  - intros text e Hread Hparse. unfold Vite.detectFramework, Webpack.detectFramework.
    rewrite Hread. cbn [mbind completion_bind bind]. now rewrite Hparse.
  - intros text pkg e Hread Hparse Hdeps.
    unfold Vite.detectFramework, Webpack.detectFramework.
    rewrite Hread. cbn [mbind completion_bind bind]. rewrite Hparse.
    cbn [mbind completion_bind bind].
    change (Webpack.merged_dependencies pkg) with (Vite.merged_dependencies pkg).
    now rewrite Hdeps.
  - intros Hnone. rewrite Hpv, Hpw, Hchain.
    rewrite !Hnone by (simpl; tauto). now split.
Qed.

Lemma C8_detection_fails_soft_witness :
  (Vite.detectFramework empty_directory "/srv/app"
     = Normal {| Vite.name := "vite"; Vite.version := Str "--" |} /\
   Webpack.detectFramework empty_directory "/srv/app"
     = Normal {| Webpack.name := "webpack"; Webpack.version := Str "--" |}) /\
  (Vite.detectFramework broken_manifest "/srv/app"
     = Normal {| Vite.name := "vite"; Vite.version := Str "--" |} /\
   Webpack.detectFramework broken_manifest "/srv/app"
     = Normal {| Webpack.name := "webpack"; Webpack.version := Str "--" |}) /\
  (Vite.detectFramework null_manifest "/srv/app"
     = Normal {| Vite.name := "vite"; Vite.version := Str "--" |} /\
   Webpack.detectFramework null_manifest "/srv/app"
     = Normal {| Webpack.name := "webpack"; Webpack.version := Str "--" |}) /\
  (Vite.detectPackageManager empty_directory "/srv/app" = Normal "npm" /\
   Webpack.detectPackageManager empty_directory "/srv/app" = Normal "npm").
Proof.
  destruct (C8_detection_fails_soft empty_directory "/srv/app")
    as (_ & _ & _ & _ & Hunreadable & _ & _ & Hnolock).
  destruct (C8_detection_fails_soft broken_manifest "/srv/app")
    as (_ & _ & _ & _ & _ & Hunparsable & _ & _).
  destruct (C8_detection_fails_soft null_manifest "/srv/app")
    as (_ & _ & _ & _ & _ & _ & Hnull & _).
  split; [exact (Hunreadable (SystemError "ENOENT") eq_refl)|].
  split; [exact (Hunparsable "{ name: " (SyntaxError "Unexpected token") eq_refl eq_refl)|].
  split; [exact (Hnull "null" Null
                   (TypeError "Cannot read properties of undefined or null")
                   eq_refl eq_refl eq_refl)|].
  apply Hnolock. intros name Hin. simpl in Hin.
  destruct Hin as [<-|[<-|[<-|[<-|[]]]]]; reflexivity.
Defined.

(* ===================================================================== *)
(** ** The static diagnostics channel                                    *)
(* ===================================================================== *)

(** C2, as stated, fails for the Webpack variant: in a production build
    [apply] returns before [DefinePlugin] is installed, so the global the
    overlay reads is not defined at all; it does not resolve to an object
    of default values. *)
Lemma C2_webpack_channel_absent_outside_development :
  Webpack.apply (project next_app ["yarn.lock"]) production_build
    = Normal {| Webpack.definitions := []; Webpack.done_taps := [] |} /\
  (forall a, Webpack.apply (project next_app ["yarn.lock"]) production_build = Normal a ->
             Webpack.defined (Webpack.definitions a) HUD_GLOBAL = None) /\
  ~ (exists a text,
       Webpack.apply (project next_app ["yarn.lock"]) production_build = Normal a /\
       Webpack.defined (Webpack.definitions a) HUD_GLOBAL = Some text).
Proof.
  split; [reflexivity|]. split.
  - intros a Ha. injection Ha as <-. reflexivity.
  - intros (a & text & Ha & Hdef). injection Ha as <-. discriminate.
Qed.

Example EMPTY_MODULE_text :
  EMPTY_MODULE
  = json_text ("export default {'framework':'','frameworkVersion':'','viteVersion':'',"
      +:+ "'nodeVersion':'','runtime':'','runtimeVersion':'','packageManager':'',"
      +:+ "'port':0,'host':'','https':false,'base':'/','mode':'production',"
      +:+ "'envPrefix':[],'plugins':[],'cliFlags':[],'moduleCount':0,"
      +:+ "'resolvedAliases':{}};").
Proof. vm_compute. reflexivity. Qed.

(** C2 (amended).  Vite: after [configResolved] with a command other than
    [serve], whatever the project and the plugin's earlier state, the
    virtual module resolves and loads as [export default] of
    [EMPTY_DIAGNOSTICS], every field its declared default.  Webpack: when
    the mode is not [development], [apply] installs nothing: the global
    [__HUD_DIAGNOSTICS__] stays undefined and no hook is tapped, so no
    diagnostics content is produced. *)
Theorem C2_static_channel_outside_development :
  forall (h : Host) (p : Vite.Plugin) (c : Vite.Config.t) (compiler : Webpack.Compiler.t),
    (Vite.Config.command c <> "serve" ->
       let p' := fst (Vite.configResolved h p c) in
       Vite.isServe p' = false /\
       (exists id, Vite.resolveId Vite.VIRTUAL_MODULE_ID = Some id /\
                   Vite.load p' id = Some EMPTY_MODULE)) /\
    (Webpack.Compiler.mode compiler <> Some "development" ->
       Webpack.apply h compiler
         = Normal {| Webpack.definitions := []; Webpack.done_taps := [] |} /\
       Webpack.defined [] HUD_GLOBAL = None).
Proof.
  intros h p c compiler. split.
  - intros Hcommand p'.
    assert (Hserve : Vite.isServe p' = false).
    { subst p'. unfold Vite.configResolved.
      destruct (Vite.collect h c); cbn [fst Vite.isServe];
        now apply String.eqb_neq. }
    split; [exact Hserve|].
    exists Vite.RESOLVED_VIRTUAL_MODULE_ID. split; [reflexivity|].
    unfold Vite.load. rewrite String.eqb_refl, Hserve. reflexivity.
  - intros Hmode. split; [|reflexivity].
    unfold Webpack.apply. now rewrite bool_decide_eq_false_2.
Qed.

Lemma C2_static_channel_outside_development_witness :
  Vite.load (fst (Vite.configResolved (project nuxt_app ["yarn.lock"])
                    (Vite.hudPlugin 0) build_config))
            Vite.RESOLVED_VIRTUAL_MODULE_ID
    = Some EMPTY_MODULE /\
  Webpack.apply (project next_app ["yarn.lock"]) production_build
    = Normal {| Webpack.definitions := []; Webpack.done_taps := [] |}.
Proof.
  destruct (C2_static_channel_outside_development
              (project nuxt_app ["yarn.lock"]) (Vite.hudPlugin 0) build_config
              production_build) as [Hvite _].
  destruct (C2_static_channel_outside_development
              (project next_app ["yarn.lock"]) (Vite.hudPlugin 0) build_config
              production_build) as [_ Hwebpack].
  split.
  - destruct (Hvite ltac:(discriminate)) as (_ & id & Hid & Hload).
    injection Hid as <-. exact Hload.
  - exact (proj1 (Hwebpack ltac:(discriminate))).
Defined.

(** In development the same projects do get their data. *)
Example serve_module_text :
  Vite.load (fst (Vite.configResolved (project nuxt_app ["yarn.lock"])
                    (Vite.hudPlugin 0) serve_config))
            Vite.RESOLVED_VIRTUAL_MODULE_ID
  = Some (json_text
      ("export default {'framework':'nuxt','frameworkVersion':'3.8.0','viteVersion':'--',"
       +:+ "'nodeVersion':'v20.11.0','runtime':'node','runtimeVersion':'v20.11.0',"
       +:+ "'packageManager':'yarn','port':3000,'host':'0.0.0.0','https':false,"
       +:+ "'base':'/app/','mode':'development','envPrefix':['VITE_'],"
       +:+ "'plugins':['vite:vue','vite-hud-plugin'],'cliFlags':['--host'],"
       +:+ "'moduleCount':0,'resolvedAliases':{'@':'/srv/app/src'}};")).
Proof. vm_compute. reflexivity. Qed.

Example development_definitions :
  Webpack.apply (project next_app ["yarn.lock"]) development_build
  = Normal
      {| Webpack.definitions :=
           [(HUD_GLOBAL,
             Some (json_text
               ("{'framework':'nextjs','frameworkVersion':'14.0.0','webpackVersion':'5.89.0',"
                +:+ "'nodeVersion':'v20.11.0','runtime':'node','runtimeVersion':'v20.11.0',"
                +:+ "'packageManager':'yarn','port':8080,'host':'localhost','https':false,"
                +:+ "'base':'/','mode':'development','plugins':['HudWebpackPlugin'],"
                +:+ "'cliFlags':['--host']}")))];
         Webpack.done_taps := ["HudWebpackPlugin"] |}.
Proof. vm_compute. reflexivity. Qed.

(* ===================================================================== *)
(** ** Further properties of the plugins                                  *)
(* ===================================================================== *)

Lemma vite_on_keeps_static (p : Vite.Plugin) (e : Vite.Event) :
  Vite.isServe (Vite.on p e) = Vite.isServe p /\
  Vite.diagnostics (Vite.on p e) = Vite.diagnostics p /\
  Vite.config (Vite.on p e) = Vite.config p.
Proof. destruct e; repeat split. Qed.

Lemma vite_run_keeps_static (events : list Vite.Event) (p : Vite.Plugin) :
  Vite.isServe (Vite.run p events) = Vite.isServe p /\
  Vite.diagnostics (Vite.run p events) = Vite.diagnostics p /\
  Vite.config (Vite.run p events) = Vite.config p.
Proof.
  revert p. induction events as [|e events IH]; intros p; [repeat split|].
  change (Vite.run p (e :: events)) with (Vite.run (Vite.on p e) events).
  destruct (IH (Vite.on p e)) as (H1 & H2 & H3).
  destruct (vite_on_keeps_static p e) as (E1 & E2 & E3).
  rewrite H1, H2, H3. now repeat split.
Qed.

Lemma vite_load_static (p q : Vite.Plugin) (id : string) :
  Vite.isServe p = Vite.isServe q -> Vite.diagnostics p = Vite.diagnostics q ->
  Vite.load p id = Vite.load q id.
Proof. intros Hs Hd. unfold Vite.load. now rewrite Hs, Hd. Qed.

Lemma vite_collect_inv (h : Host) (c : Vite.Config.t) (d : Vite.HudDiagnostics.t) :
  Vite.collect h c = Normal d ->
  exists fw stripped pm,
    Vite.detectFramework h (Vite.Config.root c) = Normal fw /\
    replace_range_prefix (Vite.version fw) = Normal stripped /\
    Vite.detectPackageManager h (Vite.Config.root c) = Normal pm /\
    Vite.HudDiagnostics.framework d = Vite.name fw /\
    Vite.HudDiagnostics.frameworkVersion d = stripped /\
    Vite.HudDiagnostics.packageManager d = pm /\
    Vite.HudDiagnostics.port d
      = match Vite.Config.server_port c with
        | Some port => if truthy (Num port) then port else 5173
        | None => 5173
        end /\
    Vite.HudDiagnostics.mode d = Vite.Config.mode c /\
    Vite.HudDiagnostics.moduleCount d = 0.
Proof.
  unfold Vite.collect. intros H.
  destruct (Vite.detectFramework h _) as [fw|] eqn:Hfw;
    cbn [mbind completion_bind bind] in H; [|discriminate].
  destruct (replace_range_prefix _) as [stripped|] eqn:Hstripped;
    cbn [mbind completion_bind bind] in H; [|discriminate].
  destruct (Vite.detectPackageManager h _) as [pm|] eqn:Hpm;
    cbn [mbind completion_bind bind] in H; [|discriminate].
  injection H as <-. exists fw, stripped, pm. now repeat split.
Qed.

Lemma vite_collect_completes (h : Host) (c : Vite.Config.t) (fw : Vite.FrameworkInfo)
    (s : string) :
  Vite.detectFramework h (Vite.Config.root c) = Normal fw ->
  Vite.version fw = Str s ->
  exists d, Vite.collect h c = Normal d /\
            Vite.HudDiagnostics.frameworkVersion d = strip_range_prefix s.
Proof.
  intros Hfw Hs. unfold Vite.collect.
  rewrite Hfw. cbn [mbind completion_bind bind]. rewrite Hs.
  cbn [replace_range_prefix mbind completion_bind bind].
  rewrite vite_detectPackageManager_documented. cbn [mbind completion_bind bind].
  eexists. split; reflexivity.
Qed.

Lemma vite_collect_throws (h : Host) (c : Vite.Config.t) (fw : Vite.FrameworkInfo) :
  Vite.detectFramework h (Vite.Config.root c) = Normal fw ->
  (forall s, Vite.version fw <> Str s) ->
  exists what, Vite.collect h c = Throw (TypeError what).
Proof.
  intros Hfw Hs. unfold Vite.collect.
  rewrite Hfw. cbn [mbind completion_bind bind].
  destruct (Vite.version fw) eqn:E; cbn [replace_range_prefix mbind completion_bind bind];
    try (eexists; reflexivity).
  now destruct (Hs s).
Qed.

(** X1.  [resolveId] resolves the public id [virtual:hud-diagnostics] and
    nothing else, [load] serves the resolved id (the public one behind a
    NUL character) and nothing else: in particular it does not serve the
    public id itself, and whatever [resolveId] resolved, [load] serves. *)
Theorem X1_virtual_module_is_served_under_its_resolved_id_only :
  forall (p : Vite.Plugin) (id : string),
    (Vite.resolveId id = Some Vite.RESOLVED_VIRTUAL_MODULE_ID
       <-> id = Vite.VIRTUAL_MODULE_ID) /\
    (Vite.resolveId id = None <-> id <> Vite.VIRTUAL_MODULE_ID) /\
    (Vite.load p id <> None <-> id = Vite.RESOLVED_VIRTUAL_MODULE_ID) /\
    Vite.load p Vite.VIRTUAL_MODULE_ID = None /\
    (forall r, Vite.resolveId id = Some r -> exists text, Vite.load p r = Some text).
Proof.
  intros p id. unfold Vite.resolveId, Vite.load.
  change (String.eqb Vite.VIRTUAL_MODULE_ID Vite.RESOLVED_VIRTUAL_MODULE_ID)
    with false.
  destruct (String.eqb_spec id Vite.VIRTUAL_MODULE_ID) as [Ev|Ev];
    destruct (String.eqb_spec id Vite.RESOLVED_VIRTUAL_MODULE_ID) as [Er|Er].
  - rewrite Ev in Er. discriminate Er.
  - repeat split; try congruence; try discriminate;
      try (intros r [= <-]; rewrite String.eqb_refl; eauto).
  - repeat split; try congruence; try discriminate.
  - repeat split; try congruence; try discriminate;
      try (intros H; now destruct H).
Qed.

(** X2.  The static channel and the live counters do not touch each
    other: no sequence of server events changes what [load] returns, and
    [configResolved] changes nothing of what the endpoint reports. *)
Theorem X2_static_channel_and_counters_are_independent :
  forall (h : Host) (p : Vite.Plugin) (c : Vite.Config.t)
         (events : list Vite.Event) (id : string) (now : Z),
    Vite.load (Vite.run p events) id = Vite.load p id /\
    Vite.load (Vite.run (fst (Vite.configResolved h p c)) events) id
      = Vite.load (fst (Vite.configResolved h p c)) id /\
    poll_vite (fst (Vite.configResolved h p c)) now = poll_vite p now /\
    poll_vite (fst (Vite.configResolved h (Vite.run p events) c)) now
      = poll_vite (Vite.run p events) now.
Proof.
  intros h p c events id now.
  assert (Hpoll : forall q, poll_vite (fst (Vite.configResolved h q c)) now
                            = poll_vite q now).
  { intros q. rewrite !poll_vite_body. unfold Vite.configResolved.
    destruct (Vite.collect h c); reflexivity. }
  split; [|split; [|split]].
  - destruct (vite_run_keeps_static events p) as (Hs & Hd & _).
    now apply vite_load_static.
  - destruct (vite_run_keeps_static events (fst (Vite.configResolved h p c)))
      as (Hs & Hd & _).
    now apply vite_load_static.
  - apply Hpoll.
  - apply Hpoll.
Qed.

(** X3.  After [configResolved] with the command [serve], when collecting
    the diagnostics completed, the virtual module exports exactly what was
    collected; its port is never 0, so it never coincides with
    [EMPTY_DIAGNOSTICS], and its static [moduleCount] is 0 whatever the
    live counter is. *)
Theorem X3_serve_exports_the_collected_diagnostics :
  forall (h : Host) (p : Vite.Plugin) (c : Vite.Config.t) (d : Vite.HudDiagnostics.t),
    Vite.Config.command c = "serve" ->
    Vite.collect h c = Normal d ->
    let p' := fst (Vite.configResolved h p c) in
    Vite.isServe p' = true /\
    Vite.diagnostics p' = Some d /\
    Vite.load p' Vite.RESOLVED_VIRTUAL_MODULE_ID
      = Some ("export default "
                +:+ stringify_in_template (Vite.HudDiagnostics.to_value d) +:+ ";") /\
    Vite.HudDiagnostics.port d <> 0 /\
    d <> Vite.EMPTY_DIAGNOSTICS /\
    Vite.HudDiagnostics.moduleCount d = 0 /\
    Vite.HudDiagnostics.mode d = Vite.Config.mode c.
Proof.
  intros h p c d Hcommand Hcollect p'.
  destruct (vite_collect_inv h c d Hcollect)
    as (fw & stripped & pm & _ & _ & _ & _ & _ & _ & Hport & Hmode & Hcount).
  assert (Hnz : Vite.HudDiagnostics.port d <> 0).
  { rewrite Hport. destruct (Vite.Config.server_port c) as [port|]; [|discriminate].
    simpl. destruct (port =? 0) eqn:E; simpl; [discriminate|].
    now apply Z.eqb_neq. }
  subst p'. unfold Vite.configResolved. rewrite Hcollect, Hcommand.
  cbn [fst Vite.isServe Vite.diagnostics]. unfold Vite.load.
  rewrite String.eqb_refl. cbn [Vite.isServe Vite.diagnostics].
  repeat split; try assumption; try reflexivity.
  intros ->. now apply Hnz.
Qed.

Lemma X3_serve_exports_the_collected_diagnostics_witness :
  exists d,
    Vite.diagnostics (fst (Vite.configResolved (project nuxt_app ["yarn.lock"])
                             (Vite.hudPlugin 0) serve_config)) = Some d /\
    Vite.HudDiagnostics.port d <> 0 /\
    d <> Vite.EMPTY_DIAGNOSTICS.
Proof.
  eexists.
  pose proof (X3_serve_exports_the_collected_diagnostics
                (project nuxt_app ["yarn.lock"]) (Vite.hudPlugin 0) serve_config _
                eq_refl eq_refl) as (_ & Hd & _ & Hport & Hne & _).
  split; [exact Hd|]. split; [exact Hport|exact Hne].
Defined.

(** X4.  [configResolved] records the command and the config before
    anything can fail.  It completes exactly when the detected framework
    version is a string, and then stores diagnostics whose
    [frameworkVersion] is that string without its first caret or tilde;
    when the manifest holds any other value under the marker it throws a
    [TypeError], leaves [diagnostics] as it was, and a fresh plugin in
    [serve] mode then exports [undefined]. *)
Theorem X4_configResolved_throws_on_a_non_string_version :
  forall (h : Host) (p : Vite.Plugin) (c : Vite.Config.t) (fw : Vite.FrameworkInfo),
    Vite.detectFramework h (Vite.Config.root c) = Normal fw ->
    let out := Vite.configResolved h p c in
    Vite.isServe (fst out) = String.eqb (Vite.Config.command c) "serve" /\
    Vite.config (fst out) = Some c /\
    (forall s, Vite.version fw = Str s ->
       snd out = Normal tt /\
       exists d, Vite.diagnostics (fst out) = Some d /\
                 Vite.HudDiagnostics.frameworkVersion d = strip_range_prefix s) /\
    ((forall s, Vite.version fw <> Str s) ->
       (exists what, snd out = Throw (TypeError what)) /\
       Vite.diagnostics (fst out) = Vite.diagnostics p /\
       (Vite.Config.command c = "serve" -> Vite.diagnostics p = None ->
          Vite.load (fst out) Vite.RESOLVED_VIRTUAL_MODULE_ID
          = Some "export default undefined;")).
Proof.
  intros h p c fw Hfw out. subst out. unfold Vite.configResolved.
  split; [destruct (Vite.collect h c); reflexivity|].
  split; [destruct (Vite.collect h c); reflexivity|].
  split.
  - intros s Hs.
    destruct (vite_collect_completes h c fw s Hfw Hs) as (d & Hd & Hversion).
    rewrite Hd. split; [reflexivity|]. exists d. now split.
  - intros Hs.
    destruct (vite_collect_throws h c fw Hfw Hs) as (what & Hthrow).
    rewrite Hthrow. cbn [fst snd Vite.diagnostics].
    split; [eauto|]. split; [reflexivity|].
    intros Hcommand Hnone. unfold Vite.load.
    rewrite String.eqb_refl. cbn [Vite.isServe Vite.diagnostics].
    now rewrite Hcommand, Hnone.
Qed.

Lemma X4_configResolved_throws_on_a_non_string_version_witness :
  let out := Vite.configResolved (project numeric_version_app []) (Vite.hudPlugin 0)
               serve_config in
  (exists what, snd out = Throw (TypeError what)) /\
  Vite.load (fst out) Vite.RESOLVED_VIRTUAL_MODULE_ID = Some "export default undefined;".
Proof.
  destruct (X4_configResolved_throws_on_a_non_string_version
              (project numeric_version_app []) (Vite.hudPlugin 0) serve_config
              {| Vite.name := "vue"; Vite.version := Num 3 |} eq_refl)
    as (_ & _ & _ & Hthrow).
  destruct (Hthrow ltac:(discriminate)) as (Hwhat & _ & Hload).
  split; [exact Hwhat|]. exact (Hload eq_refl eq_refl).
Defined.

Lemma webpack_collect_completes (h : Host) (c : Webpack.Compiler.t)
    (fw : Webpack.FrameworkInfo) (s : string) :
  Webpack.detectFramework h
    (Webpack.string_or (Some (Webpack.Compiler.context c)) (cwd (process h))) = Normal fw ->
  Webpack.version fw = Str s ->
  exists d, Webpack.collect h c = Normal d /\
            Webpack.HudDiagnostics.frameworkVersion d = strip_range_prefix s /\
            Webpack.HudDiagnostics.mode d = "development".
Proof.
  intros Hfw Hs. unfold Webpack.collect.
  rewrite Hfw. cbn [mbind completion_bind bind]. rewrite Hs.
  cbn [replace_range_prefix mbind completion_bind bind].
  rewrite webpack_detectPackageManager_documented. cbn [mbind completion_bind bind].
  eexists. repeat split.
Qed.

Lemma webpack_collect_throws (h : Host) (c : Webpack.Compiler.t)
    (fw : Webpack.FrameworkInfo) :
  Webpack.detectFramework h
    (Webpack.string_or (Some (Webpack.Compiler.context c)) (cwd (process h))) = Normal fw ->
  (forall s, Webpack.version fw <> Str s) ->
  exists what, Webpack.collect h c = Throw (TypeError what).
Proof.
  intros Hfw Hs. unfold Webpack.collect.
  rewrite Hfw. cbn [mbind completion_bind bind].
  destruct (Webpack.version fw) eqn:E;
    cbn [replace_range_prefix mbind completion_bind bind];
    try (eexists; reflexivity).
  now destruct (Hs s).
Qed.

(** X5.  In development mode [HudWebpackPlugin.apply] detects the
    framework under [compiler.context], or under the working directory
    when the context is empty.  When the detected version is a string it
    defines exactly one global, [__HUD_DIAGNOSTICS__], with a JSON text,
    and taps [hooks.done] once; when the manifest holds any other value
    under the marker it throws a [TypeError] and installs nothing. *)
Theorem X5_webpack_apply_in_development :
  forall (h : Host) (c : Webpack.Compiler.t) (fw : Webpack.FrameworkInfo),
    Webpack.Compiler.mode c = Some "development" ->
    Webpack.detectFramework h
      (if String.eqb (Webpack.Compiler.context c) "" then cwd (process h)
       else Webpack.Compiler.context c) = Normal fw ->
    (forall s, Webpack.version fw = Str s ->
       exists text,
         Webpack.apply h c
         = Normal {| Webpack.definitions := [(HUD_GLOBAL, Some text)];
                     Webpack.done_taps := ["HudWebpackPlugin"] |}) /\
    ((forall s, Webpack.version fw <> Str s) ->
       exists what, Webpack.apply h c = Throw (TypeError what)).
Proof.
  intros h c fw Hmode Hfw.
  assert (Hroot : Webpack.string_or (Some (Webpack.Compiler.context c)) (cwd (process h))
                  = if String.eqb (Webpack.Compiler.context c) "" then cwd (process h)
                    else Webpack.Compiler.context c).
  { unfold Webpack.string_or. simpl. now destruct (String.eqb _ ""). }
  rewrite <- Hroot in Hfw.
  unfold Webpack.apply. rewrite Hmode.
  rewrite bool_decide_eq_true_2 by reflexivity. cbn [negb].
  split.
  - intros s Hs.
    destruct (webpack_collect_completes h c fw s Hfw Hs) as (d & Hd & _).
    rewrite Hd. cbn [mbind completion_bind bind]. eexists. reflexivity.
  - intros Hs.
    destruct (webpack_collect_throws h c fw Hfw Hs) as (what & Hthrow).
    rewrite Hthrow. eauto.
Qed.

Lemma X5_webpack_apply_in_development_witness :
  (exists text,
     Webpack.apply (project next_app ["yarn.lock"]) development_build
     = Normal {| Webpack.definitions := [(HUD_GLOBAL, Some text)];
                 Webpack.done_taps := ["HudWebpackPlugin"] |}) /\
  (exists what,
     Webpack.apply (project numeric_version_app []) development_build
     = Throw (TypeError what)).
Proof.
  split.
  - exact (proj1 (X5_webpack_apply_in_development
                    (project next_app ["yarn.lock"]) development_build
                    {| Webpack.name := "nextjs"; Webpack.version := Str "14.0.0" |}
                    eq_refl eq_refl) "14.0.0" eq_refl).
  - exact (proj2 (X5_webpack_apply_in_development
                    (project numeric_version_app []) development_build
                    {| Webpack.name := "vue"; Webpack.version := Num 3 |}
                    eq_refl eq_refl) ltac:(discriminate)).
Defined.

Lemma strip_range_free (s : string) :
  has_range_char s = false -> strip_range_prefix s = s.
Proof.
  induction s as [|c s IH]; [reflexivity|]. simpl. intros H.
  apply orb_false_iff in H as [Hc Hs]. rewrite Hc. now rewrite IH.
Qed.

Lemma strip_first_range_char (pre post : string) (ch : ascii) :
  has_range_char pre = false -> ch = "^"%char \/ ch = "~"%char ->
  strip_range_prefix (pre +:+ String ch post) = pre +:+ post.
Proof.
  intros Hpre Hch. induction pre as [|c pre IH].
  - simpl. now destruct Hch as [->| ->].
  - simpl in Hpre. apply orb_false_iff in Hpre as [Hc Hrest].
    change (String c pre +:+ String ch post) with (String c (pre +:+ String ch post)).
    simpl. rewrite Hc. now rewrite IH.
Qed.

(** X6.  The [frameworkVersion] the Vite plugin collects is the detected
    version unchanged when it holds no caret and no tilde, and otherwise
    the version without its first caret or tilde, wherever that stands;
    later ones stay. *)
Theorem X6_frameworkVersion_drops_the_first_caret_or_tilde :
  forall (h : Host) (c : Vite.Config.t) (fw : Vite.FrameworkInfo)
         (d : Vite.HudDiagnostics.t),
    Vite.detectFramework h (Vite.Config.root c) = Normal fw ->
    Vite.collect h c = Normal d ->
    (forall s, Vite.version fw = Str s -> has_range_char s = false ->
               Vite.HudDiagnostics.frameworkVersion d = s) /\
    (forall pre ch post,
       Vite.version fw = Str (pre +:+ String ch post) ->
       has_range_char pre = false -> ch = "^"%char \/ ch = "~"%char ->
       Vite.HudDiagnostics.frameworkVersion d = pre +:+ post).
Proof.
  intros h c fw d Hfw Hcollect.
  assert (Hstrip : forall s, Vite.version fw = Str s ->
                             Vite.HudDiagnostics.frameworkVersion d = strip_range_prefix s).
  { intros s Hs. destruct (vite_collect_completes h c fw s Hfw Hs) as (d' & Hd' & Hv).
    rewrite Hcollect in Hd'. now injection Hd' as <-. }
  split.
  - intros s Hs Hfree. rewrite (Hstrip s Hs). now apply strip_range_free.
  - intros pre ch post Hs Hfree Hch. rewrite (Hstrip _ Hs).
    now apply strip_first_range_char.
Qed.

Lemma X6_frameworkVersion_drops_the_first_caret_or_tilde_witness :
  exists d,
    Vite.collect (project ranged_app []) serve_config = Normal d /\
    Vite.HudDiagnostics.frameworkVersion d = "17.0.0 || ^18.0.0".
Proof.
  eexists. split; [reflexivity|].
  exact (proj2 (X6_frameworkVersion_drops_the_first_caret_or_tilde
                  (project ranged_app []) serve_config
                  {| Vite.name := "react"; Vite.version := Str "^17.0.0 || ^18.0.0" |}
                  _ eq_refl eq_refl)
               "" "^"%char "17.0.0 || ^18.0.0" eq_refl eq_refl (or_introl eq_refl)).
Defined.

(** *** Objects built by repeated assignment *)

Lemma own_app (l1 l2 : list (string * Value)) (k : string) :
  own (l1 ++ l2) k = match own l1 k with
                     | Some v => Some v
                     | None => own l2 k
                     end.
Proof.
  induction l1 as [|[k0 v0] l1 IH]; [reflexivity|]. simpl.
  now destruct (String.eqb k0 k).
Qed.

Lemma own_assigned (l acc : list (string * Value)) (k : string) :
  own (fold_left (fun a kv => set_prop a (fst kv) (snd kv)) l acc) k
  = match own (rev l) k with
    | Some v => Some v
    | None => own acc k
    end.
Proof.
  revert acc. induction l as [|[k0 v0] l IH]; intros acc; [reflexivity|].
  simpl. rewrite IH, own_app, own_set_prop. simpl.
  destruct (own (rev l) k); [reflexivity|].
  now destruct (String.eqb k0 k).
Qed.

Lemma own_some_in (l : list (string * Value)) (k : string) (v : Value) :
  own l k = Some v -> In (k, v) l.
Proof.
  induction l as [|[k0 v0] l IH]; simpl; [discriminate|].
  destruct (String.eqb_spec k0 k) as [->|Hne].
  - intros [= ->]. now left.
  - intros H. right. now apply IH.
Qed.

Lemma set_prop_keys (l : list (string * Value)) (k : string) (v : Value) :
  map fst (set_prop l k v)
  = match own l k with
    | Some _ => map fst l
    | None => map fst l ++ [k]
    end.
Proof.
  induction l as [|[k0 v0] l IH]; [reflexivity|]. simpl.
  destruct (String.eqb k0 k); [reflexivity|].
  simpl. rewrite IH. now destruct (own l k).
Qed.

Lemma own_none_not_in (l : list (string * Value)) (k : string) :
  own l k = None -> ~ In k (map fst l).
Proof.
  induction l as [|[k0 v0] l IH]; simpl; [tauto|].
  destruct (String.eqb_spec k0 k) as [->|Hne]; [discriminate|].
  intros H [Heq|Hin]; [contradiction|]. now apply IH.
Qed.

Lemma set_prop_NoDup (l : list (string * Value)) (k : string) (v : Value) :
  List.NoDup (map fst l) -> List.NoDup (map fst (set_prop l k v)).
Proof.
  intros Hnd. rewrite set_prop_keys. destruct (own l k) eqn:E; [exact Hnd|].
  apply NoDup_ListNoDup, NoDup_app.
  split; [now apply NoDup_ListNoDup|]. split.
  - intros x Hx Hk. apply list_elem_of_In in Hx.
    apply list_elem_of_singleton in Hk. subst x.
    now apply (own_none_not_in l k E).
  - apply NoDup_singleton.
Qed.

Lemma assigned_NoDup (l acc : list (string * Value)) :
  List.NoDup (map fst acc) ->
  List.NoDup (map fst (fold_left (fun a kv => set_prop a (fst kv) (snd kv)) l acc)).
Proof.
  revert acc. induction l as [|[k0 v0] l IH]; intros acc Hnd; [exact Hnd|].
  simpl. apply IH. now apply set_prop_NoDup.
Qed.

Lemma aliases_assigned (l : list Vite.Config.Alias) (acc : list (string * Value)) :
  fold_left
    (fun acc a =>
       match Vite.Config.find a with
       | Vite.Config.FindString s => set_prop acc s (Str (Vite.Config.replacement a))
       | Vite.Config.FindRegExp _ => acc
       end) l acc
  = fold_left (fun a kv => set_prop a (fst kv) (snd kv)) (string_aliases l) acc.
Proof.
  revert acc. induction l as [|a l IH]; intros acc; [reflexivity|].
  unfold string_aliases. simpl. destruct (Vite.Config.find a); simpl; apply IH.
Qed.

(** X7.  [resolvedAliases] holds one member per distinct string [find]:
    its value is the replacement of the last alias with that [find], an
    alias whose [find] is a regular expression contributes nothing, and
    no key occurs twice. *)
Theorem X7_resolvedAliases_last_string_alias_wins :
  forall (l : list Vite.Config.Alias) (k : string),
    own (Vite.aliases l) k = own (rev (string_aliases l)) k /\
    List.NoDup (map fst (Vite.aliases l)) /\
    (forall v, own (Vite.aliases l) k = Some v ->
               exists a, In a l /\ Vite.Config.find a = Vite.Config.FindString k /\
                         v = Str (Vite.Config.replacement a)) /\
    (forall a, Vite.Config.find a = Vite.Config.FindString k ->
               own (Vite.aliases (l ++ [a])) k = Some (Str (Vite.Config.replacement a))).
Proof.
  intros l k.
  assert (Hown : forall l', own (Vite.aliases l') k = own (rev (string_aliases l')) k).
  { intros l'. unfold Vite.aliases. rewrite aliases_assigned, own_assigned.
    now destruct (own (rev (string_aliases l')) k). }
  split; [apply Hown|]. split; [|split].
  - unfold Vite.aliases. rewrite aliases_assigned. apply assigned_NoDup. constructor.
  - intros v Hv. rewrite Hown in Hv. apply own_some_in in Hv.
    apply in_rev in Hv. apply list_elem_of_In in Hv.
    unfold string_aliases in Hv. apply list_elem_of_omap in Hv as (a & Ha & Hf).
    exists a. split; [now apply list_elem_of_In|].
    destruct (Vite.Config.find a); [|discriminate]. now injection Hf as -> ->.
  - intros a Ha. rewrite Hown. unfold string_aliases.
    rewrite omap_app. simpl. rewrite Ha. simpl.
    rewrite rev_app_distr. simpl. now rewrite String.eqb_refl.
Qed.

Lemma X7_resolvedAliases_last_string_alias_wins_witness :
  let alias f r := {| Vite.Config.find := f; Vite.Config.replacement := r |} in
  own (Vite.aliases [ alias (Vite.Config.FindString "@") "/srv/app/src";
                      alias (Vite.Config.FindRegExp "^~") "/srv/app/node_modules";
                      alias (Vite.Config.FindString "@") "/srv/app/lib" ]) "@"
  = Some (Str "/srv/app/lib").
Proof.
  intros alias.
  exact (proj2 (proj2 (proj2 (X7_resolvedAliases_last_string_alias_wins
           [ alias (Vite.Config.FindString "@") "/srv/app/src";
             alias (Vite.Config.FindRegExp "^~") "/srv/app/node_modules" ] "@")))
         (alias (Vite.Config.FindString "@") "/srv/app/lib") eq_refl).
Defined.

Lemma constructor_names_cons (o : option string) (l : list (option string)) :
  Webpack.constructor_names (o :: l)
  = match o with
    | Some s =>
        if truthy (Str s) && negb (String.eqb s "Object")
        then s :: Webpack.constructor_names l
        else Webpack.constructor_names l
    | None => Webpack.constructor_names l
    end.
Proof.
  unfold Webpack.constructor_names. destruct o as [s|]; [|reflexivity].
  cbn [omap list_omap].
  destruct (truthy (Str s) && negb (String.eqb s "Object")); reflexivity.
Qed.

(** X8.  The [plugins] list of the Webpack diagnostics holds exactly the
    constructor names that are present, non-empty and not [Object], in
    the order of the plugins. *)
Theorem X8_webpack_plugin_names_are_filtered_in_order :
  forall (l : list (option string)) (s : string),
    (s ∈ Webpack.constructor_names l <-> Some s ∈ l /\ s <> "" /\ s <> "Object") /\
    sublist (Webpack.constructor_names l) (omap id l) /\
    (length (Webpack.constructor_names l) <= length l)%nat.
Proof.
  intros l s. split; [|split].
  - unfold Webpack.constructor_names. rewrite list_elem_of_omap. split.
    + intros ([n|] & Hin & Hf); [|discriminate].
      simpl in Hf. destruct (String.eqb_spec n "") as [->|Hne]; simpl in Hf;
        [discriminate|].
      destruct (String.eqb_spec n "Object") as [->|Hno]; simpl in Hf; [discriminate|].
      injection Hf as ->. now repeat split.
    + intros (Hin & Hne & Hno). exists (Some s). split; [exact Hin|]. simpl.
      destruct (String.eqb_spec s ""); [contradiction|].
      destruct (String.eqb_spec s "Object"); [contradiction|]. reflexivity.
  - induction l as [|[n|] l IH]; [constructor| |].
    + rewrite constructor_names_cons.
      change (omap id (Some n :: l)) with (n :: omap id l).
      destruct (truthy (Str n) && negb (String.eqb n "Object")).
      * now apply sublist_skip.
      * now apply sublist_cons.
    + rewrite constructor_names_cons. exact IH.
  - induction l as [|[n|] l IH]; [simpl; lia| |].
    + rewrite constructor_names_cons.
      destruct (truthy (Str n) && negb (String.eqb n "Object")); simpl; lia.
    + rewrite constructor_names_cons. simpl. lia.
Qed.

(** X9.  When the manifest's [dependencies] and [devDependencies] are
    objects, the merged dependencies hold, for every package, the
    [devDependencies] value if there is one and the [dependencies] value
    otherwise, under keys that are all distinct: a package declared in
    both is detected with its [devDependencies] version. *)
Theorem X9_devDependencies_override_dependencies :
  forall (props dependencies devDependencies : list (string * Value)) (k : string),
    own props "dependencies" = Some (Obj dependencies) ->
    own props "devDependencies" = Some (Obj devDependencies) ->
    List.NoDup (map fst dependencies) -> List.NoDup (map fst devDependencies) ->
    exists merged,
      Vite.merged_dependencies (Obj props) = Normal merged /\
      Webpack.merged_dependencies (Obj props) = Normal merged /\
      Vite.dep merged k
      = match own devDependencies k with
        | Some v => v
        | None => default Undefined (own dependencies k)
        end /\
      List.NoDup (map fst merged).
Proof.
  intros props dependencies devDependencies k Hdeps Hdev Hnd Hnd'.
  exists (spread (spread [] (Obj dependencies)) (Obj devDependencies)).
  assert (Hm : Vite.merged_dependencies (Obj props)
               = Normal (spread (spread [] (Obj dependencies)) (Obj devDependencies))).
  { unfold Vite.merged_dependencies. cbn [get mbind completion_bind bind].
    now rewrite Hdeps, Hdev. }
  split; [exact Hm|]. split; [exact Hm|]. split.
  - unfold Vite.dep, spread. cbn [enumerable].
    rewrite (own_copied _ _ _ Hnd'), (own_copied _ _ _ Hnd).
    destruct (own devDependencies k); [reflexivity|].
    now destruct (own dependencies k).
  - unfold spread. cbn [enumerable]. apply assigned_NoDup, assigned_NoDup. constructor.
Qed.

Lemma X9_devDependencies_override_dependencies_witness :
  exists merged,
    Vite.merged_dependencies upgraded_app = Normal merged /\
    Vite.dep merged "vue" = Str "^3.4.0" /\
    Vite.dep merged "nuxt" = Str "".
Proof.
  destruct (X9_devDependencies_override_dependencies
              [ ("name", Str "app");
                ("dependencies", Obj [("vue", Str "^2.7.0"); ("nuxt", Str "^3.8.0")]);
                ("devDependencies", Obj [("vue", Str "^3.4.0"); ("nuxt", Str "")]) ]
              [("vue", Str "^2.7.0"); ("nuxt", Str "^3.8.0")]
              [("vue", Str "^3.4.0"); ("nuxt", Str "")] "vue"
              eq_refl eq_refl
              ltac:(repeat constructor; simpl; intuition discriminate)
              ltac:(repeat constructor; simpl; intuition discriminate))
    as (merged & Hm & _ & Hvue & _).
  exists merged. split; [exact Hm|]. split; [exact Hvue|].
  injection Hm as <-. reflexivity.
Defined.

(** The package declared in both groups is detected with the version of
    [devDependencies]; an empty version there hides the dependency. *)
Example upgraded_app_detected :
  Vite.detectFramework (project upgraded_app []) "/srv/app"
  = Normal {| Vite.name := "vue"; Vite.version := Str "^3.4.0" |}.
Proof. reflexivity. Qed.

Lemma uptime_follows_the_clock (start T T' : Z) :
  let u := (T - start) / 1000 in
  let u' := (T' - start) / 1000 in
  (T <= T' -> u <= u') /\
  (T < start -> u < 0) /\
  (start <= T -> 0 <= u) /\
  (T' = T + 1000 -> u' = u + 1).
Proof.
  intros u u'. subst u u'. repeat split.
  - intros H. apply Z.div_le_mono; lia.
  - intros H. apply Z.div_lt_upper_bound; lia.
  - intros H. apply Z.div_pos; lia.
  - intros ->. replace (T + 1000 - start) with ((T - start) + 1 * 1000) by lia.
    rewrite Z.div_add by lia. reflexivity.
Qed.

(** X10.  The reported [uptime] follows the clock, not the server: a
    later poll never reports less, a poll one second later reports one
    more, and when the clock is set back before the start time the report
    is negative. *)
Theorem X10_uptime_follows_the_clock :
  forall (p : Vite.Plugin) (m : Webpack.Metrics) (T T' u u' w w' : Z),
    get (Vite.metrics p T) "uptime" = Normal (Num u) ->
    get (Vite.metrics p T') "uptime" = Normal (Num u') ->
    get (Webpack.metrics m T) "uptime" = Normal (Num w) ->
    get (Webpack.metrics m T') "uptime" = Normal (Num w') ->
    (T <= T' -> u <= u' /\ w <= w') /\
    (T < Vite.startTime p -> u < 0) /\
    (T < Webpack.startTime m -> w < 0) /\
    (Vite.startTime p <= T -> 0 <= u) /\
    (Webpack.startTime m <= T -> 0 <= w) /\
    (T' = T + 1000 -> u' = u + 1 /\ w' = w + 1).
Proof.
  intros p m T T' u u' w w' Hu Hu' Hw Hw'.
  injection Hu as <-. injection Hu' as <-. injection Hw as <-. injection Hw' as <-.
  destruct (uptime_follows_the_clock (Vite.startTime p) T T') as (V1 & V2 & V3 & V4).
  destruct (uptime_follows_the_clock (Webpack.startTime m) T T') as (W1 & W2 & W3 & W4).
  repeat split; auto.
Qed.

Lemma X10_uptime_follows_the_clock_witness :
  get (Vite.metrics (Vite.hudPlugin 5000) 4999) "uptime" = Normal (Num (-1)) /\
  get (Vite.metrics (Vite.hudPlugin 5000) 5999) "uptime" = Normal (Num 0) /\
  -1 < 0 /\ 0 = -1 + 1.
Proof.
  destruct (X10_uptime_follows_the_clock (Vite.hudPlugin 5000)
              (Webpack.module_loaded 5000) 4999 5999 (-1) 0 (-1) 0
              eq_refl eq_refl eq_refl eq_refl)
    as (_ & Hneg & _ & _ & _ & Hstep).
  split; [reflexivity|]. split; [reflexivity|].
  split; [apply Hneg; reflexivity|]. exact (proj1 (Hstep eq_refl)).
Defined.

(* ===================================================================== *)
(** ** Properties of the overlay                                          *)
(* ===================================================================== *)

Lemma toFixed1_tenths (Number_toString : Z -> Z -> string) (num den : Z) :
  num < 10 ^ 21 * den ->
  VueHud.toFixed1 Number_toString num den
  = tenths ((20 * num + den) / (2 * den)).
Proof.
  intros Hlt. unfold VueHud.toFixed1.
  destruct (Z.leb_spec (10 ^ 21 * den) num); [lia|reflexivity].
Qed.

Lemma nearest_tenth (num den : Z) :
  0 < den ->
  let n := (20 * num + den) / (2 * den) in
  2 * den * n <= 20 * num + den < 2 * den * n + 2 * den.
Proof.
  intros Hden n. subst n.
  pose proof (Z.mul_div_le (20 * num + den) (2 * den) ltac:(lia)).
  pose proof (Z.mul_succ_div_gt (20 * num + den) (2 * den) ltac:(lia)).
  lia.
Qed.

(** X11.  [formatBytes] prints a count below 1024 as it is with the unit
    [B], down to the negative counts above -2^53; from 1024 up to one
    byte below 1024 * 1024 it prints kilobytes rounded to the nearest
    tenth (a tie upwards), so between 1.0 and 1024.0: the last 51 counts
    before a megabyte read [1024.0 KB]; from 1024 * 1024 on, and below
    10^21 megabytes, it prints megabytes rounded the same way.  From 10^21
    megabytes on, and from -2^53 bytes down, the text is the one
    [Number::toString] gives for the number. *)
Theorem X11_formatBytes_units_and_rounding :
  forall (Number_toString : Z -> Z -> string) (b : Z),
    let formatBytes := VueHud.formatBytes Number_toString in
    formatBytes 0 = "0 B" /\
    (- 2 ^ 53 < b < 1024 -> b <> 0 -> formatBytes b = pretty b +:+ " B") /\
    (1024 <= b < 1048576 ->
       exists n, formatBytes b = tenths n +:+ " KB" /\
                 10 <= n <= 10240 /\
                 1024 * n - 512 <= 10 * b < 1024 * n + 512) /\
    (1048525 <= b < 1048576 -> formatBytes b = "1024.0 KB") /\
    (1048576 <= b < 10 ^ 21 * 1048576 ->
       exists n, formatBytes b = tenths n +:+ " MB" /\
                 10 <= n /\
                 1048576 * n - 524288 <= 10 * b < 1048576 * n + 524288) /\
    (10 ^ 21 * 1048576 <= b ->
       formatBytes b = Number_toString b 1048576 +:+ " MB") /\
    (b <= - 2 ^ 53 -> formatBytes b = Number_toString b 1 +:+ " B").
Proof.
  intros Number_toString b formatBytes. subst formatBytes.
  assert (Hbig : 10 ^ 21 = 1000000000000000000000) by reflexivity.
  assert (Hsafe : VueHud.MAX_SAFE_INTEGER = 9007199254740991) by reflexivity.
  assert (Hpow : 2 ^ 53 = 9007199254740992) by reflexivity.
  assert (Hkb : 1024 <= b < 1048576 ->
                VueHud.formatBytes Number_toString b
                = tenths ((20 * b + 1024) / 2048) +:+ " KB").
  { intros [Hlo Hhi]. unfold VueHud.formatBytes.
    destruct (Z.eqb_spec b 0); [lia|].
    destruct (Z.ltb_spec b 1024); [lia|].
    destruct (Z.ltb_spec b (1024 * 1024)); [|lia].
    now rewrite toFixed1_tenths by lia. }
  split; [reflexivity|]. split; [|split; [|split; [|split; [|split]]]].
  - intros Hlt Hnz. unfold VueHud.formatBytes, VueHud.toString.
    destruct (Z.eqb_spec b 0); [contradiction|].
    destruct (Z.ltb_spec b 1024); [|lia].
    destruct (Z.leb_spec (Z.abs b) VueHud.MAX_SAFE_INTEGER); [reflexivity|lia].
  - intros Hb. exists ((20 * b + 1024) / 2048). split; [now apply Hkb|].
    pose proof (nearest_tenth b 1024 ltac:(lia)) as Hn. cbv zeta in Hn.
    change (2 * 1024) with 2048 in Hn. lia.
  - intros Hb. rewrite Hkb by lia.
    replace ((20 * b + 1024) / 2048) with 10240; [reflexivity|].
    pose proof (nearest_tenth b 1024 ltac:(lia)) as Hn. cbv zeta in Hn.
    change (2 * 1024) with 2048 in Hn. lia.
  - intros Hb. exists ((20 * b + 1048576) / 2097152). split.
    + unfold VueHud.formatBytes.
      destruct (Z.eqb_spec b 0); [lia|].
      destruct (Z.ltb_spec b 1024); [lia|].
      destruct (Z.ltb_spec b (1024 * 1024)); [lia|].
      now rewrite toFixed1_tenths by lia.
    + pose proof (nearest_tenth b 1048576 ltac:(lia)) as Hn. cbv zeta in Hn.
      change (2 * 1048576) with 2097152 in Hn. lia.
  - intros Hb. unfold VueHud.formatBytes, VueHud.toFixed1.
    destruct (Z.eqb_spec b 0); [lia|].
    destruct (Z.ltb_spec b 1024); [lia|].
    destruct (Z.ltb_spec b (1024 * 1024)); [lia|].
    destruct (Z.leb_spec (10 ^ 21 * (1024 * 1024)) b); [reflexivity|lia].
  - intros Hb. unfold VueHud.formatBytes, VueHud.toString.
    destruct (Z.eqb_spec b 0); [lia|].
    destruct (Z.ltb_spec b 1024); [|lia].
    destruct (Z.leb_spec (Z.abs b) VueHud.MAX_SAFE_INTEGER); [lia|reflexivity].
Qed.

Lemma X11_formatBytes_units_and_rounding_witness :
  VueHud.formatBytes sample_Number_toString 1536 = "1.5 KB" /\
  VueHud.formatBytes sample_Number_toString 1048575 = "1024.0 KB" /\
  VueHud.formatBytes sample_Number_toString 1048576 = "1.0 MB" /\
  VueHud.formatBytes sample_Number_toString 1023 = "1023 B" /\
  VueHud.formatBytes sample_Number_toString (2 ^ 90) = "1.1805916207174113e+21 MB".
Proof.
  destruct (X11_formatBytes_units_and_rounding sample_Number_toString 1048575)
    as (_ & _ & _ & Hedge & _).
  destruct (X11_formatBytes_units_and_rounding sample_Number_toString 1023)
    as (_ & Hsmall & _).
  destruct (X11_formatBytes_units_and_rounding sample_Number_toString (2 ^ 90))
    as (_ & _ & _ & _ & _ & Hhuge & _).
  split; [reflexivity|]. split; [apply Hedge; lia|].
  split; [reflexivity|]. split; [apply Hsmall; [lia|discriminate]|].
  apply Hhuge. now vm_compute.
Defined.

(** *** [getStorageSize] *)

Lemma getItem_found (storage : VueHud.Storage) (i : nat)
    (k v : VueHud.DOMString) :
  storage !! i = Some (k, v) -> exists v', VueHud.getItem storage k = Some v'.
Proof.
  revert i. induction storage as [|[k0 v0] storage IH]; intros i Hi; [discriminate|].
  simpl. destruct (decide (k0 = k)) as [Heq|Hne].
  - rewrite bool_decide_eq_true_2 by exact Heq. eauto.
  - rewrite bool_decide_eq_false_2 by exact Hne.
    destruct i as [|i]; [|now apply (IH i)].
    injection Hi as -> ->. contradiction.
Qed.

Lemma getItem_at (storage : VueHud.Storage) (i : nat) (k v : VueHud.DOMString) :
  List.NoDup (map fst storage) -> storage !! i = Some (k, v) ->
  VueHud.getItem storage k = Some v.
Proof.
  revert i. induction storage as [|[k0 v0] storage IH]; intros i Hnd Hi; [discriminate|].
  inversion Hnd as [|? ? Hnotin Hnd']; subst. simpl.
  destruct i as [|i].
  - injection Hi as -> ->. now rewrite bool_decide_eq_true_2.
  - simpl in Hi. rewrite bool_decide_eq_false_2; [now apply (IH i)|].
    intros ->. apply Hnotin. apply in_map_iff. exists (k, v). split; [reflexivity|].
    apply list_elem_of_In. now apply list_elem_of_lookup_2 with i.
Qed.

Lemma size_loop_returns (storage : VueHud.Storage) (remaining i : nat) (acc : Z) :
  (i + remaining <= length storage)%nat ->
  returns (VueHud.size_loop storage remaining i acc).
Proof.
  revert i acc. induction remaining as [|remaining IH]; intros i acc Hle.
  - unfold returns. simpl. eauto.
  - destruct (lookup_lt_is_Some_2 storage i ltac:(lia)) as [[k v] Hi].
    destruct (getItem_found storage i k v Hi) as (v' & Hv').
    cbn [VueHud.size_loop]. unfold VueHud.key, VueHud.Storage in *. rewrite Hi.
    cbn [VueHud.non_null fst mbind completion_bind bind].
    rewrite Hv'. cbn [VueHud.non_null mbind completion_bind bind].
    apply IH. lia.
Qed.

Lemma size_loop_total (storage : VueHud.Storage) :
  List.NoDup (map fst storage) ->
  forall (rest done : VueHud.Storage) (acc : Z),
    storage = done ++ rest ->
    VueHud.size_loop storage (length rest) (length done) acc
    = Normal (acc + total (map entry_bytes rest)).
Proof.
  intros Hnd rest. induction rest as [|[k v] rest IH]; intros done acc Hsplit.
  - simpl. f_equal. unfold total. simpl. lia.
  - assert (Hi : storage !! length done = Some (k, v)).
    { rewrite Hsplit. unfold VueHud.Storage. now apply list_lookup_middle. }
    cbn [VueHud.size_loop length]. unfold VueHud.key, VueHud.Storage in *. rewrite Hi.
    cbn [VueHud.non_null fst mbind completion_bind bind].
    rewrite (getItem_at storage _ k v Hnd Hi).
    cbn [VueHud.non_null mbind completion_bind bind].
    specialize (IH (done ++ [(k, v)])
                  (acc + (Z.of_nat (length k) + Z.of_nat (length v)) * 2)).
    rewrite length_app in IH. simpl in IH.
    replace (length done + 1)%nat with (S (length done)) in IH by lia.
    rewrite IH by (rewrite Hsplit, <- app_assoc; reflexivity).
    f_equal. unfold total, entry_bytes. simpl. lia.
Qed.

Lemma total_entry_bytes_even (storage : VueHud.Storage) :
  exists half, total (map entry_bytes storage) = 2 * half /\ 0 <= half.
Proof.
  induction storage as [|[k v] storage (half & Hh & Hpos)].
  - exists 0. split; [reflexivity|lia].
  - exists (Z.of_nat (length k) + Z.of_nat (length v) + half).
    unfold total in *. simpl. rewrite Hh. unfold entry_bytes. simpl. lia.
Qed.

(** X12.  [getStorageSize] returns normally on every storage: the key
    it reads at an index is always found again by [getItem].  With the
    keys of a storage distinct, as they are, it returns the number of
    entries and two bytes for every code unit of every key and value, an
    even number. *)
Theorem X12_getStorageSize_counts_two_bytes_per_code_unit :
  forall storage : VueHud.Storage,
    returns (VueHud.getStorageSize storage) /\
    (List.NoDup (map fst storage) ->
       VueHud.getStorageSize storage
       = Normal {| VueHud.bytes := total (map entry_bytes storage);
                   VueHud.keys := Z.of_nat (length storage) |} /\
       exists half, total (map entry_bytes storage) = 2 * half /\ 0 <= half) /\
    VueHud.getStorageSize []
      = Normal {| VueHud.bytes := 0; VueHud.keys := 0 |}.
Proof.
  intros storage. split; [|split; [|reflexivity]].
  - unfold VueHud.getStorageSize.
    destruct (size_loop_returns storage (length storage) 0 0 ltac:(lia)) as (t & Ht).
    rewrite Ht. unfold returns. cbn [mbind completion_bind bind]. eauto.
  - intros Hnd. split; [|apply total_entry_bytes_even].
    unfold VueHud.getStorageSize.
    pose proof (size_loop_total storage Hnd storage [] 0 eq_refl) as Hloop.
    cbn [length] in Hloop. rewrite Hloop. reflexivity.
Qed.

Lemma X12_getStorageSize_counts_two_bytes_per_code_unit_witness :
  VueHud.getStorageSize sample_storage
  = Normal {| VueHud.bytes := 40; VueHud.keys := 2 |}.
Proof.
  exact (proj1 (proj1 (proj2 (X12_getStorageSize_counts_two_bytes_per_code_unit
                                sample_storage))
                 ltac:(repeat constructor; simpl; intuition discriminate))).
Defined.

(** X13.  The relative time of the last update: [--] when there was
    none; whole seconds while less than a minute has passed, also when the
    update lies in the future (a negative count); whole minutes from 1 to
    59 up to the hour; the local time of day from then on. *)
Theorem X13_relative_time_units :
  forall (toLocaleTimeString : Z -> string) (now t : Z),
    let shown := VueHud.hmrRelativeTime toLocaleTimeString now (Some t) in
    VueHud.hmrRelativeTime toLocaleTimeString now None = "--" /\
    (now - t < 60000 ->
       exists s, shown = pretty s +:+ "s ago" /\ s < 60 /\
                 1000 * s <= now - t < 1000 * (s + 1)) /\
    (now < t -> exists s, shown = pretty s +:+ "s ago" /\ s < 0) /\
    (60000 <= now - t < 3600000 ->
       exists m, shown = pretty m +:+ "m ago" /\ 1 <= m <= 59 /\
                 60000 * m <= now - t < 60000 * (m + 1)) /\
    (3600000 <= now - t -> shown = toLocaleTimeString t).
Proof.
  intros toLocaleTimeString now t shown. subst shown. unfold VueHud.hmrRelativeTime.
  pose proof (Z.mul_div_le (now - t) 1000 ltac:(lia)) as Hlo.
  pose proof (Z.mul_succ_div_gt (now - t) 1000 ltac:(lia)) as Hhi.
  set (diff := (now - t) / 1000) in *.
  pose proof (Z.mul_div_le diff 60 ltac:(lia)) as Hmlo.
  pose proof (Z.mul_succ_div_gt diff 60 ltac:(lia)) as Hmhi.
  split; [reflexivity|]. split; [|split; [|split]].
  - intros H. exists diff. destruct (Z.ltb_spec diff 60); [|lia].
    split; [reflexivity|lia].
  - intros H. exists diff. destruct (Z.ltb_spec diff 60); [|lia].
    split; [reflexivity|lia].
  - intros H. exists (diff / 60). destruct (Z.ltb_spec diff 60); [lia|].
    destruct (Z.ltb_spec diff 3600); [|lia].
    split; [reflexivity|lia].
  - intros H. destruct (Z.ltb_spec diff 60); [lia|].
    destruct (Z.ltb_spec diff 3600); [lia|reflexivity].
Qed.

Lemma X13_relative_time_units_witness :
  VueHud.hmrRelativeTime (fun _ => "10:15:00") 200000 (Some 10000) = "3m ago" /\
  VueHud.hmrRelativeTime (fun _ => "10:15:00") 10000 (Some 12500) = "-3s ago" /\
  VueHud.hmrRelativeTime (fun _ => "10:15:00") 3610000 (Some 10000) = "10:15:00".
Proof.
  destruct (X13_relative_time_units (fun _ => "10:15:00") 3610000 10000)
    as (_ & _ & _ & _ & Hlate).
  split; [reflexivity|]. split; [reflexivity|]. apply Hlate. lia.
Defined.

(** *** Backend URLs *)

Lemma prefix_begins (pre s : string) :
  String.prefix pre s = true <-> begins_with pre s.
Proof.
  unfold begins_with. revert s. induction pre as [|a pre IH]; intros s.
  - split; [intros _; now exists s|intros _; now destruct s].
  - destruct s as [|b s]; simpl.
    + split; [discriminate|]. intros (rest & H). discriminate H.
    + destruct (Ascii.ascii_dec a b) as [->|Hne].
      * rewrite IH. split; intros (rest & H); exists rest.
        -- now rewrite H.
        -- now injection H.
      * split; [discriminate|]. intros (rest & H). injection H as H _. congruence.
Qed.

Lemma includes_unfold (s sub : string) :
  VueHud.includes s sub
  = String.prefix sub s
    || match s with
       | EmptyString => false
       | String _ rest => VueHud.includes rest sub
       end.
Proof. now destruct s. Qed.

Lemma includes_occurs (s sub : string) :
  VueHud.includes s sub = true <-> occurs_in sub s.
Proof.
  unfold occurs_in. split.
  - induction s as [|c s IH]; rewrite includes_unfold; intros H.
    + rewrite orb_false_r in H. apply prefix_begins in H as (rest & ->).
      now exists "", rest.
    + apply orb_true_iff in H as [H|H].
      * apply prefix_begins in H as (rest & ->). now exists "", rest.
      * destruct (IH H) as (before & after & ->). now exists (String c before), after.
  - intros (before & after & ->). induction before as [|c before IH].
    + rewrite includes_unfold.
      change ("" +:+ sub +:+ after) with (sub +:+ after).
      replace (String.prefix sub (sub +:+ after)) with true; [reflexivity|].
      symmetry. apply prefix_begins. now exists after.
    + change (String c before +:+ sub +:+ after)
        with (String c (before +:+ sub +:+ after)).
      rewrite includes_unfold, IH. apply orb_true_r.
Qed.

Lemma names_a_backend_marker (key : string) :
  VueHud.names_a_backend key = true <-> backend_marker key.
Proof.
  unfold VueHud.names_a_backend, backend_marker.
  rewrite !orb_true_iff, !includes_occurs. tauto.
Qed.

Lemma push_vite_urls (entries : list (string * Value)) (urls : list (string * string)) :
  fold_left VueHud.push_vite_url entries urls = urls ++ omap vite_url entries.
Proof.
  revert urls. induction entries as [|entry entries IH]; intros urls.
  - simpl. now rewrite app_nil_r.
  - simpl. rewrite IH. unfold VueHud.push_vite_url, vite_url.
    destruct (snd entry); try reflexivity.
    destruct (_ && _); [now rewrite <- app_assoc|reflexivity].
Qed.

Lemma push_cra_urls (entries : list (string * Value)) (urls : list (string * string)) :
  fold_left ReactHud.push_cra_url entries urls = urls ++ omap cra_url entries.
Proof.
  revert urls. induction entries as [|entry entries IH]; intros urls.
  - simpl. now rewrite app_nil_r.
  - simpl. rewrite IH. unfold ReactHud.push_cra_url, cra_url.
    destruct (snd entry); try reflexivity.
    destruct (_ && _); [now rewrite <- app_assoc|reflexivity].
Qed.

Lemma vite_url_listed (entries : list (string * Value)) (k v : string) :
  (k, v) ∈ omap vite_url entries
  <-> (k, Str v) ∈ entries /\ backend_marker k /\ ~ begins_with "__" k.
Proof.
  rewrite list_elem_of_omap. unfold vite_url, VueHud.startsWith. split.
  - intros ([k' x] & Hin & Hf). simpl in Hf. destruct x; try discriminate.
    destruct (VueHud.names_a_backend k') eqn:Hn; simpl in Hf; [|discriminate].
    destruct (String.prefix "__" k') eqn:Hp; simpl in Hf; [discriminate|].
    injection Hf as -> ->. split; [exact Hin|].
    split; [now apply names_a_backend_marker|].
    intros Hb. apply prefix_begins in Hb. congruence.
  - intros (Hin & Hm & Hb). exists (k, Str v). split; [exact Hin|]. simpl.
    apply names_a_backend_marker in Hm. rewrite Hm.
    destruct (String.prefix "__" k) eqn:Hp; [|reflexivity].
    apply prefix_begins in Hp. contradiction.
Qed.

Lemma cra_url_listed (entries : list (string * Value)) (k v : string) :
  (k, v) ∈ omap cra_url entries
  <-> (k, Str v) ∈ entries /\ begins_with "REACT_APP_" k /\ backend_marker k.
Proof.
  rewrite list_elem_of_omap. unfold cra_url, VueHud.startsWith. split.
  - intros ([k' x] & Hin & Hf). simpl in Hf. destruct x; try discriminate.
    destruct (String.prefix "REACT_APP_" k') eqn:Hp; simpl in Hf; [|discriminate].
    destruct (VueHud.names_a_backend k') eqn:Hn; simpl in Hf; [|discriminate].
    injection Hf as -> ->. split; [exact Hin|].
    split; [now apply prefix_begins|now apply names_a_backend_marker].
  - intros (Hin & Hb & Hm). exists (k, Str v). split; [exact Hin|]. simpl.
    apply prefix_begins in Hb. apply names_a_backend_marker in Hm.
    now rewrite Hb, Hm.
Qed.

Lemma omap_keys_sublist (f : string * Value -> option (string * string))
    (entries : list (string * Value)) :
  (forall entry kv, f entry = Some kv -> fst kv = fst entry) ->
  sublist (map fst (omap f entries)) (map fst entries).
Proof.
  intros Hkey. induction entries as [|entry entries IH]; [constructor|].
  change (omap f (entry :: entries))
    with (match f entry with
          | Some kv => kv :: omap f entries
          | None => omap f entries
          end).
  destruct (f entry) as [kv|] eqn:E; simpl.
  - rewrite (Hkey entry kv E). now apply sublist_skip.
  - now apply sublist_cons.
Qed.

(** X14.  The Vue overlay lists an entry of [import.meta.env] as a backend
    URL exactly when its value is a string, its name holds [API],
    [BACKEND], [SERVER] or [BASE_URL] and does not begin with two
    underscores; the listed names keep the order of the environment, and
    nothing is listed when there is no environment. *)
Theorem X14_backendUrls_lists_the_marked_string_variables :
  forall (entries : list (string * Value)) (k v : string),
    ((k, v) ∈ VueHud.backendUrls (Some entries)
       <-> (k, Str v) ∈ entries /\ backend_marker k /\ ~ begins_with "__" k) /\
    sublist (map fst (VueHud.backendUrls (Some entries))) (map fst entries) /\
    VueHud.backendUrls None = [].
Proof.
  intros entries k v. unfold VueHud.backendUrls. rewrite push_vite_urls. simpl.
  split; [apply vite_url_listed|]. split; [|reflexivity].
  apply omap_keys_sublist. intros [k' x] kv. unfold vite_url. simpl.
  destruct x; try discriminate. destruct (_ && _); [|discriminate].
  now intros [= <-].
Qed.

(** Vite's own [BASE_URL] is always listed; the variable hidden behind
    two underscores is not. *)
Example backendUrls_of_sample_env :
  VueHud.backendUrls (Some sample_env)
  = [("BASE_URL", "/"); ("VITE_API_URL", "https://api.example.test")].
Proof. reflexivity. Qed.

(** X15.  The React overlay lists the marked string entries of
    [import.meta.env] first, as the Vue overlay does, and then the
    entries of [process.env] whose value is a string and whose name begins
    with [REACT_APP_] and holds one of the four markers: no other variable
    of the process environment is ever listed. *)
Theorem X15_getBackendUrls_lists_only_REACT_APP_variables :
  forall (meta_env process_env : option (list (string * Value)))
         (entries : list (string * Value)) (k v : string),
    ReactHud.getBackendUrls meta_env None = VueHud.backendUrls meta_env /\
    ReactHud.getBackendUrls meta_env (Some entries)
      = VueHud.backendUrls meta_env ++ ReactHud.getBackendUrls None (Some entries) /\
    ((k, v) ∈ ReactHud.getBackendUrls None (Some entries)
       <-> (k, Str v) ∈ entries /\ begins_with "REACT_APP_" k /\ backend_marker k) /\
    sublist (map fst (ReactHud.getBackendUrls None (Some entries))) (map fst entries).
Proof.
  intros meta_env process_env entries k v.
  unfold ReactHud.getBackendUrls, VueHud.backendUrls. rewrite !push_cra_urls. simpl.
  split; [reflexivity|]. split; [reflexivity|].
  split; [apply cra_url_listed|].
  apply omap_keys_sublist. intros [k' x] kv. unfold cra_url. simpl.
  destruct x; try discriminate. destruct (_ && _); [|discriminate].
  now intros [= <-].
Qed.

Example getBackendUrls_of_sample_envs :
  ReactHud.getBackendUrls (Some sample_env) (Some sample_process_env)
  = [("BASE_URL", "/"); ("VITE_API_URL", "https://api.example.test");
     ("REACT_APP_API_URL", "https://api.example.test")].
Proof. reflexivity. Qed.

(** *** Dragging *)

Lemma drag_on_keeps_docked_or_visible (d : VueHud.Drag) (e : VueHud.DragEvent) :
  (VueHud.position d = (-1, -1)
   \/ 0 <= fst (VueHud.position d) /\ 0 <= snd (VueHud.position d)) ->
  VueHud.position (VueHud.drag_on d e) = (-1, -1)
  \/ 0 <= fst (VueHud.position (VueHud.drag_on d e))
     /\ 0 <= snd (VueHud.position (VueHud.drag_on d e)).
Proof.
  intros H. destruct e as [x y [[l t]|]|x y w h|]; simpl; try exact H.
  unfold VueHud.onDragMove. destruct (VueHud.dragging d); simpl; [|exact H].
  right. lia.
Qed.

(** X16.  Dragging keeps the overlay in view.  A move while dragging puts
    the position at the pointer minus the grab offset, clamped so that it
    is never negative and, in a window at least as large as the overlay's
    320 by 40 handle, never further than the window's size minus that;
    a move while not dragging changes nothing.  Along any sequence of
    mouse events the position is either still the docked [(-1, -1)] or has
    no negative coordinate, and the explicit style is used exactly in the
    second case.  Pressing the button where no container is found still
    starts a drag, with the offset of the previous one. *)
Theorem X16_dragging_keeps_the_overlay_in_view :
  forall (events : list VueHud.DragEvent) (d : VueHud.Drag)
         (x y w h x0 y0 l t : Z),
    (VueHud.dragging d = false -> VueHud.onDragMove d x y w h = d) /\
    (VueHud.dragging d = true ->
       let pos := VueHud.position (VueHud.onDragMove d x y w h) in
       0 <= fst pos /\ 0 <= snd pos /\
       (320 <= w -> fst pos + 320 <= w) /\ (40 <= h -> snd pos + 40 <= h) /\
       (w < 320 -> fst pos = 0) /\ (h < 40 -> snd pos = 0)) /\
    (0 <= l + (x - x0) <= w - 320 -> 0 <= t + (y - y0) <= h - 40 ->
       VueHud.position
         (VueHud.onDragMove (VueHud.onDragStart d x0 y0 (Some (l, t))) x y w h)
       = (l + (x - x0), t + (y - y0))) /\
    (VueHud.dragging (VueHud.onDragStart d x0 y0 None) = true /\
     VueHud.dragOffset (VueHud.onDragStart d x0 y0 None) = VueHud.dragOffset d) /\
    (VueHud.position (drag_run events) = (-1, -1)
     \/ 0 <= fst (VueHud.position (drag_run events))
        /\ 0 <= snd (VueHud.position (drag_run events))) /\
    (VueHud.positionStyle (drag_run events) = []
       <-> VueHud.position (drag_run events) = (-1, -1)).
Proof.
  intros events d x y w h x0 y0 l t.
  assert (Hinv : VueHud.position (drag_run events) = (-1, -1)
                 \/ 0 <= fst (VueHud.position (drag_run events))
                    /\ 0 <= snd (VueHud.position (drag_run events))).
  { unfold drag_run. induction events as [|e events IH] using rev_ind.
    - now left.
    - rewrite fold_left_app. simpl. now apply drag_on_keeps_docked_or_visible. }
  split; [|split; [|split; [|split; [|split]]]].
  - intros Hd. unfold VueHud.onDragMove. now rewrite Hd.
  - intros Hd pos. subst pos. unfold VueHud.onDragMove. rewrite Hd. simpl. lia.
  - intros Hx Hy. simpl. f_equal; lia.
  - split; reflexivity.
  - exact Hinv.
  - unfold VueHud.positionStyle.
    destruct Hinv as [Hdocked|[Hx Hy]].
    + rewrite Hdocked. simpl. tauto.
    + destruct (Z.leb_spec 0 (fst (VueHud.position (drag_run events)))); [|lia].
      split; [discriminate|]. intros Hdocked. rewrite Hdocked in Hx. simpl in Hx. lia.
Qed.

Lemma X16_dragging_keeps_the_overlay_in_view_witness :
  VueHud.position
    (drag_run [ VueHud.MouseDown 900 700 (Some (880, 690));
                VueHud.MouseMove 500 400 1280 800;
                VueHud.MouseUp;
                VueHud.MouseMove 0 0 1280 800 ]) = (480, 390) /\
  VueHud.position
    (drag_run [ VueHud.MouseDown 900 700 (Some (880, 690));
                VueHud.MouseMove 5000 (-50) 1280 800 ]) = (960, 0).
Proof.
  split.
  - exact (proj1 (proj2 (proj2 (X16_dragging_keeps_the_overlay_in_view
             [] VueHud.initial_drag 500 400 1280 800 900 700 880 690)))
           ltac:(lia) ltac:(lia)).
  - reflexivity.
Defined.

(** *** Sections, visibility and polling *)

(** X17.  [toggleSection] leaves every other section as it is.  For a
    name the proxy hands to the object: the flag of a section is negated,
    and toggling it twice restores the sections exactly; a name that is
    no section and that [Object.prototype] does not have is created open,
    and a second toggle closes it; a name inherited from
    [Object.prototype], such as [constructor], reads truthy and is
    created closed.  Toggling [__proto__] changes nothing. *)
Theorem X17_toggleSection_flips_one_section :
  forall (proxy_answer : string -> option bool) (sections : gmap string bool)
         (name other : string) (b : bool),
    let toggle := VueHud.toggleSection proxy_answer in
    (other <> name -> toggle sections name !! other = sections !! other) /\
    (proxy_answer name = None -> sections !! name = Some b ->
       toggle sections name !! name = Some (negb b) /\
       toggle (toggle sections name) name = sections) /\
    (proxy_answer name = None -> sections !! name = None ->
     VueHud.inherited name = false ->
       toggle sections name = <[name := true]> sections /\
       toggle (toggle sections name) name = <[name := false]> sections) /\
    (proxy_answer name = None -> sections !! name = None ->
     VueHud.inherited name = true -> name <> "__proto__" ->
       toggle sections name = <[name := false]> sections /\
       toggle (toggle sections name) name = <[name := true]> sections) /\
    (sections !! "__proto__" = None -> toggle sections "__proto__" = sections).
Proof.
  intros proxy_answer sections name other b toggle. subst toggle.
  unfold VueHud.toggleSection, VueHud.section_is_open, VueHud.assign_section.
  split; [|split; [|split; [|split]]].
  - intros Hne. destruct (sections !! name).
    + now rewrite lookup_insert_ne.
    + destruct (String.eqb name "__proto__"); [reflexivity|].
      now rewrite lookup_insert_ne.
  - intros Hproxy Hb. rewrite Hproxy, Hb. split; [now rewrite lookup_insert_eq|].
    rewrite lookup_insert_eq, insert_insert_eq, negb_involutive.
    now apply insert_id.
  - intros Hproxy Hnone Hinh. rewrite Hproxy, Hnone, Hinh.
    assert (Hp : String.eqb name "__proto__" = false).
    { apply String.eqb_neq. intros ->. discriminate Hinh. }
    rewrite Hp. split; [reflexivity|].
    now rewrite lookup_insert_eq, insert_insert_eq.
  - intros Hproxy Hnone Hinh Hne. rewrite Hproxy, Hnone, Hinh.
    apply String.eqb_neq in Hne. rewrite Hne. split; [reflexivity|].
    now rewrite lookup_insert_eq, insert_insert_eq.
  - intros Hnone. now rewrite Hnone.
Qed.

Lemma X17_toggleSection_flips_one_section_witness :
  VueHud.toggleSection vue3_flags VueHud.initial_sections "storage" !! "storage"
    = Some true /\
  VueHud.toggleSection vue3_flags
    (VueHud.toggleSection vue3_flags VueHud.initial_sections "storage") "storage"
    = VueHud.initial_sections /\
  VueHud.toggleSection vue3_flags VueHud.initial_sections "network"
    = <["network" := true]> VueHud.initial_sections /\
  VueHud.toggleSection vue3_flags VueHud.initial_sections "constructor"
    = <["constructor" := false]> VueHud.initial_sections.
Proof.
  destruct (X17_toggleSection_flips_one_section vue3_flags VueHud.initial_sections
              "storage" "hmr" false) as (_ & Hflip & _).
  destruct (X17_toggleSection_flips_one_section vue3_flags VueHud.initial_sections
              "network" "hmr" false) as (_ & _ & Hnew & _).
  destruct (X17_toggleSection_flips_one_section vue3_flags VueHud.initial_sections
              "constructor" "hmr" false) as (_ & _ & _ & Hinherited & _).
  destruct (Hflip eq_refl eq_refl) as [H1 H2].
  destruct (Hnew eq_refl eq_refl eq_refl) as [H3 _].
  destruct (Hinherited eq_refl eq_refl eq_refl ltac:(discriminate)) as [H4 _].
  split; [exact H1|]. split; [exact H2|]. split; [exact H3|exact H4].
Defined.

(** *** Polling *)








Lemma keys_run_snoc (visible : bool) (events : list VueHud.KeyboardEvent)
    (e : VueHud.KeyboardEvent) :
  keys_run visible (events ++ [e]) = fst (VueHud.onKeyDown (keys_run visible events) e).
Proof. unfold keys_run. now rewrite fold_left_app. Qed.

(** X19.  The overlay's visibility changes on a key event exactly when
    Control or Meta is held together with Shift and the key is the capital
    [H]; the default action is prevented on exactly those events.  After
    any sequence of key events the overlay shows as at the start when the
    number of such chords is even, and the opposite when it is odd. *)
Theorem X19_visibility_follows_the_parity_of_the_chord :
  forall (visible : bool) (events : list VueHud.KeyboardEvent)
         (e : VueHud.KeyboardEvent),
    snd (VueHud.onKeyDown visible e) = VueHud.is_toggle_chord e /\
    (fst (VueHud.onKeyDown visible e) <> visible <-> VueHud.is_toggle_chord e = true) /\
    (VueHud.is_toggle_chord e = true
       <-> (VueHud.ctrlKey e = true \/ VueHud.metaKey e = true)
           /\ VueHud.shiftKey e = true /\ VueHud.key_name e = "H") /\
    keys_run visible events
      = (if Nat.even (chords events) then visible else negb visible).
Proof.
  intros visible events e. split; [|split; [|split]].
  - unfold VueHud.onKeyDown. now destruct (VueHud.is_toggle_chord e).
  - unfold VueHud.onKeyDown. destruct (VueHud.is_toggle_chord e); simpl.
    + split; [reflexivity|]. intros _. now destruct visible.
    + split; [congruence|discriminate].
  - unfold VueHud.is_toggle_chord.
    rewrite !andb_true_iff, orb_true_iff, String.eqb_eq. tauto.
  - induction events as [|e' events IH] using rev_ind; [reflexivity|].
    rewrite keys_run_snoc, IH. unfold chords, VueHud.onKeyDown.
    rewrite List.filter_app, length_app. simpl.
    destruct (VueHud.is_toggle_chord e'); simpl.
    + replace (length (List.filter VueHud.is_toggle_chord events) + 1)%nat
        with (S (length (List.filter VueHud.is_toggle_chord events))) by lia.
      rewrite Nat.even_succ, <- Nat.negb_even.
      destruct (Nat.even _); simpl; [reflexivity|now rewrite negb_involutive].
    + now rewrite Nat.add_0_r.
Qed.

Example lower_case_h_does_not_toggle :
  VueHud.onKeyDown true
    {| VueHud.ctrlKey := true; VueHud.metaKey := false; VueHud.shiftKey := true;
       VueHud.key_name := "h" |} = (true, false)
  /\ keys_run true [shift_ctrl_H; shift_ctrl_H; shift_ctrl_H] = false.
Proof. split; reflexivity. Qed.

(** X20.  [configResolved] is idempotent: resolving the same config again
    changes neither the plugin nor the outcome.  When collecting the
    diagnostics of a later config completes, nothing of an earlier
    config is left: the plugin is as if only the later one had been
    resolved. *)
Theorem X20_configResolved_is_idempotent :
  forall (h : Host) (p : Vite.Plugin) (c c' : Vite.Config.t) (d : Vite.HudDiagnostics.t),
    Vite.configResolved h (fst (Vite.configResolved h p c)) c
      = Vite.configResolved h p c /\
    (Vite.collect h c' = Normal d ->
       Vite.configResolved h (fst (Vite.configResolved h p c)) c'
       = Vite.configResolved h p c').
Proof.
  intros h p c c' d. split.
  - unfold Vite.configResolved. destruct (Vite.collect h c); reflexivity.
  - intros Hd. unfold Vite.configResolved. rewrite Hd.
    destruct (Vite.collect h c); reflexivity.
Qed.

Lemma X20_configResolved_is_idempotent_witness :
  Vite.configResolved (project nuxt_app ["yarn.lock"])
    (fst (Vite.configResolved (project nuxt_app ["yarn.lock"]) (Vite.hudPlugin 0)
            build_config)) serve_config
  = Vite.configResolved (project nuxt_app ["yarn.lock"]) (Vite.hudPlugin 0) serve_config.
Proof.
  exact (proj2 (X20_configResolved_is_idempotent
                  (project nuxt_app ["yarn.lock"]) (Vite.hudPlugin 0)
                  build_config serve_config _) eq_refl).
Defined.

(** *** Storage metrics *)

Lemma append_empty_r (s : string) : s +:+ "" = s.
Proof.
  induction s as [|c s IH]; [reflexivity|].
  change (String c s +:+ "") with (String c (s +:+ "")). now rewrite IH.
Qed.

Lemma split_head_tail (sep : ascii) (s : string) :
  VueHud.split sep s = hd "" (VueHud.split sep s) :: tl (VueHud.split sep s).
Proof.
  destruct s as [|c s]; [reflexivity|]. simpl.
  destruct (Ascii.eqb c sep); [reflexivity|].
  now destruct (VueHud.split sep s).
Qed.

Lemma split_after_pair (pair rest : string) :
  has_semicolon pair = false ->
  VueHud.split ";"%char (pair +:+ rest)
  = (pair +:+ hd "" (VueHud.split ";"%char rest)) :: tl (VueHud.split ";"%char rest).
Proof.
  intros Hpair. induction pair as [|c pair IH].
  - apply split_head_tail.
  - simpl in Hpair. apply orb_false_iff in Hpair as [Hc Hrest].
    change (String c pair +:+ rest) with (String c (pair +:+ rest)).
    simpl. rewrite Hc, (IH Hrest). reflexivity.
Qed.

Lemma split_joined_pairs (first : string) (others : list string) :
  Forall cookie_pair (first :: others) ->
  VueHud.split ";"%char (join "; " (first :: others))
  = first :: map (String " "%char) others.
Proof.
  revert first. induction others as [|second others IH]; intros first Hall.
  - inversion Hall as [|? ? [_ Hfirst] _]; subst. simpl.
    rewrite <- (append_empty_r first) at 1.
    rewrite (split_after_pair first "" Hfirst). simpl.
    now rewrite append_empty_r.
  - inversion Hall as [|? ? [_ Hfirst] Hrest]; subst.
    change (join "; " (first :: second :: others))
      with (first +:+ String ";"%char (String " "%char (join "; " (second :: others)))).
    rewrite (split_after_pair first _ Hfirst).
    change (VueHud.split ";"%char
              (String ";"%char (String " "%char (join "; " (second :: others)))))
      with ("" :: VueHud.split ";"%char (String " "%char (join "; " (second :: others)))).
    cbn [hd tl]. rewrite append_empty_r. f_equal.
    change (String " "%char (join "; " (second :: others)))
      with (" " +:+ join "; " (second :: others)).
    rewrite (split_after_pair " " _ eq_refl), (IH second Hrest). reflexivity.
Qed.

Lemma filter_all_kept {A : Type} (f : A -> bool) (l : list A) :
  Forall (fun x => f x = true) l -> List.filter f l = l.
Proof.
  induction 1 as [|x l Hx _ IH]; [reflexivity|]. simpl. now rewrite Hx, IH.
Qed.

(** X21.  The cookies the overlay counts are the non-empty pieces of
    [document.cookie] between semicolons: none for the empty string, and
    for [n] pairs joined by a semicolon and a space exactly [n] pieces,
    the first pair and each later one with its leading space. *)
Theorem X21_cookies_are_the_non_empty_segments :
  forall (first : string) (others : list string),
    VueHud.cookies "" = [] /\
    (Forall cookie_pair (first :: others) ->
       VueHud.cookies (join "; " (first :: others))
         = first :: map (String " "%char) others /\
       length (VueHud.cookies (join "; " (first :: others))) = S (length others)).
Proof.
  intros first others. split; [reflexivity|]. intros Hall.
  assert (Hsegments : VueHud.cookies (join "; " (first :: others))
                      = first :: map (String " "%char) others).
  { unfold VueHud.cookies. rewrite (split_joined_pairs first others Hall).
    apply filter_all_kept. constructor.
    - inversion Hall as [|? ? [Hne _] _]; subst. simpl.
      destruct (String.eqb_spec first ""); [contradiction|reflexivity].
    - apply Forall_map, Forall_forall. intros x _. reflexivity. }
  split; [exact Hsegments|]. rewrite Hsegments. simpl. now rewrite length_map.
Qed.

Lemma X21_cookies_are_the_non_empty_segments_witness :
  VueHud.cookies "theme=dark; session=abc" = ["theme=dark"; " session=abc"].
Proof.
  exact (proj1 (proj2 (X21_cookies_are_the_non_empty_segments
                         "theme=dark" ["session=abc"])
                 ltac:(repeat constructor; discriminate))).
Defined.

(** Empty pieces, as two semicolons in a row or one at the end leave
    them, are not counted. *)
Example stray_semicolons_are_not_cookies :
  VueHud.cookies "a=1;;b=2;" = ["a=1"; "b=2"].
Proof. reflexivity. Qed.

Lemma getStorageSize_returns (storage : VueHud.Storage) :
  returns (VueHud.getStorageSize storage).
Proof.
  unfold VueHud.getStorageSize.
  destruct (size_loop_returns storage (length storage) 0 0 ltac:(lia)) as (t & Ht).
  rewrite Ht. unfold returns. cbn [mbind completion_bind bind]. eauto.
Qed.

Lemma getStorageSize_total (storage : VueHud.Storage) :
  List.NoDup (map fst storage) ->
  VueHud.getStorageSize storage
  = Normal {| VueHud.bytes := total (map entry_bytes storage);
              VueHud.keys := Z.of_nat (length storage) |}.
Proof.
  intros Hnd. unfold VueHud.getStorageSize.
  pose proof (size_loop_total storage Hnd storage [] 0 eq_refl) as Hloop.
  cbn [length] in Hloop. rewrite Hloop. reflexivity.
Qed.

(** X22.  [updateStorage] keeps the previous storage metrics whenever
    reading [localStorage], [sessionStorage] or [document.cookie] throws,
    and only then: with the three readable it replaces all six metrics,
    by the sizes and key counts of the two storages, the number of
    cookies and the byte length of the cookie string. *)
Theorem X22_updateStorage_keeps_metrics_when_access_is_restricted :
  forall (previous : VueHud.StorageMetrics)
         (localStorage sessionStorage : Completion VueHud.Storage)
         (cookie : Completion string) (e : Error)
         (local session : VueHud.Storage) (text : string),
    VueHud.updateStorage previous (Throw e) sessionStorage cookie = previous /\
    VueHud.updateStorage previous localStorage (Throw e) cookie = previous /\
    VueHud.updateStorage previous localStorage sessionStorage (Throw e) = previous /\
    (List.NoDup (map fst local) -> List.NoDup (map fst session) ->
       VueHud.updateStorage previous (Normal local) (Normal session) (Normal text)
       = {| VueHud.localStorageBytes := total (map entry_bytes local);
            VueHud.localStorageKeys := Z.of_nat (length local);
            VueHud.sessionStorageBytes := total (map entry_bytes session);
            VueHud.sessionStorageKeys := Z.of_nat (length session);
            VueHud.cookieCount := Z.of_nat (length (VueHud.cookies text));
            VueHud.cookieBytes := Z.of_nat (String.length text) |}).
Proof.
  intros previous localStorage sessionStorage cookie e local session text.
  split; [reflexivity|]. split; [|split].
  - unfold VueHud.updateStorage.
    destruct localStorage as [l|]; [|reflexivity].
    cbn [mbind completion_bind bind].
    destruct (getStorageSize_returns l) as (ls & ->). reflexivity.
  - unfold VueHud.updateStorage.
    destruct localStorage as [l|]; [|reflexivity].
    cbn [mbind completion_bind bind].
    destruct (getStorageSize_returns l) as (ls & ->).
    cbn [mbind completion_bind bind].
    destruct sessionStorage as [s|]; [|reflexivity].
    cbn [mbind completion_bind bind].
    destruct (getStorageSize_returns s) as (ss & ->). reflexivity.
  - intros Hl Hs. unfold VueHud.updateStorage.
    cbn [mbind completion_bind bind]. rewrite (getStorageSize_total local Hl).
    cbn [mbind completion_bind bind]. rewrite (getStorageSize_total session Hs).
    reflexivity.
Qed.

Lemma X22_updateStorage_keeps_metrics_when_access_is_restricted_witness :
  VueHud.updateStorage zero_storage_metrics (Normal sample_storage) (Normal [])
    (Normal "theme=dark; session=abc")
  = {| VueHud.localStorageBytes := 40; VueHud.localStorageKeys := 2;
       VueHud.sessionStorageBytes := 0; VueHud.sessionStorageKeys := 0;
       VueHud.cookieCount := 2; VueHud.cookieBytes := 23 |}.
Proof.
  exact (proj2 (proj2 (proj2
           (X22_updateStorage_keeps_metrics_when_access_is_restricted
              zero_storage_metrics (Normal sample_storage) (Normal [])
              (Normal "theme=dark; session=abc") (SystemError "SecurityError")
              sample_storage [] "theme=dark; session=abc")))
         ltac:(repeat constructor; simpl; intuition discriminate)
         ltac:(constructor)).
Defined.
